(** * HR management application: access control and JSON-file persistence

    A shallow embedding of [app.py] (the Flask application of the HR module):
    the JSON store ([read_json_file], [write_json_file]), the route guards
    ([login_required], [role_required]) and the attendance, leave, employee,
    recruitment and login handlers, followed by the properties of the
    access-control and persistence core.

    Python values are embedded as the type [value]; a handler is a function
    from a request to a computation over the application state (the data
    files, the session and the flashed messages) that either returns a
    response or raises. An exception keeps the state reached so far, as in
    Python: nothing is rolled back. *)

From Stdlib Require Import ZArith Ascii String List Bool DecimalString.
From Stdlib Require Import PrimFloat SpecFloat FloatOps Uint63.
From stdpp Require Import gmap strings list.

Set Warnings "-register-all".
Local Open Scope string_scope.
Local Open Scope Z_scope.

(** ** Python values *)

(** What [json.load] produces and what the handlers build: [None], booleans,
    integers, floats, strings, lists and dictionaries with string keys. A
    dictionary is an association list in insertion order (the order
    [json.dump] writes); a key is looked up at its first entry. *)
Inductive value : Type :=
| VNone
| VBool (b : bool)
| VInt (z : Z)
| VFloat (f : float)
| VStr (s : string)
| VList (l : list value)
| VDict (d : list (string * value)).

Inductive exn : Type :=
| FileNotFoundError
| UnicodeDecodeError
| JSONDecodeError
| RecursionError
| KeyError (k : string)
| TypeError
| ValueError
| AttributeError.

(** A computation without side effects: a result or a raised exception. *)
Inductive res (A : Type) : Type :=
| Ok (a : A)
| Raise (e : exn).
Arguments Ok {A} a.
Arguments Raise {A} e.

Definition res_bind {A B} (m : res A) (k : A -> res B) : res B :=
  match m with
  | Ok a => k a
  | Raise e => Raise e
  end.

Declare Scope res_scope.
Delimit Scope res_scope with res.
Notation "'let?' x ':=' m 'in' k" := (res_bind m (fun x => k))
  (at level 10, x name, m at level 100, k at level 200,
   format "'[v' 'let?'  x  ':='  m  'in' '/' k ']'") : res_scope.
Local Open Scope res_scope.

(** *** Numbers: [bool] and [int] compare with [float] by exact value *)

Inductive num : Type :=
| NInt (z : Z)
| NFloat (f : float).

Definition num_of (v : value) : option num :=
  match v with
  | VBool b => Some (NInt (Z.b2z b))
  | VInt z => Some (NInt z)
  | VFloat f => Some (NFloat f)
  | _ => None
  end.

(** An integer against a float, on the float's exact value; [None] for NaN. *)
Definition Z_cmp_float (z : Z) (f : float) : option comparison :=
  match Prim2SF f with
  | S754_nan => None
  | S754_infinity s => Some (if s then Gt else Lt)
  | S754_zero _ => Some (z ?= 0)
  | S754_finite s m e =>
      let v := if s then Z.neg m else Z.pos m in
      Some (if 0 <=? e then z ?= v * 2 ^ e else z * 2 ^ (- e) ?= v)
  end.

Definition num_cmp (x y : num) : option comparison :=
  match x, y with
  | NInt a, NInt b => Some (a ?= b)
  | NInt a, NFloat g => Z_cmp_float a g
  | NFloat f, NInt b => option_map CompOpp (Z_cmp_float b f)
  | NFloat f, NFloat g =>
      match PrimFloat.compare f g with
      | FEq => Some Eq
      | FLt => Some Lt
      | FGt => Some Gt
      | FNotComparable => None
      end
  end.

Definition num_eqb (x y : num) : bool :=
  match num_cmp x y with
  | Some Eq => true
  | _ => false
  end.

Definition num_gtb (x y : num) : bool :=
  match num_cmp x y with
  | Some Gt => true
  | _ => false
  end.

(** *** Dictionaries *)

Fixpoint dict_get {A} (k : string) (d : list (string * A)) : option A :=
  match d with
  | [] => None
  | (k', v) :: r => if String.eqb k' k then Some v else dict_get k r
  end.

(** [d[k] = v]: an existing key keeps its place, a new one goes last. *)
Fixpoint dict_set {A} (k : string) (v : A) (d : list (string * A)) : list (string * A) :=
  match d with
  | [] => [(k, v)]
  | (k', v') :: r => if String.eqb k' k then (k', v) :: r else (k', v') :: dict_set k v r
  end.

(** *** [==], truth value, [>] and [+] *)

(** [a == b]. Numbers compare by value ([1 == 1.0 == True]), lists
    element-wise, dictionaries key by key whatever the order. *)
Fixpoint py_eq (a b : value) : bool :=
  match a, b with
  | VNone, VNone => true
  | VStr s, VStr t => String.eqb s t
  | VList la, VList lb =>
      (fix go (la lb : list value) : bool :=
         match la, lb with
         | [], [] => true
         | x :: xs, y :: ys => py_eq x y && go xs ys
         | _, _ => false
         end) la lb
  | VDict da, VDict db =>
      Nat.eqb (length da) (length db) &&
      (fix go (da : list (string * value)) : bool :=
         match da with
         | [] => true
         | (k, v) :: r =>
             match dict_get k db with
             | Some w => py_eq v w
             | None => false
             end && go r
         end) da
  | _, _ =>
      match num_of a, num_of b with
      | Some x, Some y => num_eqb x y
      | _, _ => false
      end
  end.

(** [bool(v)], the test of [if v:] and of [and]/[or]/[not]. *)
Definition py_truthy (v : value) : bool :=
  match v with
  | VNone => false
  | VBool b => b
  | VInt z => negb (z =? 0)
  | VFloat f => negb (PrimFloat.eqb f PrimFloat.zero)
  | VStr s => negb (String.eqb s "")
  | VList l => match l with [] => false | _ => true end
  | VDict d => match d with [] => false | _ => true end
  end.

(** [a > b]: numbers by value, strings and lists lexicographically;
    anything else is unorderable. *)
Fixpoint py_gt (a b : value) : res bool :=
  match a, b with
  | VStr s, VStr t => Ok (String.ltb t s)
  | VList la, VList lb =>
      (fix go (la lb : list value) : res bool :=
         match la, lb with
         | [], _ => Ok false
         | _ :: _, [] => Ok true
         | x :: xs, y :: ys => if py_eq x y then go xs ys else py_gt x y
         end) la lb
  | _, _ =>
      match num_of a, num_of b with
      | Some x, Some y => Ok (num_gtb x y)
      | _, _ => Raise TypeError
      end
  end.

(** [v + 1] with the integer literal [1]. *)
Definition py_add1 (v : value) : res value :=
  match v with
  | VBool b => Ok (VInt (Z.b2z b + 1))
  | VInt z => Ok (VInt (z + 1))
  | VFloat f => Ok (VFloat (PrimFloat.add f PrimFloat.one))
  | _ => Raise TypeError
  end.

(** [max(l, default=d)]: the first greatest element, found with [>]. *)
Fixpoint py_max_from (best : value) (l : list value) : res value :=
  match l with
  | [] => Ok best
  | x :: r =>
      let? g := py_gt x best in
      py_max_from (if g then x else best) r
  end.

Definition py_max (l : list value) (default : value) : res value :=
  match l with
  | [] => Ok default
  | x :: r => py_max_from x r
  end.

(** *** Subscripts, [.get], iteration *)

(** [v[k]] with a string [k]. *)
Definition getitem (v : value) (k : string) : res value :=
  match v with
  | VDict d =>
      match dict_get k d with
      | Some x => Ok x
      | None => Raise (KeyError k)
      end
  | _ => Raise TypeError
  end.

(** [v.get(k, default)]. *)
Definition py_get (v : value) (k : string) (default : value) : res value :=
  match v with
  | VDict d => Ok (match dict_get k d with Some x => x | None => default end)
  | _ => Raise AttributeError
  end.

(** [v[k] = x]. *)
Definition setitem (v : value) (k : string) (x : value) : res value :=
  match v with
  | VDict d => Ok (VDict (dict_set k x d))
  | _ => Raise TypeError
  end.

Fixpoint chars (s : string) : list value :=
  match s with
  | EmptyString => []
  | String c r => VStr (String c EmptyString) :: chars r
  end.

(** The elements [for x in v] runs over (a string gives its characters,
    here one per byte; the handlers subscript each element with a key, which
    raises on any of them). *)
Definition py_iter (v : value) : res (list value) :=
  match v with
  | VList l => Ok l
  | VDict d => Ok (map (fun kv => VStr (fst kv)) d)
  | VStr s => Ok (chars s)
  | _ => Raise TypeError
  end.

(** [l.append(x)]. *)
Definition py_append (v x : value) : res value :=
  match v with
  | VList l => Ok (VList (l ++ [x]))
  | _ => Raise AttributeError
  end.

(** [[f(x) for x in l]]. *)
Fixpoint map_res {A B} (f : A -> res B) (l : list A) : res (list B) :=
  match l with
  | [] => Ok []
  | x :: r =>
      let? y := f x in
      let? ys := map_res f r in
      Ok (y :: ys)
  end.

(** [[x for x in l if p(x)]]. *)
Fixpoint filter_res {A} (p : A -> res bool) (l : list A) : res (list A) :=
  match l with
  | [] => Ok []
  | x :: r =>
      let? b := p x in
      let? ys := filter_res p r in
      Ok (if b then x :: ys else ys)
  end.

(** [next((x for x in l if p(x)), None)], with the position of the element
    found: the generator is lazy, nothing after the first hit is looked at. *)
Fixpoint find_from {A} (p : A -> res bool) (i : nat) (l : list A) : res (option (nat * A)) :=
  match l with
  | [] => Ok None
  | x :: r =>
      let? b := p x in
      if b then Ok (Some (i, x)) else find_from p (S i) r
  end.

Definition find_first {A} (p : A -> res bool) (l : list A) : res (option (nat * A)) :=
  find_from p 0%nat l.

(** [d.update]-style run of assignments [v[k1] = x1; v[k2] = x2; ...]. *)
Fixpoint setitems (v : value) (kvs : list (string * value)) : res value :=
  match kvs with
  | [] => Ok v
  | (k, x) :: r =>
      let? v' := setitem v k x in
      setitems v' r
  end.

(** [x in seq] for a tuple or list of strings. *)
Definition py_in (v : value) (seq : list string) : bool :=
  existsb (fun s => py_eq (VStr s) v) seq.

(** A dictionary keyed by arbitrary values, as built by
    [{emp['employee_id']: emp for emp in employees}]: lists and dictionaries
    are unhashable, an equal key overwrites the value and keeps its place. *)
Definition hashable (v : value) : bool :=
  match v with
  | VList _ | VDict _ => false
  | _ => true
  end.

Fixpoint lookup_set (k v : value) (m : list (value * value)) : list (value * value) :=
  match m with
  | [] => [(k, v)]
  | (k', v') :: r => if py_eq k' k then (k', v) :: r else (k', v') :: lookup_set k v r
  end.

Fixpoint lookup_find (k : value) (m : list (value * value)) : option value :=
  match m with
  | [] => None
  | (k', v) :: r => if py_eq k' k then Some v else lookup_find k r
  end.

Fixpoint build_lookup (key : string) (m : list (value * value)) (l : list value)
  : res (list (value * value)) :=
  match l with
  | [] => Ok m
  | x :: r =>
      let? k := getitem x key in
      if hashable k then build_lookup key (lookup_set k x m) r else Raise TypeError
  end.

(** [m.get(k)]. *)
Definition lookup_get (m : list (value * value)) (k : value) : res (option value) :=
  if hashable k then Ok (lookup_find k m) else Raise TypeError.

(** The object bound by [x = next(..., None)] when [if x:] holds. *)
Definition present (found : option (nat * value)) : option (nat * value) :=
  match found with
  | Some (i, x) => if py_truthy x then Some (i, x) else None
  | None => None
  end.

(** The record found at position [i] is an alias of the list's element:
    assigning to its fields changes the list that is written back. *)
Definition coll_update (coll : value) (i : nat) (x : value) : value :=
  match coll with
  | VList l => VList (<[i := x]> l)
  | _ => coll
  end.

(** [s.encode('utf-8')]: strings are kept as their UTF-8 bytes. *)
Definition encode (v : value) : res string :=
  match v with
  | VStr s => Ok s
  | _ => Raise AttributeError
  end.

(** ** Library functions the application calls *)

(** The parts of Python's library and of the packages the application
    imports, taken by their interface. *)
Class Externals : Type := {
  (** [json.load] on the text of a file; [None] is [JSONDecodeError] *)
  json_decode : string -> option value;
  (** the text [json.dump(data, f, indent=2)] writes *)
  json_dump : value -> string;
  (** [str(v)], as an f-string formats a field *)
  py_str : value -> string;
  (** [int(s)] on a string; [None] is [ValueError] *)
  int_of_str : string -> option Z;
  (** [float(s)] on a string; [None] is [ValueError] *)
  float_of_str : string -> option float;
  (** [bcrypt.checkpw(password, hashed)] *)
  checkpw : string -> string -> res bool;
  (** [werkzeug.utils.secure_filename] *)
  secure_filename : string -> string
}.

(** ** Application state, requests and responses *)

Record state : Type := State {
  files : gmap string string;          (* the files that exist: path to the text
                                          that open(path, 'r') reads *)
  session : gmap string value;         (* Flask's session: the keys the handlers set *)
  flashes : list (string * string)     (* flashed (message, category); Flask keeps
                                          them in the session under _flashes *)
}.

Inductive http_method : Type := GET | POST.

Record request : Type := Request {
  method : http_method;
  form : gmap string string;           (* request.form *)
  args : gmap string string;           (* request.args *)
  upload : option (string * string);   (* request.files.get('resume'): name, content *)
  today : string;                      (* datetime.now().strftime('%Y-%m-%d') *)
  now_time : string;                   (* datetime.now().strftime('%H:%M:%S') *)
  now_stamp : string                   (* datetime.now().strftime('%Y%m%d_%H%M%S_') *)
}.

Inductive response : Type :=
| Redirect (endpoint : string) (url_args : list (string * Z))
| Render (template : string) (context : list (string * value)).

(** A computation of a handler: it transforms the state and returns or raises. *)
Definition M (A : Type) : Type := state -> state * res A.

Definition ret {A} (a : A) : M A := fun st => (st, Ok a).

Definition bind {A B} (m : M A) (k : A -> M B) : M B :=
  fun st =>
    match m st with
    | (st', Ok a) => k a st'
    | (st', Raise e) => (st', Raise e)
    end.

Definition lift {A} (r : res A) : M A := fun st => (st, r).

(** [try: m  except ...: h e], where [h] says which exceptions are caught. *)
Definition try_except {A} (m : M A) (h : exn -> option (M A)) : M A :=
  fun st =>
    match m st with
    | (st', Ok a) => (st', Ok a)
    | (st', Raise e) =>
        match h e with
        | Some k => k st'
        | None => (st', Raise e)
        end
    end.

Declare Scope M_scope.
Delimit Scope M_scope with M.
Notation "'let*' x ':=' m 'in' k" := (bind m (fun x => k))
  (at level 10, x name, m at level 100, k at level 200,
   format "'[v' 'let*'  x  ':='  m  'in' '/' k ']'") : M_scope.
Notation "m ';;' k" := (bind m (fun _ => k))
  (at level 100, k at level 200, right associativity) : M_scope.
Local Open Scope M_scope.

Definition handler : Type := request -> M response.

Definition flash (message category : string) : M unit :=
  fun st =>
    ({| files := files st; session := session st;
        flashes := flashes st ++ [(message, category)] |}, Ok tt).

(** ['k' in session] *)
Definition session_has (k : string) : M bool :=
  fun st => (st, Ok (bool_decide (is_Some (session st !! k)))).

(** [session.get(k)] *)
Definition session_get (k : string) : M value :=
  fun st => (st, Ok (default VNone (session st !! k))).

(** [session[k] = v] *)
Definition session_set (k : string) (v : value) : M unit :=
  fun st =>
    ({| files := files st; session := <[k := v]> (session st);
        flashes := flashes st |}, Ok tt).

(** [request.form.get(k)] and [request.form.get(k, d)] *)
Definition form_get (req : request) (k : string) : value :=
  match form req !! k with
  | Some s => VStr s
  | None => VNone
  end.

Definition form_get_default (req : request) (k : string) (d : value) : value :=
  match form req !! k with
  | Some s => VStr s
  | None => d
  end.

(** [x or None] *)
Definition or_none (v : value) : value :=
  if py_truthy v then v else VNone.

Definition redirect (endpoint : string) : M response := ret (Redirect endpoint []).

Definition render_template (template : string) (context : list (string * value)) : M response :=
  ret (Render template context).

(** ** Data files *)

Definition EMPLOYEES_FILE : string := "data/employees.json".
Definition USERS_FILE : string := "data/users.json".
Definition DEPARTMENTS_FILE : string := "data/departments.json".
Definition ATTENDANCE_FILE : string := "data/attendance.json".
Definition LEAVES_FILE : string := "data/leaves.json".
Definition JOBS_FILE : string := "data/jobs.json".
Definition APPLICANTS_FILE : string := "data/applicants.json".
Definition FILES_DIR : string := "data/files".
Definition ALLOWED_EXTENSIONS : list string := ["pdf"; "doc"; "docx"].

(** ** The platform under the JSON store

    A file is the sequence of its bytes. [open(filepath, 'r')] names no
    encoding, so reading decodes the bytes with the codec of the locale and
    raises [UnicodeDecodeError] on bytes that codec refuses; [json.load]
    stops with [RecursionError] on a document nested deeper than the
    interpreter's recursion limit and with [ValueError] on an integer of
    more digits than the interpreter converts. Text is kept as its UTF-8
    bytes, as everywhere in this file. *)
Inductive limit : Type :=
| TooDeep          (* nesting beyond the recursion limit *)
| TooManyDigits.   (* an integer beyond the limit on digits *)

Class Platform : Type := {
  (** the text that reading the bytes of a file yields; [None] is
      [UnicodeDecodeError] *)
  decode_text : string -> option string;
  (** the limit of the interpreter that [json.load] meets on the text *)
  json_limit : string -> option limit
}.

(** The platform of a store that is kept in order: whatever a data file
    holds is text of the locale's encoding, and no document is deep or long
    enough to meet a limit of the interpreter. *)
Definition kept_store : Platform :=
  {| decode_text := fun bytes => Some bytes;
     json_limit := fun _ => None |}.

Section App.
Context `{Externals} {P : Platform}.

(** ** JSON store *)

(** [open(filepath, 'r')] and reading the text *)
Definition open_read (filepath : string) : M string :=
  fun st =>
    (st, match files st !! filepath with
         | Some bytes =>
             match decode_text bytes with
             | Some text => Ok text
             | None => Raise UnicodeDecodeError
             end
         | None => Raise FileNotFoundError
         end).

Definition json_load (text : string) : res value :=
  match json_limit text with
  | Some TooDeep => Raise RecursionError
  | Some TooManyDigits => Raise ValueError
  | None =>
      match json_decode text with
      | Some v => Ok v
      | None => Raise JSONDecodeError
      end
  end.

Definition read_json_file (filepath : string) : M value :=
  try_except
    (let* text := open_read filepath in
     lift (json_load text))
    (fun e =>
       match e with
       | FileNotFoundError => Some (ret (VList []))
       | JSONDecodeError => Some (ret (VList []))
       | _ => None
       end).

Definition write_json_file (filepath : string) (data : value) : M unit :=
  fun st =>
    ({| files := <[filepath := json_dump data]> (files st);
        session := session st; flashes := flashes st |}, Ok tt).

(** ** Route guards *)

Definition login_required (f : handler) : handler :=
  fun req =>
    let* logged := session_has "user_id" in
    if negb logged then
      flash "Please log in to access this page." "warning";;
      redirect "login"
    else f req.

Definition role_required (roles : list string) (f : handler) : handler :=
  fun req =>
    let* logged := session_has "user_id" in
    if negb logged then
      flash "Please log in to access this page." "warning";;
      redirect "login"
    else
      let* role := session_get "role" in
      if negb (py_in role roles) then
        flash "You do not have permission to access this page." "danger";;
        redirect "index"
      else f req.

(** ** Shared expressions of the handlers *)

(** [r[key] == v] and [r[key] != v], the tests of the comprehensions. *)
Definition field_eq (key : string) (v : value) (r : value) : res bool :=
  let? x := getitem r key in
  Ok (py_eq x v).

Definition field_ne (key : string) (v : value) (r : value) : res bool :=
  let? x := getitem r key in
  Ok (negb (py_eq x v)).

(** [max([r.get(key, 0) for r in records], default=0) + 1] *)
Definition next_id_get (records : value) (key : string) : res value :=
  let? items := py_iter records in
  let? ids := map_res (fun r => py_get r key (VInt 0)) items in
  let? m := py_max ids (VInt 0) in
  py_add1 m.

(** [max([r[key] for r in records], default=0) + 1] *)
Definition next_id_item (records : value) (key : string) : res value :=
  let? items := py_iter records in
  let? ids := map_res (fun r => getitem r key) items in
  let? m := py_max ids (VInt 0) in
  py_add1 m.

(** [next((r for r in records if r[key] == id), None)] *)
Definition find_by_id (records : value) (key : string) (id : Z)
  : res (option (nat * value)) :=
  let? items := py_iter records in
  find_first (field_eq key (VInt id)) items.

(** [[r for r in records if r[key] != id]] *)
Definition without_id (records : value) (key : string) (id : Z) : res value :=
  let? items := py_iter records in
  let? kept := filter_res (field_ne key (VInt id)) items in
  Ok (VList kept).

(** [[r for r in records if r[key] == v]] *)
Definition only_with (records : value) (key : string) (v : value) : res value :=
  let? items := py_iter records in
  let? kept := filter_res (field_eq key v) items in
  Ok (VList kept).

(** [f"{emp['first_name']} {emp['last_name']}"] *)
Definition full_name (emp : value) : res string :=
  let? first := getitem emp "first_name" in
  let? last := getitem emp "last_name" in
  Ok (py_str first +:+ " " +:+ py_str last).

(** The body of the loop that attaches [employee_name] to a row. *)
Definition add_employee_name (employee_lookup : list (value * value)) (record : value)
  : res value :=
  let? employee_id := getitem record "employee_id" in
  let? emp := lookup_get employee_lookup employee_id in
  let? name :=
    match emp with
    | Some e =>
        if py_truthy e then (let? n := full_name e in Ok (VStr n))
        else Ok (VStr "Unknown")
    | None => Ok (VStr "Unknown")
    end in
  setitem record "employee_name" name.

(** The rows after [for record in rows: record[...] = ...]: the loop changes
    the elements of a list in place and runs over nothing else without
    raising. *)
Definition rows_after_loop (rows : value) (changed : list value) : value :=
  match rows with
  | VList _ => VList changed
  | _ => rows
  end.

(** ** Login *)

Definition login : handler :=
  fun req =>
    match method req with
    | POST =>
        let username := form_get req "username" in
        let password := form_get req "password" in
        let* users := read_json_file USERS_FILE in
        let* items := lift (py_iter users) in
        let* found := lift (find_first (field_eq "username" username) items) in
        let* accepted :=
          lift match present found with
               | None => Ok None
               | Some (_, user) =>
                   let? active := getitem user "active" in
                   if py_truthy active then
                     let? pw := encode password in
                     let? stored := getitem user "password_hash" in
                     let? hashed := encode stored in
                     let? ok := checkpw pw hashed in
                     Ok (if ok then Some user else None)
                   else Ok None
               end in
        match accepted with
        | Some user =>
            let* user_id := lift (getitem user "user_id") in
            session_set "user_id" user_id;;
            let* name := lift (getitem user "username") in
            session_set "username" name;;
            let* role := lift (getitem user "role") in
            session_set "role" role;;
            let* employee_id := lift (py_get user "employee_id" VNone) in
            session_set "employee_id" employee_id;;
            flash ("Welcome back, " +:+ py_str username +:+ "!") "success";;
            redirect "index"
        | None =>
            flash "Invalid username or password." "danger";;
            render_template "login.html" []
        end
    | GET => render_template "login.html" []
    end.

(** ** Attendance *)

Definition attendance_list : handler :=
  login_required (fun req =>
    let* attendance_records := read_json_file ATTENDANCE_FILE in
    let* employees := read_json_file EMPLOYEES_FILE in
    let* current_role := session_get "role" in
    let* current_employee_id := session_get "employee_id" in
    let show (attendance_records : value) : M response :=
      let* emps := lift (py_iter employees) in
      let* employee_lookup := lift (build_lookup "employee_id" [] emps) in
      let* rows := lift (py_iter attendance_records) in
      let* named := lift (map_res (add_employee_name employee_lookup) rows) in
      render_template "attendance/list.html"
        [("attendance_records", rows_after_loop attendance_records named)] in
    if py_eq current_role (VStr "Employee") then
      let* own := lift (only_with attendance_records "employee_id" current_employee_id) in
      show own
    else if negb (py_in current_role ["Admin"; "HR Staff"]) then
      flash "You do not have permission to access this page." "danger";;
      redirect "index"
    else show attendance_records).

(** [int(request.form.get(k))] *)
Definition form_int (req : request) (k : string) : res Z :=
  match form req !! k with
  | None => Raise TypeError
  | Some s =>
      match int_of_str s with
      | Some z => Ok z
      | None => Raise ValueError
      end
  end.

(** The loop of [attendance_mark] that looks for today's record: [date] is
    read only on a record of the employee ([and] short-circuits). *)
Definition is_today_record (employee_id : Z) (today : string) (record : value) : res bool :=
  let? e := getitem record "employee_id" in
  if py_eq e (VInt employee_id) then
    let? d := getitem record "date" in
    Ok (py_eq d (VStr today))
  else Ok false.

Definition attendance_mark : handler :=
  login_required (fun req =>
    let* current_role := session_get "role" in
    let* current_employee_id := session_get "employee_id" in
    match method req with
    | POST =>
        let* employee_id := lift (form_int req "employee_id") in
        if py_eq current_role (VStr "Employee")
           && negb (py_eq (VInt employee_id) current_employee_id) then
          flash "You can only mark your own attendance." "danger";;
          redirect "attendance_mark"
        else
          let action := form_get req "action" in
          let notes := form_get_default req "notes" (VStr "") in
          let* attendance_records := read_json_file ATTENDANCE_FILE in
          let* items := lift (py_iter attendance_records) in
          let* found := lift (find_first (is_today_record employee_id (today req)) items) in
          (if py_eq action (VStr "check_in") then
             match present found with
             | Some _ => flash "You have already checked in today!" "warning"
             | None =>
                 let* attendance_id := lift (next_id_get attendance_records "attendance_id") in
                 let new_record := VDict
                   [("attendance_id", attendance_id);
                    ("employee_id", VInt employee_id);
                    ("date", VStr (today req));
                    ("check_in_time", VStr (now_time req));
                    ("check_out_time", VNone);
                    ("notes", notes);
                    ("status", VStr "Present")] in
                 let* appended := lift (py_append attendance_records new_record) in
                 write_json_file ATTENDANCE_FILE appended;;
                 flash "Check-in recorded successfully!" "success"
             end
           else
             match present found with
             | None => flash "Please check in first!" "warning"
             | Some (i, today_record) =>
                 let* out := lift (getitem today_record "check_out_time") in
                 if py_truthy out then flash "You have already checked out today!" "warning"
                 else
                   let* r1 := lift (setitem today_record "check_out_time" (VStr (now_time req))) in
                   let* r2 := lift (if py_truthy notes then setitem r1 "notes" notes else Ok r1) in
                   write_json_file ATTENDANCE_FILE (coll_update attendance_records i r2);;
                   flash "Check-out recorded successfully!" "success"
             end);;
          redirect "attendance_mark"
    | GET =>
        let* employees := read_json_file EMPLOYEES_FILE in
        let* shown :=
          if py_eq current_role (VStr "Employee")
          then lift (only_with employees "employee_id" current_employee_id)
          else ret employees in
        render_template "attendance/mark.html" [("employees", shown)]
    end).

Definition attendance_edit (attendance_id : Z) : handler :=
  role_required ["Admin"; "HR Staff"] (fun req =>
    let* attendance_records := read_json_file ATTENDANCE_FILE in
    let* found := lift (find_by_id attendance_records "attendance_id" attendance_id) in
    match present found with
    | None =>
        flash "Attendance record not found." "danger";;
        redirect "attendance_list"
    | Some (i, attendance) =>
        match method req with
        | POST =>
            let* edited := lift (setitems attendance
              [("date", form_get req "date");
               ("check_in_time", form_get req "check_in_time");
               ("check_out_time", or_none (form_get req "check_out_time"));
               ("notes", form_get_default req "notes" (VStr ""));
               ("status", form_get_default req "status" (VStr "Present"))]) in
            write_json_file ATTENDANCE_FILE (coll_update attendance_records i edited);;
            flash "Attendance record updated successfully!" "success";;
            redirect "attendance_list"
        | GET =>
            let* employees := read_json_file EMPLOYEES_FILE in
            render_template "attendance/edit.html"
              [("attendance", attendance); ("employees", employees)]
        end
    end).

Definition attendance_delete (attendance_id : Z) : handler :=
  role_required ["Admin"; "HR Staff"] (fun req =>
    let* attendance_records := read_json_file ATTENDANCE_FILE in
    let* found := lift (find_by_id attendance_records "attendance_id" attendance_id) in
    match present found with
    | Some _ =>
        let* kept := lift (without_id attendance_records "attendance_id" attendance_id) in
        write_json_file ATTENDANCE_FILE kept;;
        flash "Attendance record deleted successfully!" "success"
    | None => flash "Attendance record not found." "danger"
    end;;
    redirect "attendance_list").

(** ** Leave requests *)

Definition leave_edit (leave_id : Z) : handler :=
  login_required (fun req =>
    let* leaves := read_json_file LEAVES_FILE in
    let* found := lift (find_by_id leaves "leave_id" leave_id) in
    match present found with
    | None =>
        flash "Leave request not found." "danger";;
        redirect "leaves_list"
    | Some (i, leave) =>
        let* current_user_role := session_get "role" in
        let* current_employee_id := session_get "employee_id" in
        let privileged := py_in current_user_role ["Admin"; "HR Staff"] in
        let* refused :=
          lift (if negb privileged then
                  let? owner := getitem leave "employee_id" in
                  if negb (py_eq owner current_employee_id) then Ok true
                  else
                    let? status := getitem leave "status" in
                    Ok (negb (py_eq status (VStr "Pending")))
                else Ok false) in
        if refused then
          flash "You can only edit your own pending leave requests." "danger";;
          redirect "leaves_list"
        else
          match method req with
          | POST =>
              let* status := lift (getitem leave "status") in
              (if py_eq status (VStr "Pending") || privileged then
                 let* e1 := lift (setitems leave
                   [("leave_type", form_get req "leave_type");
                    ("start_date", form_get req "start_date");
                    ("end_date", form_get req "end_date");
                    ("reason", form_get req "reason")]) in
                 let* e2 := lift (if negb privileged then
                                    setitems e1
                                      [("approved_by", VNone);
                                       ("approved_date", VNone);
                                       ("comments", VNone)]
                                  else Ok e1) in
                 write_json_file LEAVES_FILE (coll_update leaves i e2);;
                 flash "Leave request updated successfully!" "success"
               else flash "Cannot edit approved or rejected leave requests." "danger");;
              redirect "leaves_list"
          | GET =>
              let* employees := read_json_file EMPLOYEES_FILE in
              render_template "leaves/edit.html" [("leave", leave); ("employees", employees)]
          end
    end).

(** ** Employees *)

(** [float(request.form.get(k, 0))] *)
Definition form_float (req : request) (k : string) : res float :=
  match form req !! k with
  | None => Ok PrimFloat.zero
  | Some s =>
      match float_of_str s with
      | Some f => Ok f
      | None => Raise ValueError
      end
  end.

(** [int(request.form.get(k, 0))] *)
Definition form_int_default (req : request) (k : string) : res Z :=
  match form req !! k with
  | None => Ok 0
  | Some s =>
      match int_of_str s with
      | Some z => Ok z
      | None => Raise ValueError
      end
  end.

Definition employee_add : handler :=
  role_required ["Admin"; "HR Staff"] (fun req =>
    match method req with
    | POST =>
        let* employees := read_json_file EMPLOYEES_FILE in
        let* departments := read_json_file DEPARTMENTS_FILE in
        let* new_id := lift (next_id_item employees "employee_id") in
        let* salary := lift (form_float req "salary") in
        let new_employee := VDict
          [("employee_id", new_id);
           ("first_name", form_get req "first_name");
           ("last_name", form_get req "last_name");
           ("cnic", form_get req "cnic");
           ("email", form_get req "email");
           ("contact", form_get req "contact");
           ("department", form_get req "department");
           ("designation", form_get req "designation");
           ("join_date", form_get req "join_date");
           ("status", form_get_default req "status" (VStr "Active"));
           ("salary", VFloat salary)] in
        let* appended := lift (py_append employees new_employee) in
        write_json_file EMPLOYEES_FILE appended;;
        let* name := lift (full_name new_employee) in
        flash ("Employee " +:+ name +:+ " added successfully!") "success";;
        redirect "employees_list"
    | GET =>
        let* departments := read_json_file DEPARTMENTS_FILE in
        render_template "employees/form.html"
          [("employee", VNone); ("departments", departments)]
    end).

Definition employee_delete (employee_id : Z) : handler :=
  role_required ["Admin"; "HR Staff"] (fun req =>
    let* employees := read_json_file EMPLOYEES_FILE in
    let* found := lift (find_by_id employees "employee_id" employee_id) in
    match present found with
    | Some (_, employee) =>
        let* kept := lift (without_id employees "employee_id" employee_id) in
        write_json_file EMPLOYEES_FILE kept;;
        let* name := lift (full_name employee) in
        flash ("Employee " +:+ name +:+ " deleted successfully!") "success"
    | None => flash "Employee not found." "danger"
    end;;
    redirect "employees_list").

(** ** Recruitment *)

Definition lower_ascii (c : Ascii.ascii) : Ascii.ascii :=
  let n := Ascii.N_of_ascii c in
  if ((65 <=? n) && (n <=? 90))%N then Ascii.ascii_of_N (n + 32) else c.

(** [s.lower()]; only the ASCII letters matter for the extensions below. *)
Fixpoint lower (s : string) : string :=
  match s with
  | EmptyString => EmptyString
  | String c r => String (lower_ascii c) (lower r)
  end.

(** [s.rsplit('.', 1)[1]] when ['.' in s], otherwise [None]. *)
Fixpoint after_last_dot (s : string) : option string :=
  match s with
  | EmptyString => None
  | String c r =>
      match after_last_dot r with
      | Some e => Some e
      | None => if Ascii.eqb c "."%char then Some r else None
      end
  end.

Definition allowed_file (filename : string) : bool :=
  match after_last_dot filename with
  | Some ext => bool_decide (lower ext ∈ ALLOWED_EXTENSIONS)
  | None => false
  end.

(** [file] is the uploaded part: its name and its content. *)
Definition save_uploaded_file (req : request) (file : string * string) : M (option string) :=
  if negb (String.eqb (fst file) "") && allowed_file (fst file) then
    let filename := now_stamp req +:+ secure_filename (fst file) in
    let filepath := FILES_DIR +:+ "/" +:+ filename in
    fun st =>
      ({| files := <[filepath := snd file]> (files st);
          session := session st; flashes := flashes st |}, Ok (Some filename))
  else ret None.

Definition job_apply (job_id : Z) : handler :=
  fun req =>
    let* jobs := read_json_file JOBS_FILE in
    let* found := lift (find_by_id jobs "job_id" job_id) in
    match present found with
    | None =>
        flash "Job posting not found." "danger";;
        redirect "index"
    | Some (_, job) =>
        match method req with
        | POST =>
            let* applicants := read_json_file APPLICANTS_FILE in
            let* resume :=
              match upload req with
              | Some file =>
                  if negb (String.eqb (fst file) "") then
                    let* saved := save_uploaded_file req file in
                    match saved with
                    | Some name =>
                        if negb (String.eqb name "") then ret (Some (VStr name)) else ret None
                    | None => ret None
                    end
                  else ret (Some VNone)
              | None => ret (Some VNone)
              end in
            match resume with
            | None =>
                flash "Invalid file type. Please upload PDF, DOC, or DOCX files only." "danger";;
                render_template "jobs/apply.html" [("job", job)]
            | Some resume_filename =>
                let* applicant_id := lift (next_id_get applicants "applicant_id") in
                let* experience_years := lift (form_int_default req "experience_years") in
                let* expected_salary := lift (form_float req "expected_salary") in
                let new_applicant := VDict
                  [("applicant_id", applicant_id);
                   ("job_id", VInt job_id);
                   ("first_name", form_get req "first_name");
                   ("last_name", form_get req "last_name");
                   ("email", form_get req "email");
                   ("contact", form_get req "contact");
                   ("cnic", form_get req "cnic");
                   ("experience_years", VInt experience_years);
                   ("current_company", form_get_default req "current_company" (VStr ""));
                   ("expected_salary", VFloat expected_salary);
                   ("cover_letter", form_get_default req "cover_letter" (VStr ""));
                   ("resume_filename", resume_filename);
                   ("application_date", VStr (today req));
                   ("status", VStr "Applied");
                   ("reviewed_by", VNone);
                   ("review_date", VNone);
                   ("interview_date", VNone);
                   ("notes", VNone)] in
                let* appended := lift (py_append applicants new_applicant) in
                write_json_file APPLICANTS_FILE appended;;
                flash "Your application has been submitted successfully! We will contact you soon."
                  "success";;
                ret (Redirect "job_view" [("job_id", job_id)])
            end
        | GET => render_template "jobs/apply.html" [("job", job)]
        end
    end.

Definition applicant_onboard (applicant_id : Z) : handler :=
  role_required ["Admin"; "HR Staff"] (fun req =>
    let* applicants := read_json_file APPLICANTS_FILE in
    let* found := lift (find_by_id applicants "applicant_id" applicant_id) in
    match present found with
    | None =>
        flash "Applicant not found." "danger";;
        redirect "applicants_list"
    | Some (i, applicant) =>
        match method req with
        | POST =>
            let* employees := read_json_file EMPLOYEES_FILE in
            let* employee_id := lift (next_id_item employees "employee_id") in
            let* first_name := lift (getitem applicant "first_name") in
            let* last_name := lift (getitem applicant "last_name") in
            let* cnic := lift (getitem applicant "cnic") in
            let* email := lift (getitem applicant "email") in
            let* contact := lift (getitem applicant "contact") in
            let* salary := lift (form_float req "salary") in
            let new_employee := VDict
              [("employee_id", employee_id);
               ("first_name", first_name);
               ("last_name", last_name);
               ("cnic", cnic);
               ("email", email);
               ("contact", contact);
               ("department", form_get req "department");
               ("designation", form_get req "designation");
               ("join_date", form_get req "join_date");
               ("status", VStr "Active");
               ("salary", VFloat salary)] in
            let* appended := lift (py_append employees new_employee) in
            write_json_file EMPLOYEES_FILE appended;;
            let notes :=
              "Hired as " +:+ py_str (form_get req "designation") +:+ " in "
              +:+ py_str (form_get req "department") +:+ " department. Employee ID: "
              +:+ py_str employee_id in
            let* hired := lift (setitems applicant
              [("status", VStr "Hired"); ("notes", VStr notes)]) in
            write_json_file APPLICANTS_FILE (coll_update applicants i hired);;
            let* name := lift (full_name hired) in
            flash ("Applicant " +:+ name +:+ " has been successfully onboarded as Employee ID: "
                   +:+ py_str employee_id +:+ "!") "success";;
            redirect "applicants_list"
        | GET =>
            let* jobs := read_json_file JOBS_FILE in
            let* items := lift (py_iter jobs) in
            let* job := lift (find_first
              (fun j =>
                 let? x := getitem j "job_id" in
                 let? y := getitem applicant "job_id" in
                 Ok (py_eq x y)) items) in
            let* departments := read_json_file DEPARTMENTS_FILE in
            render_template "applicants/onboard.html"
              [("applicant", applicant);
               ("job", match job with Some (_, j) => j | None => VNone end);
               ("departments", departments)]
        end
    end).

End App.

(** * The other routes of the application

    The handlers of [app.py] besides those above: logout, the attendance
    report, leave application and approval, employee editing, payroll,
    job postings, applicant management and the password routes. *)

Definition PAYROLLS_FILE : string := "data/payrolls.json".

(** ** More of Python *)

(** [a >= b] and [a <= b]: numbers by value, strings and lists
    lexicographically, anything else unorderable. *)
Fixpoint py_ge (a b : value) : res bool :=
  match a, b with
  | VStr s, VStr t => Ok (String.leb t s)
  | VList la, VList lb =>
      (fix go (la lb : list value) : res bool :=
         match la, lb with
         | _, [] => Ok true
         | [], _ :: _ => Ok false
         | x :: xs, y :: ys => if py_eq x y then go xs ys else py_ge x y
         end) la lb
  | _, _ =>
      match num_of a, num_of b with
      | Some x, Some y =>
          Ok (match num_cmp x y with Some Gt | Some Eq => true | _ => false end)
      | _, _ => Raise TypeError
      end
  end.

Fixpoint py_le (a b : value) : res bool :=
  match a, b with
  | VStr s, VStr t => Ok (String.leb s t)
  | VList la, VList lb =>
      (fix go (la lb : list value) : res bool :=
         match la, lb with
         | [], _ => Ok true
         | _ :: _, [] => Ok false
         | x :: xs, y :: ys => if py_eq x y then go xs ys else py_le x y
         end) la lb
  | _, _ =>
      match num_of a, num_of b with
      | Some x, Some y =>
          Ok (match num_cmp x y with Some Lt | Some Eq => true | _ => false end)
      | _, _ => Raise TypeError
      end
  end.

(** [len(s)] of a string: its code points, that is the bytes of its UTF-8
    form that are not continuation bytes. *)
Definition is_continuation (c : ascii) : bool :=
  let n := N_of_ascii c in
  ((128 <=? n) && (n <? 192))%N.

Fixpoint str_len (s : string) : Z :=
  match s with
  | EmptyString => 0
  | String c r => (if is_continuation c then 0 else 1) + str_len r
  end.

(** [len(v)] *)
Definition py_len (v : value) : res Z :=
  match v with
  | VStr s => Ok (str_len s)
  | VList l => Ok (Z.of_nat (List.length l))
  | VDict d => Ok (Z.of_nat (List.length d))
  | _ => Raise TypeError
  end.

(** [int(v)] where [v] is what [request.args.get] or [request.form.get]
    gave: a string or [None]. *)
Definition int_of_value `{Externals} (v : value) : res Z :=
  match v with
  | VStr s =>
      match int_of_str s with
      | Some z => Ok z
      | None => Raise ValueError
      end
  | _ => Raise TypeError
  end.

(** [os.path.join(a, b)] for a directory [a] that does not end with a
    slash: an absolute [b] replaces [a]. *)
Definition os_path_join (a b : string) : string :=
  match b with
  | String c _ => if Ascii.eqb c "/"%char then b else a +:+ "/" +:+ b
  | EmptyString => a +:+ "/"
  end.

(** [os.remove(path)] *)
Definition os_remove (path : string) : M unit :=
  fun st =>
    match files st !! path with
    | Some _ =>
        ({| files := delete path (files st); session := session st;
            flashes := flashes st |}, Ok tt)
    | None => (st, Raise FileNotFoundError)
    end.

(** [session.clear()]: the flashed messages go with the rest of the session. *)
Definition session_clear : M unit :=
  fun st => ({| files := files st; session := ∅; flashes := [] |}, Ok tt).

(** [request.args.get(k)] *)
Definition args_get (req : request) (k : string) : value :=
  match args req !! k with
  | Some s => VStr s
  | None => VNone
  end.

(** ** More library functions *)

(** Python's [+] and [-] on two values, used on the salary: an [int] or a
    [bool] meets a [float] as the nearest float, anything but a number
    raises. *)
Class Arithmetic : Type := {
  py_add : value -> value -> res value;
  py_sub : value -> value -> res value
}.

(** [bcrypt.hashpw(password, salt)], decoded. *)
Class Hashing : Type := {
  hashpw : string -> string -> res string
}.

Section Routes.
Context `{Externals} `{Arithmetic} `{Hashing} {P : Platform}.

Definition index : handler :=
  fun req => render_template "index.html" [].

Definition logout : handler :=
  fun req =>
    session_clear;;
    flash "You have been logged out." "info";;
    redirect "login".

(** [[r for r in rows if test(r)]], when the filter is asked for. *)
Definition filtered_if (wanted : bool) (test : value -> res bool) (rows : value) : res value :=
  if wanted then
    let? items := py_iter rows in
    let? kept := filter_res test items in
    Ok (VList kept)
  else Ok rows.

(** The rows with [employee_name] attached, as the listings build them. *)
Definition with_employee_names (employees rows : value) : res value :=
  let? emps := py_iter employees in
  let? employee_lookup := build_lookup "employee_id" [] emps in
  let? items := py_iter rows in
  let? named := map_res (add_employee_name employee_lookup) items in
  Ok (rows_after_loop rows named).

Definition attendance_reports : handler :=
  role_required ["Admin"; "HR Staff"] (fun req =>
    let* attendance_records := read_json_file ATTENDANCE_FILE in
    let* employees := read_json_file EMPLOYEES_FILE in
    let start_date := args_get req "start_date" in
    let end_date := args_get req "end_date" in
    let employee_id := args_get req "employee_id" in
    let* from_start := lift (filtered_if (py_truthy start_date)
      (fun r => let? d := getitem r "date" in py_ge d start_date) attendance_records) in
    let* to_end := lift (filtered_if (py_truthy end_date)
      (fun r => let? d := getitem r "date" in py_le d end_date) from_start) in
    let* filtered_records := lift (filtered_if (py_truthy employee_id)
      (fun r =>
         let? e := getitem r "employee_id" in
         let? n := int_of_value employee_id in
         Ok (py_eq e (VInt n))) to_end) in
    let* named := lift (with_employee_names employees filtered_records) in
    render_template "attendance/reports.html"
      [("attendance_records", named); ("employees", employees);
       ("start_date", start_date); ("end_date", end_date);
       ("employee_id", employee_id)]).

(** ** Leave requests *)

Definition leaves_list : handler :=
  login_required (fun req =>
    let* leaves := read_json_file LEAVES_FILE in
    let* employees := read_json_file EMPLOYEES_FILE in
    let* current_role := session_get "role" in
    let* current_employee_id := session_get "employee_id" in
    if py_eq current_role (VStr "Employee") then
      let* own := lift (only_with leaves "employee_id" current_employee_id) in
      let* named := lift (with_employee_names employees own) in
      render_template "leaves/list.html" [("leaves", named)]
    else if negb (py_in current_role ["Admin"; "HR Staff"]) then
      flash "You do not have permission to access this page." "danger";;
      redirect "index"
    else
      let* named := lift (with_employee_names employees leaves) in
      render_template "leaves/list.html" [("leaves", named)]).

Definition leave_apply : handler :=
  login_required (fun req =>
    let* current_role := session_get "role" in
    let* current_employee_id := session_get "employee_id" in
    match method req with
    | POST =>
        let* employee_id := lift (form_int req "employee_id") in
        if py_eq current_role (VStr "Employee")
           && negb (py_eq (VInt employee_id) current_employee_id) then
          flash "You can only apply for your own leave." "danger";;
          redirect "leave_apply"
        else
          let* leaves := read_json_file LEAVES_FILE in
          let* leave_id := lift (next_id_get leaves "leave_id") in
          let new_leave := VDict
            [("leave_id", leave_id);
             ("employee_id", VInt employee_id);
             ("leave_type", form_get req "leave_type");
             ("start_date", form_get req "start_date");
             ("end_date", form_get req "end_date");
             ("reason", form_get req "reason");
             ("status", VStr "Pending");
             ("applied_date", VStr (today req));
             ("approved_by", VNone);
             ("approved_date", VNone);
             ("comments", VNone)] in
          let* appended := lift (py_append leaves new_leave) in
          write_json_file LEAVES_FILE appended;;
          flash "Leave application submitted successfully!" "success";;
          redirect "leaves_list"
    | GET =>
        let* employees := read_json_file EMPLOYEES_FILE in
        let* shown :=
          if py_eq current_role (VStr "Employee")
          then lift (only_with employees "employee_id" current_employee_id)
          else ret employees in
        render_template "leaves/apply.html" [("employees", shown)]
    end).

(** The body shared by [leave_approve] and [leave_reject]. *)
Definition leave_decide (leave_id : Z) (status message category : string) : handler :=
  role_required ["Admin"; "HR Staff"] (fun req =>
    let* leaves := read_json_file LEAVES_FILE in
    let* found := lift (find_by_id leaves "leave_id" leave_id) in
    match present found with
    | Some (i, leave) =>
        let* user_id := session_get "user_id" in
        let* decided := lift (setitems leave
          [("status", VStr status);
           ("approved_by", user_id);
           ("approved_date", VStr (today req));
           ("comments", form_get_default req "comments" (VStr ""))]) in
        write_json_file LEAVES_FILE (coll_update leaves i decided);;
        flash message category
    | None => flash "Leave request not found." "danger"
    end;;
    redirect "leaves_list").

Definition leave_approve (leave_id : Z) : handler :=
  leave_decide leave_id "Approved" "Leave request approved successfully!" "success".

Definition leave_reject (leave_id : Z) : handler :=
  leave_decide leave_id "Rejected" "Leave request rejected." "info".

Definition leave_delete (leave_id : Z) : handler :=
  login_required (fun req =>
    let* leaves := read_json_file LEAVES_FILE in
    let* found := lift (find_by_id leaves "leave_id" leave_id) in
    match present found with
    | None =>
        flash "Leave request not found." "danger";;
        redirect "leaves_list"
    | Some (_, leave) =>
        let* current_user_role := session_get "role" in
        let* current_employee_id := session_get "employee_id" in
        let* refused :=
          lift (if negb (py_in current_user_role ["Admin"; "HR Staff"]) then
                  let? owner := getitem leave "employee_id" in
                  if negb (py_eq owner current_employee_id) then Ok true
                  else
                    let? status := getitem leave "status" in
                    Ok (negb (py_eq status (VStr "Pending")))
                else Ok false) in
        if refused then
          flash "You can only delete your own pending leave requests." "danger";;
          redirect "leaves_list"
        else
          let* kept := lift (without_id leaves "leave_id" leave_id) in
          write_json_file LEAVES_FILE kept;;
          flash "Leave request deleted successfully!" "success";;
          redirect "leaves_list"
    end).

(** ** Employees *)

Definition employees_list : handler :=
  role_required ["Admin"; "HR Staff"] (fun req =>
    let* employees := read_json_file EMPLOYEES_FILE in
    render_template "employees/list.html" [("employees", employees)]).

Definition employee_edit (employee_id : Z) : handler :=
  role_required ["Admin"; "HR Staff"] (fun req =>
    let* employees := read_json_file EMPLOYEES_FILE in
    let* found := lift (find_by_id employees "employee_id" employee_id) in
    match present found with
    | None =>
        flash "Employee not found." "danger";;
        redirect "employees_list"
    | Some (i, employee) =>
        match method req with
        | POST =>
            let* e1 := lift (setitems employee
              [("first_name", form_get req "first_name");
               ("last_name", form_get req "last_name");
               ("cnic", form_get req "cnic");
               ("email", form_get req "email");
               ("contact", form_get req "contact");
               ("department", form_get req "department");
               ("designation", form_get req "designation");
               ("join_date", form_get req "join_date");
               ("status", form_get req "status")]) in
            let* salary := lift (form_float req "salary") in
            let* edited := lift (setitem e1 "salary" (VFloat salary)) in
            write_json_file EMPLOYEES_FILE (coll_update employees i edited);;
            let* name := lift (full_name edited) in
            flash ("Employee " +:+ name +:+ " updated successfully!") "success";;
            redirect "employees_list"
        | GET =>
            let* departments := read_json_file DEPARTMENTS_FILE in
            render_template "employees/form.html"
              [("employee", employee); ("departments", departments)]
        end
    end).

Definition employee_view (employee_id : Z) : handler :=
  login_required (fun req =>
    let* employees := read_json_file EMPLOYEES_FILE in
    let* found := lift (find_by_id employees "employee_id" employee_id) in
    match present found with
    | None =>
        flash "Employee not found." "danger";;
        redirect "employees_list"
    | Some (_, employee) =>
        render_template "employees/view.html" [("employee", employee)]
    end).

End Routes.

Section Routes2.
Context `{Externals} `{Arithmetic} `{Hashing} {P : Platform}.

(** ** Payroll *)

Definition payroll_list : handler :=
  role_required ["Admin"; "HR Staff"] (fun req =>
    let* payrolls := read_json_file PAYROLLS_FILE in
    let* employees := read_json_file EMPLOYEES_FILE in
    let* named := lift (with_employee_names employees payrolls) in
    render_template "payroll/list.html" [("payrolls", named)]).

(** [e['status'] == 'Active'] *)
Definition is_active (e : value) : res bool :=
  let? s := getitem e "status" in
  Ok (py_eq s (VStr "Active")).

(** [e['employee_id'] == int(employee_id) and e['status'] == 'Active'] *)
Definition is_active_employee (employee_id : value) (e : value) : res bool :=
  let? x := getitem e "employee_id" in
  let? n := int_of_value employee_id in
  if py_eq x (VInt n) then is_active e else Ok false.

(** The test of the generator that looks for an existing payroll:
    [p['employee_id'] == employee['employee_id'] and p['month'] == month
     and p['year'] == year]. *)
Definition is_payroll_of (employee month : value) (year : Z) (p : value) : res bool :=
  let? x := getitem p "employee_id" in
  let? e := getitem employee "employee_id" in
  if py_eq x e then
    let? m := getitem p "month" in
    if py_eq m month then
      let? y := getitem p "year" in
      Ok (py_eq y (VInt year))
    else Ok false
  else Ok false.

(** One turn of the loop of [payroll_generate] over [employee]: the
    payrolls after it and whether a record was generated. *)
Definition generate_one (req : request) (month : value) (year : Z) (user_id : value)
    (payrolls employee : value) : res (value * bool) :=
  let? items := py_iter payrolls in
  let? existing := find_first (is_payroll_of employee month year) items in
  match present existing with
  | Some _ => Ok (payrolls, false)
  | None =>
      let? basic_salary := py_get employee "salary" (VInt 0) in
      let? allowances := form_float req "allowances" in
      let? deductions := form_float req "deductions" in
      let? gross := py_add basic_salary (VFloat allowances) in
      let? net_salary := py_sub gross (VFloat deductions) in
      let? payroll_id := next_id_get payrolls "payroll_id" in
      let? employee_id := getitem employee "employee_id" in
      let new_payroll := VDict
        [("payroll_id", payroll_id);
         ("employee_id", employee_id);
         ("month", month);
         ("year", VInt year);
         ("basic_salary", basic_salary);
         ("allowances", VFloat allowances);
         ("deductions", VFloat deductions);
         ("net_salary", net_salary);
         ("payment_date", form_get req "payment_date");
         ("status", form_get_default req "status" (VStr "Pending"));
         ("generated_by", user_id);
         ("generated_date", VStr (today req))] in
      let? appended := py_append payrolls new_payroll in
      Ok (appended, true)
  end.

(** The loop: the payrolls and the count after all of [employees]. *)
Fixpoint generate_all (req : request) (month : value) (year : Z) (user_id : value)
    (payrolls : value) (count : nat) (employees : list value) : res (value * nat) :=
  match employees with
  | [] => Ok (payrolls, count)
  | employee :: rest =>
      let? step := generate_one req month year user_id payrolls employee in
      generate_all req month year user_id step.1
        (if step.2 then S count else count) rest
  end.

Definition payroll_generate : handler :=
  role_required ["Admin"; "HR Staff"] (fun req =>
    match method req with
    | POST =>
        let month := form_get req "month" in
        let* year := lift (form_int req "year") in
        let employee_id := form_get req "employee_id" in
        let* employees := read_json_file EMPLOYEES_FILE in
        let* payrolls := read_json_file PAYROLLS_FILE in
        let* items := lift (py_iter employees) in
        let* employees_to_process :=
          lift (if py_truthy employee_id
                then filter_res (is_active_employee employee_id) items
                else filter_res is_active items) in
        let* user_id := session_get "user_id" in
        let* done := lift (generate_all req month year user_id payrolls 0
                             employees_to_process) in
        write_json_file PAYROLLS_FILE done.1;;
        (if (0 <? done.2)%nat then
           flash ("Payroll generated successfully for "
                  +:+ py_str (VInt (Z.of_nat done.2)) +:+ " employee(s)!") "success"
         else
           flash "No new payroll records generated. Records may already exist for this period."
             "warning");;
        redirect "payroll_list"
    | GET =>
        let* employees := read_json_file EMPLOYEES_FILE in
        let* items := lift (py_iter employees) in
        let* active_employees := lift (filter_res is_active items) in
        render_template "payroll/generate.html" [("employees", VList active_employees)]
    end).

Definition payroll_view (payroll_id : Z) : handler :=
  login_required (fun req =>
    let* payrolls := read_json_file PAYROLLS_FILE in
    let* found := lift (find_by_id payrolls "payroll_id" payroll_id) in
    match present found with
    | None =>
        flash "Payroll record not found." "danger";;
        redirect "index"
    | Some (_, payroll) =>
        let* current_role := session_get "role" in
        let* current_employee_id := session_get "employee_id" in
        let* refused :=
          lift (if negb (py_in current_role ["Admin"; "HR Staff"]) then
                  let? owner := getitem payroll "employee_id" in
                  Ok (negb (py_eq owner current_employee_id))
                else Ok false) in
        if refused then
          flash "You can only view your own payroll records." "danger";;
          redirect "index"
        else
          let* employees := read_json_file EMPLOYEES_FILE in
          let* items := lift (py_iter employees) in
          let* employee := lift (find_first
            (fun e =>
               let? x := getitem e "employee_id" in
               let? y := getitem payroll "employee_id" in
               Ok (py_eq x y)) items) in
          render_template "payroll/slip.html"
            [("payroll", payroll);
             ("employee", match employee with Some (_, e) => e | None => VNone end)]
    end).

Definition my_payroll : handler :=
  login_required (fun req =>
    let* current_role := session_get "role" in
    let* current_employee_id := session_get "employee_id" in
    if negb (py_eq current_role (VStr "Employee")) then
      flash "This page is for employees only." "danger";;
      redirect "index"
    else
      let* payrolls := read_json_file PAYROLLS_FILE in
      let* employees := read_json_file EMPLOYEES_FILE in
      let* employee_payrolls := lift (only_with payrolls "employee_id" current_employee_id) in
      let* named := lift (with_employee_names employees employee_payrolls) in
      render_template "payroll/list.html" [("payrolls", named)]).

Definition payroll_delete (payroll_id : Z) : handler :=
  role_required ["Admin"] (fun req =>
    let* payrolls := read_json_file PAYROLLS_FILE in
    let* found := lift (find_by_id payrolls "payroll_id" payroll_id) in
    match present found with
    | Some _ =>
        let* kept := lift (without_id payrolls "payroll_id" payroll_id) in
        write_json_file PAYROLLS_FILE kept;;
        flash "Payroll record deleted successfully!" "success"
    | None => flash "Payroll record not found." "danger"
    end;;
    redirect "payroll_list").

(** ** Job postings *)

(** [job['department_name'] = job.get('department', '')] *)
Definition add_department_name (job : value) : res value :=
  let? department := py_get job "department" (VStr "") in
  setitem job "department_name" department.

(** [job['applicant_count'] = len([a for a in applicants if a['job_id'] == job['job_id']])] *)
Definition add_applicant_count (applicants : value) (job : value) : res value :=
  let? items := py_iter applicants in
  let? matching := filter_res
    (fun a =>
       let? x := getitem a "job_id" in
       let? y := getitem job "job_id" in
       Ok (py_eq x y)) items in
  setitem job "applicant_count" (VInt (Z.of_nat (List.length matching))).

Definition jobs_list : handler :=
  role_required ["Admin"; "HR Staff"] (fun req =>
    let* jobs := read_json_file JOBS_FILE in
    let* departments := read_json_file DEPARTMENTS_FILE in
    let* items := lift (py_iter jobs) in
    let* named := lift (map_res add_department_name items) in
    let jobs1 := rows_after_loop jobs named in
    let* role := session_get "role" in
    if py_in role ["Admin"; "HR Staff"] then
      let* applicants := read_json_file APPLICANTS_FILE in
      let* items1 := lift (py_iter jobs1) in
      let* counted := lift (map_res (add_applicant_count applicants) items1) in
      render_template "jobs/list.html" [("jobs", rows_after_loop jobs1 counted)]
    else render_template "jobs/list.html" [("jobs", jobs1)]).

Definition job_add : handler :=
  role_required ["Admin"; "HR Staff"] (fun req =>
    match method req with
    | POST =>
        let* jobs := read_json_file JOBS_FILE in
        let* job_id := lift (next_id_get jobs "job_id") in
        let* user_id := session_get "user_id" in
        let new_job := VDict
          [("job_id", job_id);
           ("title", form_get req "title");
           ("department", form_get req "department");
           ("description", form_get req "description");
           ("requirements", form_get req "requirements");
           ("salary_range", form_get req "salary_range");
           ("location", form_get req "location");
           ("employment_type", form_get req "employment_type");
           ("experience_level", form_get req "experience_level");
           ("status", form_get_default req "status" (VStr "Active"));
           ("posted_date", VStr (today req));
           ("application_deadline", form_get req "application_deadline");
           ("posted_by", user_id)] in
        let* appended := lift (py_append jobs new_job) in
        write_json_file JOBS_FILE appended;;
        flash ("Job posting " +:+ String (ascii_of_nat 34) EmptyString
               +:+ py_str (form_get req "title") +:+ String (ascii_of_nat 34) EmptyString
               +:+ " added successfully!") "success";;
        redirect "jobs_list"
    | GET =>
        let* departments := read_json_file DEPARTMENTS_FILE in
        render_template "jobs/form.html" [("job", VNone); ("departments", departments)]
    end).

Definition job_edit (job_id : Z) : handler :=
  role_required ["Admin"; "HR Staff"] (fun req =>
    let* jobs := read_json_file JOBS_FILE in
    let* found := lift (find_by_id jobs "job_id" job_id) in
    match present found with
    | None =>
        flash "Job posting not found." "danger";;
        redirect "jobs_list"
    | Some (i, job) =>
        match method req with
        | POST =>
            let* edited := lift (setitems job
              [("title", form_get req "title");
               ("department", form_get req "department");
               ("description", form_get req "description");
               ("requirements", form_get req "requirements");
               ("salary_range", form_get req "salary_range");
               ("location", form_get req "location");
               ("employment_type", form_get req "employment_type");
               ("experience_level", form_get req "experience_level");
               ("status", form_get req "status");
               ("application_deadline", form_get req "application_deadline")]) in
            write_json_file JOBS_FILE (coll_update jobs i edited);;
            flash ("Job posting " +:+ String (ascii_of_nat 34) EmptyString
                   +:+ py_str (form_get req "title") +:+ String (ascii_of_nat 34) EmptyString
                   +:+ " updated successfully!") "success";;
            redirect "jobs_list"
        | GET =>
            let* departments := read_json_file DEPARTMENTS_FILE in
            render_template "jobs/form.html" [("job", job); ("departments", departments)]
        end
    end).

Definition job_delete (job_id : Z) : handler :=
  role_required ["Admin"; "HR Staff"] (fun req =>
    let* jobs := read_json_file JOBS_FILE in
    let* found := lift (find_by_id jobs "job_id" job_id) in
    match present found with
    | Some (_, job) =>
        let* kept := lift (without_id jobs "job_id" job_id) in
        write_json_file JOBS_FILE kept;;
        let* title := lift (getitem job "title") in
        flash ("Job posting " +:+ String (ascii_of_nat 34) EmptyString
               +:+ py_str title +:+ String (ascii_of_nat 34) EmptyString
               +:+ " deleted successfully!") "success"
    | None => flash "Job posting not found." "danger"
    end;;
    redirect "jobs_list").

Definition job_view (job_id : Z) : handler :=
  fun req =>
    let* jobs := read_json_file JOBS_FILE in
    let* found := lift (find_by_id jobs "job_id" job_id) in
    match present found with
    | None =>
        flash "Job posting not found." "danger";;
        redirect "index"
    | Some (_, job) =>
        let* role := session_get "role" in
        let* applicants :=
          if py_in role ["Admin"; "HR Staff"] then
            let* all_applicants := read_json_file APPLICANTS_FILE in
            lift (only_with all_applicants "job_id" (VInt job_id))
          else ret (VList []) in
        render_template "jobs/view.html" [("job", job); ("applicants", applicants)]
    end.

End Routes2.

Section Routes3.
Context `{Externals} `{Arithmetic} `{Hashing} {P : Platform}.

(** ** Applicants *)

(** [applicant['job_title'] = job['title'] if job else 'Unknown'] *)
Definition add_job_title (job_lookup : list (value * value)) (applicant : value) : res value :=
  let? job_id := getitem applicant "job_id" in
  let? job := lookup_get job_lookup job_id in
  let? title :=
    match job with
    | Some j => if py_truthy j then getitem j "title" else Ok (VStr "Unknown")
    | None => Ok (VStr "Unknown")
    end in
  setitem applicant "job_title" title.

(** [a['job_id'] == int(job_id)] *)
Definition has_job (job_id : value) (a : value) : res bool :=
  let? x := getitem a "job_id" in
  let? n := int_of_value job_id in
  Ok (py_eq x (VInt n)).

Definition applicants_list : handler :=
  role_required ["Admin"; "HR Staff"] (fun req =>
    let* applicants := read_json_file APPLICANTS_FILE in
    let* jobs := read_json_file JOBS_FILE in
    let job_id := args_get req "job_id" in
    let* shown := lift (filtered_if (py_truthy job_id) (has_job job_id) applicants) in
    let* job_items := lift (py_iter jobs) in
    let* job_lookup := lift (build_lookup "job_id" [] job_items) in
    let* items := lift (py_iter shown) in
    let* titled := lift (map_res (add_job_title job_lookup) items) in
    let* current_job :=
      lift (if py_truthy job_id then
              let? found := find_first (has_job job_id) job_items in
              Ok (match found with Some (_, j) => j | None => VNone end)
            else Ok VNone) in
    render_template "applicants/list.html"
      [("applicants", rows_after_loop shown titled); ("current_job", current_job)]).

Definition applicant_view (applicant_id : Z) : handler :=
  role_required ["Admin"; "HR Staff"] (fun req =>
    let* applicants := read_json_file APPLICANTS_FILE in
    let* found := lift (find_by_id applicants "applicant_id" applicant_id) in
    match present found with
    | None =>
        flash "Applicant not found." "danger";;
        redirect "applicants_list"
    | Some (_, applicant) =>
        let* jobs := read_json_file JOBS_FILE in
        let* items := lift (py_iter jobs) in
        let* job := lift (find_first
          (fun j =>
             let? x := getitem j "job_id" in
             let? y := getitem applicant "job_id" in
             Ok (py_eq x y)) items) in
        render_template "applicants/view.html"
          [("applicant", applicant);
           ("job", match job with Some (_, j) => j | None => VNone end)]
    end).

Definition applicant_update_status (applicant_id : Z) : handler :=
  role_required ["Admin"; "HR Staff"] (fun req =>
    let* applicants := read_json_file APPLICANTS_FILE in
    let* found := lift (find_by_id applicants "applicant_id" applicant_id) in
    match present found with
    | Some (i, applicant) =>
        let* user_id := session_get "user_id" in
        let* updated := lift (setitems applicant
          [("status", form_get req "status");
           ("reviewed_by", user_id);
           ("review_date", VStr (today req));
           ("interview_date", or_none (form_get req "interview_date"));
           ("notes", form_get_default req "notes" (VStr ""))]) in
        write_json_file APPLICANTS_FILE (coll_update applicants i updated);;
        flash ("Applicant status updated to " +:+ py_str (form_get req "status")) "success"
    | None => flash "Applicant not found." "danger"
    end;;
    ret (Redirect "applicant_view" [("applicant_id", applicant_id)])).

(** The path of the resume of an applicant:
    [os.path.join(FILES_DIR, applicant['resume_filename'])]. *)
Definition resume_path (resume_filename : value) : res string :=
  match resume_filename with
  | VStr name => Ok (os_path_join FILES_DIR name)
  | _ => Raise TypeError
  end.

Definition applicant_delete (applicant_id : Z) : handler :=
  role_required ["Admin"] (fun req =>
    let* applicants := read_json_file APPLICANTS_FILE in
    let* found := lift (find_by_id applicants "applicant_id" applicant_id) in
    match present found with
    | Some (_, applicant) =>
        let* resume_filename := lift (py_get applicant "resume_filename" VNone) in
        (if py_truthy resume_filename then
           try_except
             (let* path := lift (resume_path resume_filename) in
              os_remove path)
             (fun e =>
                match e with
                | FileNotFoundError => Some (ret tt)
                | _ => None
                end)
         else ret tt);;
        let* kept := lift (without_id applicants "applicant_id" applicant_id) in
        write_json_file APPLICANTS_FILE kept;;
        let* name := lift (full_name applicant) in
        flash ("Applicant " +:+ name +:+ " deleted successfully!") "success"
    | None => flash "Applicant not found." "danger"
    end;;
    redirect "applicants_list").

(** ** Passwords *)

(** [temp_password] and [salt] are what [secrets.token_urlsafe(8)] and
    [bcrypt.gensalt()] return in this request. *)
Definition forgot_password (temp_password salt : string) : handler :=
  fun req =>
    match method req with
    | POST =>
        let username := form_get req "username" in
        let email := form_get req "email" in
        let* users := read_json_file USERS_FILE in
        let* items := lift (py_iter users) in
        let* found := lift (find_first (field_eq "username" username) items) in
        match present found with
        | Some (i, user) =>
            let* employees := read_json_file EMPLOYEES_FILE in
            let* linked := lift (py_get user "employee_id" VNone) in
            let* employee :=
              lift (if py_truthy linked then
                      let? emps := py_iter employees in
                      find_first
                        (fun e =>
                           let? x := getitem e "employee_id" in
                           let? y := getitem user "employee_id" in
                           Ok (py_eq x y)) emps
                    else Ok None) in
            let* matches :=
              lift match present employee with
                   | Some (_, e) =>
                       let? known := py_get e "email" VNone in
                       Ok (py_eq known email)
                   | None => Ok false
                   end in
            if matches then
              let* hashed := lift (hashpw temp_password salt) in
              let* changed := lift (setitem user "password_hash" (VStr hashed)) in
              write_json_file USERS_FILE (coll_update users i changed);;
              flash ("Your password has been reset! Your temporary password is: "
                     +:+ temp_password
                     +:+ ". Please login and change it immediately.") "success";;
              redirect "login"
            else
              flash "Username and email do not match our records." "danger";;
              render_template "forgot_password.html" []
        | None =>
            flash "Username not found." "danger";;
            render_template "forgot_password.html" []
        end
    | GET => render_template "forgot_password.html" []
    end.

Definition change_password (salt : string) : handler :=
  login_required (fun req =>
    match method req with
    | POST =>
        let current_password := form_get req "current_password" in
        let new_password := form_get req "new_password" in
        let confirm_password := form_get req "confirm_password" in
        if negb (py_eq new_password confirm_password) then
          flash "New passwords do not match." "danger";;
          render_template "change_password.html" []
        else
          let* length := lift (py_len new_password) in
          if length <? 6 then
            flash "Password must be at least 6 characters long." "danger";;
            render_template "change_password.html" []
          else
            let* users := read_json_file USERS_FILE in
            let* user_id := session_get "user_id" in
            let* items := lift (py_iter users) in
            let* found := lift (find_first (field_eq "user_id" user_id) items) in
            let* accepted :=
              lift match present found with
                   | Some (i, user) =>
                       let? pw := encode current_password in
                       let? stored := getitem user "password_hash" in
                       let? hashed := encode stored in
                       let? ok := checkpw pw hashed in
                       Ok (if ok then Some (i, user) else None)
                   | None => Ok None
                   end in
            match accepted with
            | Some (i, user) =>
                let* pw := lift (encode new_password) in
                let* hashed := lift (hashpw pw salt) in
                let* changed := lift (setitem user "password_hash" (VStr hashed)) in
                write_json_file USERS_FILE (coll_update users i changed);;
                flash "Password changed successfully!" "success";;
                redirect "index"
            | None =>
                flash "Current password is incorrect." "danger";;
                render_template "change_password.html" []
            end
    | GET => render_template "change_password.html" []
    end).

End Routes3.

(** * Vocabulary of the statements *)

(** The state after [flash message category]. *)
Definition flashed (st : state) (message category : string) : state :=
  {| files := files st; session := session st;
     flashes := flashes st ++ [(message, category)] |}.

(** [session.get('role')] and [session.get('employee_id')]. *)
Definition session_role (st : state) : value := default VNone (session st !! "role").

Definition session_employee (st : state) : value :=
  default VNone (session st !! "employee_id").

(** The request comes with a session that holds a [user_id]. *)
Definition logged_in (st : state) : Prop := is_Some (session st !! "user_id").

(** ... and whose role is one of [roles]. *)
Definition authorized (roles : list string) (st : state) : Prop :=
  logged_in st /\ py_in (session_role st) roles = true.

(** A field of a record, [None] where the record has no such key. *)
Definition field (key : string) (r : value) : value :=
  match r with
  | VDict d => default VNone (dict_get key d)
  | _ => VNone
  end.

(** [r] is a record with the key [key]. *)
Definition has_key (key : string) (r : value) : bool :=
  match r with
  | VDict d => match dict_get key d with Some _ => true | None => false end
  | _ => false
  end.

(** [r] is a record whose [key] is, respectively is not, equal to [id]. *)
Definition id_is (key : string) (id : Z) (r : value) : bool :=
  has_key key r && py_eq (field key r) (VInt id).

Definition id_isnt (key : string) (id : Z) (r : value) : bool :=
  has_key key r && negb (py_eq (field key r) (VInt id)).

(** What a collection file holds, as [read_json_file] reads it. *)
Definition loaded `{Externals} (st : state) (filepath : string) : value :=
  match files st !! filepath with
  | Some text =>
      match json_decode text with
      | Some v => v
      | None => VList []
      end
  | None => VList []
  end.

(** [write_json_file(X, read_json_file(X))] *)
Definition save_load `{Externals} {P : Platform} (filepath : string) : M unit :=
  let* data := read_json_file filepath in
  write_json_file filepath data.

(** Two stored texts hold the same content whatever the formatting: both
    are absent, or both are read by [json.load] with the same outcome. *)
Definition same_content `{Externals} (a b : option string) : Prop :=
  (json_decode <$> a) = (json_decode <$> b).

(** The state after [write_json_file filepath data]. *)
Definition written `{Externals} (st : state) (filepath : string) (data : value) : state :=
  {| files := <[filepath := json_dump data]> (files st);
     session := session st; flashes := flashes st |}.

(** The fields a POST to [leave_edit] assigns. *)
Definition leave_form (req : request) : list (string * value) :=
  [("leave_type", form_get req "leave_type");
   ("start_date", form_get req "start_date");
   ("end_date", form_get req "end_date");
   ("reason", form_get req "reason")].

(** The leave request after an edit with the submitted form: the four
    fields of the form replaced, in their places, everything else as it
    was. *)
Definition edited_leave (req : request) (leave : value) : value :=
  match leave with
  | VDict d =>
      VDict (dict_set "reason" (form_get req "reason")
               (dict_set "end_date" (form_get req "end_date")
                  (dict_set "start_date" (form_get req "start_date")
                     (dict_set "leave_type" (form_get req "leave_type") d))))
  | _ => leave
  end.

(** [max(zs, default=d)] on integers. *)
Definition max_or (d : Z) (zs : list Z) : Z :=
  match zs with
  | [] => d
  | z :: r => fold_left Z.max r z
  end.

(** The id a record counts for: its [key] when it is an integer, 0 when it
    has none. *)
Definition id_or_0 (key : string) (r : value) : Z :=
  match field key r with
  | VInt z => z
  | _ => 0
  end.

(** [r] is a record whose [key], if it has one, is an integer. *)
Definition int_id (key : string) (r : value) : bool :=
  match r with
  | VDict d =>
      match dict_get key d with
      | Some (VInt _) | None => true
      | Some _ => false
      end
  | _ => false
  end.

(** The conditions under which [login] accepts the submitted credentials
    for the record [user]: the request is a POST, [user] is the first
    record of the users file with the submitted username, its [active] is
    true and [bcrypt.checkpw] accepts the submitted password against its
    [password_hash]. *)
Definition login_accepts `{Externals} (req : request) (st : state) (user : value) : Prop :=
  method req = POST
  /\ exists items i active password stored,
       py_iter (loaded st USERS_FILE) = Ok items
       /\ find_first (field_eq "username" (form_get req "username")) items = Ok (Some (i, user))
       /\ getitem user "active" = Ok active
       /\ py_truthy active = true
       /\ form req !! "password" = Some password
       /\ getitem user "password_hash" = Ok (VStr stored)
       /\ checkpw password stored = Ok true.

(** The session after a successful login as [user]. *)
Definition session_for (user : value) (s : gmap string value) : gmap string value :=
  <["employee_id" := field "employee_id" user]>
    (<["role" := field "role" user]>
       (<["username" := field "username" user]>
          (<["user_id" := field "user_id" user]> s))).

(** [r] is a record whose [key] is present and hashable (not a list or a
    dictionary), so that it can index the lookup table of the listings. *)
Definition has_scalar (key : string) (r : value) : bool :=
  has_key key r && hashable (field key r).

(** An employee record with the fields the listings read. *)
Definition wf_employee (e : value) : bool :=
  has_scalar "employee_id" e && has_key "first_name" e && has_key "last_name" e.

(** [row] is the record [r] after [r['employee_name'] = name]. *)
Definition named_row (r row : value) : Prop :=
  exists name, setitem r "employee_name" (VStr name) = Ok row.

(** The records of [l] whose [employee_id] equals [eid], in their order. *)
Definition own_rows (eid : value) (l : list value) : list value :=
  List.filter (fun r => py_eq (field "employee_id" r) eid) l.

(** Two attendance records are for the same employee and the same date. *)
Definition same_day (a b : value) : bool :=
  py_eq (field "employee_id" a) (field "employee_id" b)
  && py_eq (field "date" a) (field "date" b).

(** Each (employee_id, date) pair occurs at most once in the collection. *)
Fixpoint unique_per_day (l : list value) : bool :=
  match l with
  | [] => true
  | r :: rest => negb (existsb (same_day r) rest) && unique_per_day rest
  end.

(** The [resume_filename] of an application: none when no file was chosen,
    otherwise the stamped name under which the file is saved. *)
Definition resume_name `{Externals} (req : request) : value :=
  match upload req with
  | Some (name, _) =>
      if String.eqb name EmptyString then VNone
      else VStr (now_stamp req +:+ secure_filename name)
  | None => VNone
  end.

(** The application comes without a file, or with one of an allowed type. *)
Definition upload_accepted (req : request) : Prop :=
  match upload req with
  | Some (name, _) =>
      name = EmptyString \/ (allowed_file name = true /\ now_stamp req <> EmptyString)
  | None => True
  end.

(** The record [job_apply] appends. *)
Definition new_applicant `{Externals} (req : request) (job_id applicant_id years : Z)
    (expected : float) : value :=
  VDict
    [("applicant_id", VInt applicant_id);
     ("job_id", VInt job_id);
     ("first_name", form_get req "first_name");
     ("last_name", form_get req "last_name");
     ("email", form_get req "email");
     ("contact", form_get req "contact");
     ("cnic", form_get req "cnic");
     ("experience_years", VInt years);
     ("current_company", form_get_default req "current_company" (VStr EmptyString));
     ("expected_salary", VFloat expected);
     ("cover_letter", form_get_default req "cover_letter" (VStr EmptyString));
     ("resume_filename", resume_name req);
     ("application_date", VStr (today req));
     ("status", VStr "Applied");
     ("reviewed_by", VNone);
     ("review_date", VNone);
     ("interview_date", VNone);
     ("notes", VNone)].

(** A collection whose records all carry an integer [key]. *)
Definition int_ids (key : string) (l : list value) : Prop :=
  Forall (fun r => int_id key r = true /\ has_key key r = true) l.

(** The id allocated over [l]. *)
Definition next_id (key : string) (l : list value) : Z :=
  max_or 0 (map (id_or_0 key) l) + 1.

(** * Vocabulary for the other routes *)

(** The state after [session.clear()] and the flash of [logout]. *)
Definition logged_out (st : state) : state :=
  {| files := files st; session := ∅;
     flashes := [("You have been logged out.", "info")] |}.

(** What a guard answers to a caller it turns away. *)
Definition to_login (st : state) : state * res response :=
  (flashed st "Please log in to access this page." "warning", Ok (Redirect "login" [])).

Definition to_home (st : state) : state * res response :=
  (flashed st "You do not have permission to access this page." "danger",
   Ok (Redirect "index" [])).


(** An employee acting for somebody else: the session role is
    ["Employee"] and the submitted [employee_id] is not the session's. *)
Definition for_another (st : state) (employee_id : Z) : bool :=
  py_eq (session_role st) (VStr "Employee")
  && negb (py_eq (VInt employee_id) (session_employee st)).

(** The record [leave_apply] appends. *)
Definition new_leave (req : request) (employee_id leave_id : Z) : value :=
  VDict
    [("leave_id", VInt leave_id);
     ("employee_id", VInt employee_id);
     ("leave_type", form_get req "leave_type");
     ("start_date", form_get req "start_date");
     ("end_date", form_get req "end_date");
     ("reason", form_get req "reason");
     ("status", VStr "Pending");
     ("applied_date", VStr (today req));
     ("approved_by", VNone);
     ("approved_date", VNone);
     ("comments", VNone)].

(** The leave request after a decision taken in the state [st]. *)
Definition decided_leave (status : string) (req : request) (st : state) (leave : value)
  : value :=
  match leave with
  | VDict d =>
      VDict (dict_set "comments" (form_get_default req "comments" (VStr EmptyString))
               (dict_set "approved_date" (VStr (today req))
                  (dict_set "approved_by" (default VNone (session st !! "user_id"))
                     (dict_set "status" (VStr status) d))))
  | _ => leave
  end.

(** The caller may edit or delete the leave request: an administrator or
    HR user any request, anybody else a pending request of their own. *)
Definition may_change (st : state) (leave : value) : bool :=
  py_in (session_role st) ["Admin"; "HR Staff"]
  || (py_eq (field "employee_id" leave) (session_employee st)
      && py_eq (field "status" leave) (VStr "Pending")).

(** A computation that leaves the files as they were, whether it returns
    or raises. *)
Definition read_only {A} (m : M A) : Prop :=
  forall st, files (m st).1 = files st.

(** Two payroll records are for the same employee, month and year. *)
Definition same_period (a b : value) : bool :=
  py_eq (field "employee_id" a) (field "employee_id" b)
  && py_eq (field "month" a) (field "month" b)
  && py_eq (field "year" a) (field "year" b).

(** Each (employee_id, month, year) occurs at most once in the collection. *)
Fixpoint unique_per_period (l : list value) : bool :=
  match l with
  | [] => true
  | r :: rest => negb (existsb (same_period r) rest) && unique_per_period rest
  end.

(** A payroll record of the period the form of [payroll_generate] names,
    generated today by the caller. *)
Definition generated_for `{Externals} (req : request) (st : state) (p : value) : Prop :=
  has_key "employee_id" p = true
  /\ field "month" p = form_get req "month"
  /\ (exists year, form_int req "year" = Ok year /\ field "year" p = VInt year)
  /\ field "generated_by" p = default VNone (session st !! "user_id")
  /\ field "generated_date" p = VStr (today req).

(** The caller may see the payroll record: an administrator or HR user any
    record, anybody else the records of their own employee id. *)
Definition may_view (st : state) (payroll : value) : bool :=
  py_in (session_role st) ["Admin"; "HR Staff"]
  || py_eq (field "employee_id" payroll) (session_employee st).

(** The employee shown on the salary slip of [payroll]: the first one with
    its [employee_id], [None] when there is none. *)
Definition slip_employee (payroll : value) (emps : list value) : value :=
  match List.find (fun e => py_eq (field "employee_id" e) (field "employee_id" payroll))
          emps with
  | Some e => e
  | None => VNone
  end.

(** The user record with its password hash replaced. *)
Definition with_password (hashed : string) (user : value) : value :=
  match user with
  | VDict d => VDict (dict_set "password_hash" (VStr hashed) d)
  | _ => user
  end.

(** The conditions under which [change_password] accepts the request for
    the record [user] at position [i] of the users file: the request is a
    POST by a logged-in caller, the new password was typed twice the same
    and has six characters or more, [user] is the first record with the
    [user_id] of the session, and [bcrypt.checkpw] accepts the submitted
    current password against its [password_hash]. *)
Definition change_accepts `{Externals} (req : request) (st : state) (i : nat) (user : value)
    (new : string) : Prop :=
  logged_in st
  /\ method req = POST
  /\ form req !! "new_password" = Some new
  /\ form req !! "confirm_password" = Some new
  /\ 6 <= str_len new
  /\ exists items current stored,
       py_iter (loaded st USERS_FILE) = Ok items
       /\ find_first (field_eq "user_id" (default VNone (session st !! "user_id"))) items
          = Ok (Some (i, user))
       /\ form req !! "current_password" = Some current
       /\ getitem user "password_hash" = Ok (VStr stored)
       /\ checkpw current stored = Ok true.


(** A file name that stays in the directory it is joined to: it has no
    slash and is neither empty nor a dot name. *)
Fixpoint has_slash (s : string) : bool :=
  match s with
  | EmptyString => false
  | String c r => Ascii.eqb c "/"%char || has_slash r
  end.

Definition plain_name (name : string) : bool :=
  negb (has_slash name) && negb (String.eqb name EmptyString)
  && negb (String.eqb name ".") && negb (String.eqb name "..").

(** The files without the resume of the applicant, when the record names
    one. *)
Definition without_resume (applicant : value) (fs : gmap string string)
  : gmap string string :=
  match field "resume_filename" applicant with
  | VStr name =>
      if String.eqb name EmptyString then fs
      else delete (FILES_DIR +:+ "/" +:+ name) fs
  | _ => fs
  end.

(** The record names no resume, or a plain file name. *)
Definition resume_named (applicant : value) : bool :=
  match field "resume_filename" applicant with
  | VStr name => String.eqb name EmptyString || plain_name name
  | VNone => true
  | _ => false
  end.

(** The file arrived with a name of a type that is not accepted. *)
Definition upload_refused (req : request) : Prop :=
  exists name content,
    upload req = Some (name, content) /\ name <> EmptyString /\ allowed_file name = false.

(** The record [attendance_mark] appends at a check-in. *)
Definition new_attendance (req : request) (employee_id attendance_id : Z) : value :=
  VDict
    [("attendance_id", VInt attendance_id);
     ("employee_id", VInt employee_id);
     ("date", VStr (today req));
     ("check_in_time", VStr (now_time req));
     ("check_out_time", VNone);
     ("notes", form_get_default req "notes" (VStr EmptyString));
     ("status", VStr "Present")].

(** The employee record after a POST to [employee_edit] with the salary
    [salary]. *)
Definition edited_employee (req : request) (salary : float) (employee : value) : value :=
  match employee with
  | VDict d =>
      VDict (fold_left (fun acc kv => dict_set kv.1 kv.2 acc)
               [("first_name", form_get req "first_name");
                ("last_name", form_get req "last_name");
                ("cnic", form_get req "cnic");
                ("email", form_get req "email");
                ("contact", form_get req "contact");
                ("department", form_get req "department");
                ("designation", form_get req "designation");
                ("join_date", form_get req "join_date");
                ("status", form_get req "status");
                ("salary", VFloat salary)] d)
  | _ => employee
  end.

(** The applicants of the job, as [job_view] shows them to the caller:
    none unless the caller is an administrator or HR user. *)
Definition shown_applicants (st : state) (job_id : Z) (apps : list value) : list value :=
  if py_in (session_role st) ["Admin"; "HR Staff"]
  then List.filter (fun a => py_eq (field "job_id" a) (VInt job_id)) apps
  else [].

(** The employee a listing names for the id [id]: the last record of the
    employees file with that [employee_id] (in the lookup table a later
    record replaces an earlier one with an equal key). *)
Fixpoint employee_with (id : value) (emps : list value) : option value :=
  match emps with
  | [] => None
  | e :: rest =>
      match employee_with id rest with
      | Some e' => Some e'
      | None => if py_eq (field "employee_id" e) id then Some e else None
      end
  end.

(** The name shown for a row: first and last name of its employee, or
    ["Unknown"] when the employees file has no record with its id. *)
Definition shown_name `{Externals} (emps : list value) (row : value) : string :=
  match employee_with (field "employee_id" row) emps with
  | Some e => py_str (field "first_name" e) +:+ " " +:+ py_str (field "last_name" e)
  | None => "Unknown"
  end.

(** The row as a listing shows it. *)
Definition named_after `{Externals} (emps : list value) (row : value) : value :=
  match row with
  | VDict d => VDict (dict_set "employee_name" (VStr (shown_name emps row)) d)
  | _ => row
  end.

(** [r] is a record whose [key] is an integer. *)
Definition int_key (key : string) (r : value) : bool :=
  match field key r with
  | VInt _ => true
  | _ => false
  end.

(** The employee the report is asked for: [Some None] when the request
    names none, [None] when what it names is not a number. *)
Definition wanted_employee `{Externals} (req : request) : option (option Z) :=
  match args req !! "employee_id" with
  | None => Some None
  | Some s =>
      if String.eqb s EmptyString then Some None
      else match int_of_str s with
           | Some n => Some (Some n)
           | None => None
           end
  end.

(** A bound of the report: absent, or the empty string, is no bound. *)
Definition bound (req : request) (k : string) : option string :=
  match args req !! k with
  | Some s => if String.eqb s EmptyString then None else Some s
  | None => None
  end.

(** The record is in the report: its date is within the bounds (compared
    as strings) and it is of the employee asked for. *)
Definition in_report (req : request) (employee : option Z) (r : value) : bool :=
  match field "date" r with
  | VStr d =>
      match bound req "start_date" with Some s => String.leb s d | None => true end
      && match bound req "end_date" with Some e => String.leb d e | None => true end
      && match employee with
         | Some n => py_eq (field "employee_id" r) (VInt n)
         | None => true
         end
  | _ => false
  end.

(** A computation that leaves the session as it was, whether it returns
    or raises. *)
Definition keeps_session {A} (m : M A) : Prop :=
  forall st, session (m st).1 = session st.

(** The record [job_add] appends, posted by the caller today. *)
Definition new_job (req : request) (st : state) (job_id : Z) : value :=
  VDict
    [("job_id", VInt job_id);
     ("title", form_get req "title");
     ("department", form_get req "department");
     ("description", form_get req "description");
     ("requirements", form_get req "requirements");
     ("salary_range", form_get req "salary_range");
     ("location", form_get req "location");
     ("employment_type", form_get req "employment_type");
     ("experience_level", form_get req "experience_level");
     ("status", form_get_default req "status" (VStr "Active"));
     ("posted_date", VStr (today req));
     ("application_deadline", form_get req "application_deadline");
     ("posted_by", default VNone (session st !! "user_id"))].

(** * A concrete library for the examples

    An instance of [Externals] on a fragment of JSON: [null], booleans,
    integers, floats of integral value, strings whose only escapes are the
    quote and the backslash, lists and objects. On that fragment [json_dump]
    writes what [json.dump(data, f, indent=2)] writes and [json_decode]
    reads what [json.load] reads. The other functions are sample stand-ins
    (decimal [int], a password check by comparison) on which the examples
    below run. *)
Module Sample.

Definition quote : ascii := ascii_of_nat 34.
Definition backslash : ascii := ascii_of_nat 92.
Definition newline : string := String (ascii_of_nat 10) EmptyString.

Definition dec (z : Z) : string := NilZero.string_of_int (Z.to_int z).

Definition undec (s : string) : option Z := option_map Z.of_int (NilZero.int_of_string s).

(** The integer a float is equal to, if any. *)
Definition float_Z (f : float) : option Z :=
  match Prim2SF f with
  | S754_zero _ => Some 0
  | S754_finite s m e =>
      let v := if s then Z.neg m else Z.pos m in
      if 0 <=? e then Some (v * 2 ^ e)
      else if v mod 2 ^ (- e) =? 0 then Some (v / 2 ^ (- e)) else None
  | _ => None
  end.

Definition Z_float (z : Z) : float :=
  if z <? 0 then PrimFloat.opp (PrimFloat.of_uint63 (Uint63.of_Z (- z)))
  else PrimFloat.of_uint63 (Uint63.of_Z z).

Definition show_float (f : float) : string :=
  match float_Z f with
  | Some z => dec z +:+ ".0"
  | None => "NaN"
  end.

Fixpoint escape (s : string) : string :=
  match s with
  | EmptyString => EmptyString
  | String c r =>
      if Ascii.eqb c quote || Ascii.eqb c backslash
      then String backslash (String c (escape r))
      else String c (escape r)
  end.

Definition show_str (s : string) : string :=
  String quote (escape s +:+ String quote EmptyString).

Fixpoint indent (level : nat) : string :=
  match level with
  | O => EmptyString
  | S n => "  " +:+ indent n
  end.

Fixpoint show (level : nat) (v : value) : string :=
  match v with
  | VNone => "null"
  | VBool b => if b then "true" else "false"
  | VInt z => dec z
  | VFloat f => show_float f
  | VStr s => show_str s
  | VList l =>
      match l with
      | [] => "[]"
      | x :: r =>
          "[" +:+ newline +:+ indent (S level) +:+ show (S level) x
          +:+ (fix rest (l : list value) : string :=
                 match l with
                 | [] => EmptyString
                 | y :: l' =>
                     "," +:+ newline +:+ indent (S level) +:+ show (S level) y +:+ rest l'
                 end) r
          +:+ newline +:+ indent level +:+ "]"
      end
  | VDict d =>
      match d with
      | [] => "{}"
      | (k, x) :: r =>
          "{" +:+ newline +:+ indent (S level) +:+ show_str k +:+ ": " +:+ show (S level) x
          +:+ (fix rest (d : list (string * value)) : string :=
                 match d with
                 | [] => EmptyString
                 | (k', y) :: d' =>
                     "," +:+ newline +:+ indent (S level) +:+ show_str k' +:+ ": "
                     +:+ show (S level) y +:+ rest d'
                 end) r
          +:+ newline +:+ indent level +:+ "}"
      end
  end.

Definition is_ws (c : ascii) : bool :=
  let n := nat_of_ascii c in
  (n =? 32)%nat || (n =? 10)%nat || (n =? 9)%nat || (n =? 13)%nat.

Fixpoint skip_ws (s : string) : string :=
  match s with
  | String c r => if is_ws c then skip_ws r else s
  | EmptyString => s
  end.

(** The text after an opening quote, up to the closing one. *)
Fixpoint parse_string (s : string) : option (string * string) :=
  match s with
  | EmptyString => None
  | String c r =>
      if Ascii.eqb c quote then Some (EmptyString, r)
      else if Ascii.eqb c backslash then
        match r with
        | String c' r' =>
            if Ascii.eqb c' quote || Ascii.eqb c' backslash then
              match parse_string r' with
              | Some (t, rest) => Some (String c' t, rest)
              | None => None
              end
            else None
        | EmptyString => None
        end
      else
        match parse_string r with
        | Some (t, rest) => Some (String c t, rest)
        | None => None
        end
  end.

Definition is_num_char (c : ascii) : bool :=
  let n := nat_of_ascii c in
  ((48 <=? n)%nat && (n <=? 57)%nat) || (n =? 45)%nat || (n =? 46)%nat.

Fixpoint span_num (s : string) : string * string :=
  match s with
  | String c r =>
      if is_num_char c then (let (a, b) := span_num r in (String c a, b))
      else (EmptyString, s)
  | EmptyString => (EmptyString, s)
  end.

Fixpoint split_dot (s : string) : string * option string :=
  match s with
  | EmptyString => (EmptyString, None)
  | String c r =>
      if Ascii.eqb c "."%char then (EmptyString, Some r)
      else (let (a, b) := split_dot r in (String c a, b))
  end.

Fixpoint all_zero (s : string) : bool :=
  match s with
  | EmptyString => true
  | String c r => Ascii.eqb c "0"%char && all_zero r
  end.

Definition number (s : string) : option value :=
  match split_dot s with
  | (whole, None) => option_map VInt (undec whole)
  | (whole, Some frac) =>
      if all_zero frac && negb (String.eqb frac EmptyString)
      then option_map (fun z => VFloat (Z_float z)) (undec whole)
      else None
  end.

Fixpoint strip_prefix (p s : string) : option string :=
  match p, s with
  | EmptyString, _ => Some s
  | String a p', String b s' => if Ascii.eqb a b then strip_prefix p' s' else None
  | _, _ => None
  end.

Definition parse_atom (s : string) : option (value * string) :=
  match strip_prefix "null" s with
  | Some r => Some (VNone, r)
  | None =>
  match strip_prefix "true" s with
  | Some r => Some (VBool true, r)
  | None =>
  match strip_prefix "false" s with
  | Some r => Some (VBool false, r)
  | None =>
  match strip_prefix "NaN" s with
  | Some r => Some (VFloat PrimFloat.nan, r)
  | None =>
      let (digits, r) := span_num s in
      match number digits with
      | Some v => Some (v, r)
      | None => None
      end
  end end end end.

Fixpoint parse_value (fuel : nat) (s : string) : option (value * string) :=
  match fuel with
  | O => None
  | S fuel =>
      match skip_ws s with
      | EmptyString => None
      | String c r =>
          if Ascii.eqb c "["%char then
            match skip_ws r with
            | String c' r' =>
                if Ascii.eqb c' "]"%char then Some (VList [], r') else parse_items fuel r []
            | EmptyString => None
            end
          else if Ascii.eqb c "{"%char then
            match skip_ws r with
            | String c' r' =>
                if Ascii.eqb c' "}"%char then Some (VDict [], r') else parse_members fuel r []
            | EmptyString => None
            end
          else if Ascii.eqb c quote then
            match parse_string r with
            | Some (t, r') => Some (VStr t, r')
            | None => None
            end
          else parse_atom (String c r)
      end
  end
with parse_items (fuel : nat) (s : string) (acc : list value) : option (value * string) :=
  match fuel with
  | O => None
  | S fuel =>
      match parse_value fuel s with
      | Some (v, r) =>
          match skip_ws r with
          | String c r' =>
              if Ascii.eqb c ","%char then parse_items fuel r' (v :: acc)
              else if Ascii.eqb c "]"%char then Some (VList (rev (v :: acc)), r')
              else None
          | EmptyString => None
          end
      | None => None
      end
  end
with parse_members (fuel : nat) (s : string) (acc : list (string * value))
  : option (value * string) :=
  match fuel with
  | O => None
  | S fuel =>
      match skip_ws s with
      | String c r =>
          if Ascii.eqb c quote then
            match parse_string r with
            | Some (k, r1) =>
                match skip_ws r1 with
                | String c1 r2 =>
                    if Ascii.eqb c1 ":"%char then
                      match parse_value fuel r2 with
                      | Some (v, r3) =>
                          match skip_ws r3 with
                          | String c3 r4 =>
                              if Ascii.eqb c3 ","%char
                              then parse_members fuel r4 (dict_set k v acc)
                              else if Ascii.eqb c3 "}"%char
                              then Some (VDict (dict_set k v acc), r4)
                              else None
                          | EmptyString => None
                          end
                      | None => None
                      end
                    else None
                | EmptyString => None
                end
            | None => None
            end
          else None
      | EmptyString => None
      end
  end.

Definition decode (s : string) : option value :=
  match parse_value (2 * String.length s + 2) s with
  | Some (v, r) =>
      match skip_ws r with
      | EmptyString => Some v
      | _ => None
      end
  | None => None
  end.

Definition str (v : value) : string :=
  match v with
  | VNone => "None"
  | VBool b => if b then "True" else "False"
  | VInt z => dec z
  | VFloat f => show_float f
  | VStr s => s
  | _ => show 0 v
  end.

Definition to_float (s : string) : option float :=
  match number s with
  | Some (VInt z) => Some (Z_float z)
  | Some (VFloat f) => Some f
  | _ => None
  end.

(** Stands in for bcrypt: the stored hash is the password after a tag. *)
Definition check (password hashed : string) : res bool :=
  Ok (String.eqb hashed ("bcrypt:" +:+ password)).

Definition externals : Externals :=
  {| json_decode := decode;
     json_dump := show 0;
     py_str := str;
     int_of_str := undec;
     float_of_str := to_float;
     checkpw := check;
     secure_filename := fun name => name |}.

(** The codec of a UTF-8 locale, strict as Python's: no overlong form, no
    surrogate, nothing above U+10FFFF. [expected] says what the next byte
    must be inside a multi-byte sequence. *)
Inductive expected : Type :=
| Lead
| Continuation (more : nat) (lo hi : N).

Definition within (lo hi : N) (c : ascii) : bool :=
  ((lo <=? N_of_ascii c) && (N_of_ascii c <=? hi))%N.

Definition after_lead (c : ascii) : option expected :=
  if within 0 127 c then Some Lead
  else if within 194 223 c then Some (Continuation 0 128 191)
  else if within 224 224 c then Some (Continuation 1 160 191)
  else if within 225 236 c then Some (Continuation 1 128 191)
  else if within 237 237 c then Some (Continuation 1 128 159)
  else if within 238 239 c then Some (Continuation 1 128 191)
  else if within 240 240 c then Some (Continuation 2 144 191)
  else if within 241 243 c then Some (Continuation 2 128 191)
  else if within 244 244 c then Some (Continuation 2 128 143)
  else None.

Fixpoint utf8_from (e : expected) (bytes : string) : bool :=
  match bytes with
  | EmptyString => match e with Lead => true | Continuation _ _ _ => false end
  | String c r =>
      match e with
      | Lead =>
          match after_lead c with
          | Some e' => utf8_from e' r
          | None => false
          end
      | Continuation more lo hi =>
          within lo hi c
          && utf8_from match more with
                       | O => Lead
                       | S k => Continuation k 128 191
                       end r
      end
  end.

Definition utf8_valid (bytes : string) : bool := utf8_from Lead bytes.

(** Text mode reads every line ending as a line feed. *)
Fixpoint newlines (s : string) : string :=
  match s with
  | EmptyString => EmptyString
  | String c r =>
      if Ascii.eqb c (ascii_of_nat 13) then
        match r with
        | String c' r' =>
            if Ascii.eqb c' (ascii_of_nat 10) then String c' (newlines r')
            else String (ascii_of_nat 10) (newlines r)
        | EmptyString => String (ascii_of_nat 10) EmptyString
        end
      else String c (newlines r)
  end.

(** A platform whose locale is UTF-8, with the limits [limits] of its
    interpreter. *)
Definition utf8 (limits : string -> option limit) : Platform :=
  {| decode_text := fun bytes => if utf8_valid bytes then Some (newlines bytes) else None;
     json_limit := limits |}.

End Sample.

(** * Example data

    States and requests on which the statements below are instantiated,
    with the files holding the text [Sample.show] writes. *)
Module Examples.

Definition session_of (user_id : Z) (username role : string) (employee_id : value)
  : gmap string value :=
  <["user_id" := VInt user_id]>
    (<["username" := VStr username]>
       (<["role" := VStr role]>
          (<["employee_id" := employee_id]> ∅))).

Definition admin : gmap string value := session_of 1 "admin" "Admin" VNone.
Definition hr : gmap string value := session_of 2 "hina" "HR Staff" (VInt 4).
Definition employee7 : gmap string value := session_of 3 "bilal" "Employee" (VInt 7).

Definition attendance_row (id emp : Z) (date : string) (out : value) : value :=
  VDict
    [("attendance_id", VInt id); ("employee_id", VInt emp); ("date", VStr date);
     ("check_in_time", VStr "09:00:00"); ("check_out_time", out);
     ("notes", VStr EmptyString); ("status", VStr "Present")].

Definition attendance_rows : list value :=
  [attendance_row 1 7 "2025-10-01" (VStr "17:00:00");
   attendance_row 2 4 "2025-10-01" VNone;
   attendance_row 3 7 "2025-10-02" VNone].

Definition employee_row (id : Z) (first last : string) : value :=
  VDict
    [("employee_id", VInt id); ("first_name", VStr first); ("last_name", VStr last);
     ("cnic", VStr "35202-1234567-1"); ("email", VStr "staff@example.com");
     ("contact", VStr "0300-1234567"); ("department", VStr "IT");
     ("designation", VStr "Engineer"); ("join_date", VStr "2024-01-15");
     ("status", VStr "Active"); ("salary", VFloat (Sample.Z_float 90000))].

Definition employee_rows : list value :=
  [employee_row 4 "Hina" "Khan"; employee_row 7 "Bilal" "Ahmed"].

Definition leave_row (id emp : Z) (status : string) : value :=
  VDict
    [("leave_id", VInt id); ("employee_id", VInt emp); ("leave_type", VStr "Annual");
     ("start_date", VStr "2025-11-03"); ("end_date", VStr "2025-11-07");
     ("reason", VStr "Family visit"); ("status", VStr status);
     ("applied_date", VStr "2025-10-01"); ("approved_by", VInt 2);
     ("approved_date", VStr "2025-10-02"); ("comments", VStr "Enjoy")].

Definition leave_rows : list value :=
  [leave_row 1 4 "Pending"; leave_row 2 7 "Approved"; leave_row 3 7 "Rejected"].

Definition job_row (id : Z) (title : string) : value :=
  VDict
    [("job_id", VInt id); ("title", VStr title); ("department", VStr "IT");
     ("status", VStr "Active")].

Definition job_rows : list value :=
  [job_row 3 "Accountant"; job_row 5 "Software Engineer"].

Definition user_row (id : Z) (name role : string) (active : bool) (employee_id : value)
  : value :=
  VDict
    [("user_id", VInt id); ("username", VStr name);
     ("password_hash", VStr ("bcrypt:" +:+ name +:+ "-secret"));
     ("role", VStr role); ("employee_id", employee_id); ("active", VBool active)].

Definition user_rows : list value :=
  [user_row 1 "admin" "Admin" true VNone;
   user_row 2 "hina" "HR Staff" true (VInt 4);
   user_row 3 "bilal" "Employee" true (VInt 7);
   user_row 4 "saad" "Employee" false (VInt 9)].

Definition data_files : gmap string string :=
  <[ATTENDANCE_FILE := Sample.show 0 (VList attendance_rows)]>
    (<[EMPLOYEES_FILE := Sample.show 0 (VList employee_rows)]>
       (<[LEAVES_FILE := Sample.show 0 (VList leave_rows)]>
          (<[JOBS_FILE := Sample.show 0 (VList job_rows)]>
             (<[USERS_FILE := Sample.show 0 (VList user_rows)]> ∅)))).

Definition get_request : request :=
  {| method := GET; form := ∅; args := ∅; upload := None;
     today := "2025-10-03"; now_time := "09:30:00"; now_stamp := "20251003_093000_" |}.

Definition post_request (fields : list (string * string)) : request :=
  {| method := POST; form := list_to_map fields; args := ∅; upload := None;
     today := "2025-10-03"; now_time := "09:30:00"; now_stamp := "20251003_093000_" |}.

Definition as_admin : state := State data_files admin [].
Definition as_hr : state := State data_files hr [].
Definition as_employee7 : state := State data_files employee7 [].
Definition anonymous : state := State data_files ∅ [].

(** A leaves file that was cut short while being written. *)
Definition broken_leaves : state :=
  State (<[LEAVES_FILE := "[{"]> data_files) admin [].

(** An employees file in which one record has lost its [employee_id]. *)
Definition employee_without_id : value :=
  VDict [("first_name", VStr "Sana"); ("last_name", VStr "Malik")].

Definition id_less_employees : state :=
  State (<[EMPLOYEES_FILE := Sample.show 0 (VList [employee_without_id])]> data_files) admin [].

(** An employees file that an editor saved in Latin-1: the e with an acute
    accent of the first name is the single byte 233, which no UTF-8 text
    holds before a quotation mark. *)
Definition quotes (s : string) : string :=
  String (ascii_of_nat 34) (s +:+ String (ascii_of_nat 34) EmptyString).

Definition latin1_text : string :=
  "[{" +:+ quotes "employee_id" +:+ ": 7, " +:+ quotes "first_name" +:+ ": "
  +:+ quotes ("Jos" +:+ String (ascii_of_nat 233) EmptyString) +:+ "}]".

Definition latin1_employees : state :=
  State (<[EMPLOYEES_FILE := latin1_text]> data_files) admin [].

Definition new_hire_form : request :=
  post_request [("first_name", "Omar"); ("last_name", "Sheikh"); ("salary", "75000")].

(** The edit that moves the third attendance record onto the day of the first. *)
Definition move_to_first_day : request :=
  post_request
    [("date", "2025-10-01"); ("check_in_time", "09:00:00"); ("status", "Present")].

Definition leave_change : request :=
  post_request
    [("leave_type", "Sick"); ("start_date", "2025-11-04"); ("end_date", "2025-11-05");
     ("reason", "Flu")].

Definition application : request :=
  post_request
    [("first_name", "Ayesha"); ("last_name", "Raza"); ("email", "ayesha@example.com");
     ("contact", "0301-7654321"); ("cnic", "35201-7654321-2");
     ("experience_years", "4"); ("expected_salary", "120000")].

Definition onboarding : request :=
  post_request
    [("department", "IT"); ("designation", "Engineer"); ("join_date", "2025-11-01");
     ("salary", "110000")].

(** The files the application leaves, seen from the session of an HR user. *)
Definition hr_after_application : state :=
  State
    (files (job_apply (H := Sample.externals) (P := kept_store) 5 application
              anonymous).1)
    hr [].

Definition good_login : request :=
  post_request [("username", "bilal"); ("password", "bilal-secret")].

Definition bad_login : request :=
  post_request [("username", "bilal"); ("password", "guess")].

End Examples.

(** * A concrete library for the other routes *)
Module SampleMore.

(** [+] and [-] on integers and on the floats of the examples. *)
Definition as_float (n : num) : float :=
  match n with
  | NInt z => Sample.Z_float z
  | NFloat f => f
  end.

Definition arith (on_int : Z -> Z -> Z) (on_float : float -> float -> float)
    (a b : value) : res value :=
  match num_of a, num_of b with
  | Some (NInt x), Some (NInt y) => Ok (VInt (on_int x y))
  | Some x, Some y => Ok (VFloat (on_float (as_float x) (as_float y)))
  | _, _ => Raise TypeError
  end.

Definition arithmetic : Arithmetic :=
  {| py_add := arith Z.add PrimFloat.add;
     py_sub := arith Z.sub PrimFloat.sub |}.

(** Stands in for bcrypt, as [Sample.check] does: the hash is the password
    after a tag. *)
Definition hashing : Hashing :=
  {| hashpw := fun password salt => Ok ("bcrypt:" +:+ password) |}.

End SampleMore.

(** * More example data *)
Module MoreExamples.

Definition leave_request : request :=
  Examples.post_request
    [("employee_id", "7"); ("leave_type", "Casual"); ("start_date", "2025-12-01");
     ("end_date", "2025-12-02"); ("reason", "Errand")].

Definition decision : request :=
  Examples.post_request [("comments", "Approved for the dates asked")].

(** Employee 4 (the owner of leave request 1), after the HR user approved
    that request. *)
Definition owner_after_approval : state :=
  State
    (files (leave_approve (H := Sample.externals) (P := kept_store) 1 decision
              Examples.as_hr).1)
    (Examples.session_of 5 "hina.k" "Employee" (VInt 4)) [].

Definition payroll_row (id emp : Z) (month : string) (year : Z) : value :=
  VDict
    [("payroll_id", VInt id); ("employee_id", VInt emp); ("month", VStr month);
     ("year", VInt year); ("basic_salary", VFloat (Sample.Z_float 90000));
     ("allowances", VFloat (Sample.Z_float 5000));
     ("deductions", VFloat (Sample.Z_float 1500));
     ("net_salary", VFloat (Sample.Z_float 93500));
     ("payment_date", VStr "2025-10-31"); ("status", VStr "Paid");
     ("generated_by", VInt 2); ("generated_date", VStr "2025-10-28")].

Definition payroll_rows : list value :=
  [payroll_row 1 7 "October" 2025; payroll_row 2 4 "September" 2025].

(** The example files with a payroll file beside them. *)
Definition with_payrolls (st : state) : state :=
  State (<[PAYROLLS_FILE := Sample.show 0 (VList payroll_rows)]> (files st))
    (session st) (flashes st).

Definition payroll_run : request :=
  Examples.post_request
    [("month", "October"); ("year", "2025"); ("allowances", "5000");
     ("deductions", "1500"); ("payment_date", "2025-10-31")].

Definition new_password : request :=
  Examples.post_request
    [("current_password", "bilal-secret"); ("new_password", "s3cret-new");
     ("confirm_password", "s3cret-new")].


(** The files the change of password leaves, seen without a session. *)
Definition after_password_change : state :=
  State
    (files (change_password (H := Sample.externals) (H1 := SampleMore.hashing)
              (P := kept_store)
              "salt" new_password Examples.as_employee7).1)
    ∅ [].

Definition new_login : request :=
  Examples.post_request [("username", "bilal"); ("password", "s3cret-new")].

Definition applicant_row (id job : Z) (first last : string) (resume : value) : value :=
  VDict
    [("applicant_id", VInt id); ("job_id", VInt job); ("first_name", VStr first);
     ("last_name", VStr last); ("email", VStr "applicant@example.com");
     ("resume_filename", resume); ("status", VStr "Applied")].

Definition applicant_rows : list value :=
  [applicant_row 1 5 "Ayesha" "Raza" (VStr "20251003_093000_cv.pdf");
   applicant_row 2 3 "Omar" "Sheikh" VNone;
   applicant_row 3 5 "Zain" "Ali" VNone].

(** The example files with an applicants file and the resume of the first
    applicant beside them. *)
Definition with_applicants (st : state) : state :=
  State
    (<[APPLICANTS_FILE := Sample.show 0 (VList applicant_rows)]>
       (<[FILES_DIR +:+ "/" +:+ "20251003_093000_cv.pdf" := "%PDF-1.4"]> (files st)))
    (session st) (flashes st).

(** An application that comes with a program instead of a resume. *)
Definition bad_application : request :=
  {| method := POST; form := form Examples.application; args := ∅;
     upload := Some ("cv.exe", "MZ");
     today := "2025-10-03"; now_time := "09:30:00"; now_stamp := "20251003_093000_" |}.

Definition employee_change : request :=
  Examples.post_request
    [("first_name", "Bilal"); ("last_name", "Ahmed"); ("cnic", "35202-1234567-1");
     ("email", "bilal@example.com"); ("contact", "0300-1234567"); ("department", "IT");
     ("designation", "Senior Engineer"); ("join_date", "2024-01-15");
     ("status", "Active"); ("salary", "95000")].

Definition check_in : request :=
  Examples.post_request [("employee_id", "7"); ("action", "check_in")].

(** Employee 7 after their check-in of the day. *)
Definition after_check_in : state :=
  State
    (files (attendance_mark (H := Sample.externals) (P := kept_store) check_in
              Examples.as_employee7).1)
    Examples.employee7 [].

(** The report on employee 7 for the first of October. *)
Definition report_request : request :=
  {| method := GET; form := ∅;
     args := list_to_map [("start_date", "2025-10-01"); ("end_date", "2025-10-01");
                          ("employee_id", "7")];
     upload := None;
     today := "2025-10-03"; now_time := "09:30:00"; now_stamp := "20251003_093000_" |}.

Definition job_posting : request :=
  Examples.post_request
    [("title", "Data Analyst"); ("department", "Finance");
     ("description", "Reports and dashboards"); ("location", "Lahore")].

(** A visitor, on the files the posting of the job leaves. *)
Definition visitor_after_posting : state :=
  State
    (files (job_add (H := Sample.externals) (P := kept_store) job_posting
              Examples.as_hr).1)
    ∅ [].

End MoreExamples.

(** * Properties

    The properties of the handlers are stated over a store that is kept in
    order, the platform [kept_store]: the data files hold text that the
    locale decodes and [json.load] parses within the limits of the
    interpreter. What reading does on any platform is
    [read_json_file_outcome]. *)

Section Properties.
Context `{Externals}.
Local Existing Instance kept_store.

Lemma py_in_str (r : string) (roles : list string) :
  py_in (VStr r) roles = true <-> In r roles.
Proof.
  unfold py_in. rewrite existsb_exists. split.
  - intros (s & Hin & Heq). simpl in Heq. apply String.eqb_eq in Heq. by subst.
  - intros Hin. exists r. split; [done|]. simpl. apply String.eqb_refl.
Qed.

(** C1. A route guarded by [role_required roles]: with no [user_id] in the
    session the response is a redirect to the login page; with a [user_id]
    but a session role that is not among [roles] it is a redirect to the
    home page. In both cases the outcome is the same whatever the wrapped
    handler [f] is (it is not run), and the state differs from the one
    before only by the flashed message: no file is written. A route guarded
    by [login_required] answers a request without [user_id] the same way. *)
Theorem role_required_rejects (roles : list string) (f : handler) (req : request) (st : state) :
  (session st !! "user_id" = None ->
     role_required roles f req st =
       (flashed st "Please log in to access this page." "warning",
        Ok (Redirect "login" [])))
  /\ (is_Some (session st !! "user_id") -> py_in (session_role st) roles = false ->
     role_required roles f req st =
       (flashed st "You do not have permission to access this page." "danger",
        Ok (Redirect "index" [])))
  /\ (session st !! "user_id" = None ->
     login_required f req st =
       (flashed st "Please log in to access this page." "warning",
        Ok (Redirect "login" []))).
Proof.
  assert (session st !! "user_id" = None ->
          bool_decide (is_Some (session st !! "user_id")) = false) as Hanon.
  { intros Hnone. rewrite Hnone. apply bool_decide_eq_false_2. by intros [? ?]. }
  split; [|split].
  - intros Hnone. unfold role_required, bind, session_has. by rewrite (Hanon Hnone).
  - intros Hsome Hrole. unfold role_required, bind, session_has, session_get.
    rewrite bool_decide_eq_true_2 by done. cbn.
    unfold session_role in Hrole. by rewrite Hrole.
  - intros Hnone. unfold login_required, bind, session_has. by rewrite (Hanon Hnone).
Qed.

(** ** Reading a file *)

(** What [read_json_file] does on any platform: it leaves the state alone;
    a missing file and text that [json.load] refuses as JSON give the empty
    list, the two exceptions it catches; bytes the codec refuses and a
    document beyond a limit of the interpreter raise past it. *)
Lemma read_json_file_outcome (Q : Platform) (filepath : string) (st : state) :
  read_json_file (P := Q) filepath st
  = (st,
     match files st !! filepath with
     | None => Ok (VList [])
     | Some bytes =>
         match decode_text bytes with
         | None => Raise UnicodeDecodeError
         | Some text =>
             match json_limit text with
             | Some TooDeep => Raise RecursionError
             | Some TooManyDigits => Raise ValueError
             | None =>
                 match json_decode text with
                 | Some v => Ok v
                 | None => Ok (VList [])
                 end
             end
         end
     end).
Proof.
  unfold read_json_file, try_except, bind, open_read, lift, json_load, ret.
  destruct (files st !! filepath) as [bytes|]; [|done].
  destruct (decode_text bytes) as [text|]; [|done].
  destruct (json_limit text) as [[|]|]; [done|done|].
  by destruct (json_decode text).
Qed.

(** ** Running a handler *)

Lemma read_json_file_loaded (filepath : string) (st : state) :
  read_json_file filepath st = (st, Ok (loaded st filepath)).
Proof.
  rewrite read_json_file_outcome. unfold loaded. cbn.
  destruct (files st !! filepath) as [text|]; [|done].
  by destruct (json_decode text).
Qed.

Lemma login_required_admits (f : handler) (req : request) (st : state) :
  logged_in st -> login_required f req st = f req st.
Proof.
  intros Hin. unfold login_required, bind, session_has.
  by rewrite bool_decide_eq_true_2.
Qed.

Lemma role_required_admits (roles : list string) (f : handler) (req : request) (st : state) :
  authorized roles st -> role_required roles f req st = f req st.
Proof.
  intros [Hin Hrole]. unfold role_required, bind, session_has, session_get.
  rewrite bool_decide_eq_true_2 by done. cbn.
  unfold session_role in Hrole. by rewrite Hrole.
Qed.

(** One step of a handler: a pure computation, or the reading of a file. *)
Ltac run_lift := unfold bind at 1; unfold lift at 1.
Ltac run_lift_in H := unfold bind at 1 in H; unfold lift at 1 in H.
Ltac run_read := unfold bind at 1; rewrite read_json_file_loaded.

(** ** Records and scans *)

Lemma getitem_field (key : string) (r : value) :
  has_key key r = true -> getitem r key = Ok (field key r).
Proof.
  destruct r; try discriminate. cbn. by destruct (dict_get key d).
Qed.

Lemma has_key_truthy (key : string) (r : value) :
  has_key key r = true -> py_truthy r = true.
Proof. destruct r as [| | | | | |[|]]; cbn; congruence. Qed.

Lemma field_eq_id_is (key : string) (id : Z) (r : value) :
  id_is key id r = true -> field_eq key (VInt id) r = Ok true.
Proof.
  unfold id_is, field_eq. intros [Hk Heq]%andb_true_iff.
  rewrite (getitem_field _ _ Hk). cbn. by rewrite Heq.
Qed.

Lemma field_eq_id_isnt (key : string) (id : Z) (r : value) :
  id_isnt key id r = true -> field_eq key (VInt id) r = Ok false.
Proof.
  unfold id_isnt, field_eq. intros [Hk Hne]%andb_true_iff.
  rewrite (getitem_field _ _ Hk). cbn. apply negb_true_iff in Hne. by rewrite Hne.
Qed.

Lemma field_ne_id_is (key : string) (id : Z) (r : value) :
  id_is key id r = true -> field_ne key (VInt id) r = Ok false.
Proof.
  unfold id_is, field_ne. intros [Hk Heq]%andb_true_iff.
  rewrite (getitem_field _ _ Hk). cbn. by rewrite Heq.
Qed.

Lemma field_ne_id_isnt (key : string) (id : Z) (r : value) :
  id_isnt key id r = true -> field_ne key (VInt id) r = Ok true.
Proof.
  unfold id_isnt, field_ne. intros [Hk Hne]%andb_true_iff.
  rewrite (getitem_field _ _ Hk). cbn. apply negb_true_iff in Hne. by rewrite Hne.
Qed.

Lemma find_from_hit {A} (p : A -> res bool) (l1 l2 : list A) (x : A) (i : nat) :
  Forall (fun r => p r = Ok false) l1 -> p x = Ok true ->
  find_from p i (l1 ++ x :: l2) = Ok (Some ((i + length l1)%nat, x)).
Proof.
  intros Hl1 Hx. revert i. induction Hl1 as [|y l1 Hy _ IH]; intros i; cbn.
  - rewrite Hx. cbn. by rewrite Nat.add_0_r.
  - rewrite Hy. cbn. rewrite IH. do 3 f_equal. lia.
Qed.

Lemma find_from_miss {A} (p : A -> res bool) (l : list A) (i : nat) :
  Forall (fun r => p r = Ok false) l -> find_from p i l = Ok None.
Proof.
  intros Hl. revert i. induction Hl as [|y l Hy _ IH]; intros i; cbn; [done|].
  rewrite Hy. cbn. apply IH.
Qed.

Lemma filter_res_total {A} (p : A -> res bool) (f : A -> bool) (l : list A) :
  Forall (fun r => p r = Ok (f r)) l -> filter_res p l = Ok (List.filter f l).
Proof.
  induction 1 as [|y l Hy _ IH]; cbn; [done|].
  rewrite Hy, IH. cbn. by destruct (f y).
Qed.

Lemma find_by_id_hit (key : string) (id : Z) (l1 l2 : list value) (r : value) :
  Forall (fun x => id_isnt key id x = true) l1 -> id_is key id r = true ->
  find_by_id (VList (l1 ++ r :: l2)) key id = Ok (Some (length l1, r)).
Proof.
  intros Hl1 Hr. unfold find_by_id, find_first. cbn.
  apply (find_from_hit _ l1 l2 r 0%nat).
  - eapply Forall_impl; [exact Hl1|]. intros x. apply field_eq_id_isnt.
  - by apply field_eq_id_is.
Qed.

Lemma find_by_id_miss (key : string) (id : Z) (l : list value) :
  Forall (fun x => id_isnt key id x = true) l ->
  find_by_id (VList l) key id = Ok None.
Proof.
  intros Hl. unfold find_by_id, find_first. cbn. apply find_from_miss.
  eapply Forall_impl; [exact Hl|]. intros x. apply field_eq_id_isnt.
Qed.

Lemma filter_keeps_all {A} (f : A -> bool) (l : list A) :
  Forall (fun x => f x = true) l -> List.filter f l = l.
Proof. induction 1 as [|y l Hy _ IH]; cbn; [done|]. by rewrite Hy, IH. Qed.

Lemma without_id_once (key : string) (id : Z) (l1 l2 : list value) (r : value) :
  Forall (fun x => id_isnt key id x = true) l1 -> id_is key id r = true ->
  Forall (fun x => id_isnt key id x = true) l2 ->
  without_id (VList (l1 ++ r :: l2)) key id = Ok (VList (l1 ++ l2)).
Proof.
  intros Hl1 Hr Hl2. unfold without_id. cbn.
  set (keep := fun x : value => negb (py_eq (field key x) (VInt id))).
  rewrite (filter_res_total _ keep).
  - cbn. rewrite List.filter_app. cbn.
    assert (keep r = false) as ->.
    { unfold keep. apply andb_true_iff in Hr as [_ ->]. done. }
    assert (forall l, Forall (fun x => id_isnt key id x = true) l -> List.filter keep l = l) as Hkeep.
    { intros l Hl. apply filter_keeps_all. eapply Forall_impl; [exact Hl|].
      intros x [_ Hx]%andb_true_iff. exact Hx. }
    by rewrite !Hkeep.
  - apply Forall_app. split; [|constructor].
    + eapply Forall_impl; [exact Hl1|]. intros x Hx.
      rewrite (field_ne_id_isnt _ _ _ Hx). unfold keep.
      apply andb_true_iff in Hx as [_ ->]. done.
    + rewrite (field_ne_id_is _ _ _ Hr). unfold keep.
      apply andb_true_iff in Hr as [_ ->]. done.
    + eapply Forall_impl; [exact Hl2|]. intros x Hx.
      rewrite (field_ne_id_isnt _ _ _ Hx). unfold keep.
      apply andb_true_iff in Hx as [_ ->]. done.
Qed.

Lemma id_is_truthy (key : string) (id : Z) (r : value) :
  id_is key id r = true -> py_truthy r = true.
Proof. intros [Hk _]%andb_true_iff. by eapply has_key_truthy. Qed.

(** ** Deleting by id *)

(** C8. Deleting an attendance record or an employee by an id that occurs
    exactly once writes back the collection without that record, every
    other record unchanged and in its place; deleting an id that no record
    has writes nothing. *)
Theorem delete_removes_exactly (id : Z) (req : request) (st : state) :
  authorized ["Admin"; "HR Staff"] st ->
  (forall l1 r l2,
     loaded st ATTENDANCE_FILE = VList (l1 ++ r :: l2) ->
     Forall (fun x => id_isnt "attendance_id" id x = true) l1 ->
     id_is "attendance_id" id r = true ->
     Forall (fun x => id_isnt "attendance_id" id x = true) l2 ->
     files (attendance_delete id req st).1
     = <[ATTENDANCE_FILE := json_dump (VList (l1 ++ l2))]> (files st))
  /\ (forall l,
     loaded st ATTENDANCE_FILE = VList l ->
     Forall (fun x => id_isnt "attendance_id" id x = true) l ->
     files (attendance_delete id req st).1 = files st)
  /\ (forall l1 r l2,
     loaded st EMPLOYEES_FILE = VList (l1 ++ r :: l2) ->
     Forall (fun x => id_isnt "employee_id" id x = true) l1 ->
     id_is "employee_id" id r = true ->
     Forall (fun x => id_isnt "employee_id" id x = true) l2 ->
     files (employee_delete id req st).1
     = <[EMPLOYEES_FILE := json_dump (VList (l1 ++ l2))]> (files st))
  /\ (forall l,
     loaded st EMPLOYEES_FILE = VList l ->
     Forall (fun x => id_isnt "employee_id" id x = true) l ->
     files (employee_delete id req st).1 = files st).
Proof.
  intros Hauth. repeat split.
  - intros l1 r l2 Hload Hl1 Hr Hl2.
    unfold attendance_delete. rewrite role_required_admits by done.
    run_read. rewrite Hload.
    unfold bind at 1. cbn [lift]. rewrite find_by_id_hit by done.
    cbn [present]. rewrite (id_is_truthy _ _ _ Hr).
    rewrite without_id_once by done. done.
  - intros l Hload Hl.
    unfold attendance_delete. rewrite role_required_admits by done.
    run_read. rewrite Hload.
    unfold bind at 1. cbn [lift]. rewrite find_by_id_miss by done. done.
  - intros l1 r l2 Hload Hl1 Hr Hl2.
    unfold employee_delete. rewrite role_required_admits by done.
    run_read. rewrite Hload.
    unfold bind at 1. cbn [lift]. rewrite find_by_id_hit by done.
    cbn [present]. rewrite (id_is_truthy _ _ _ Hr).
    rewrite without_id_once by done.
    unfold bind, lift. cbn. by destruct (full_name r).
  - intros l Hload Hl.
    unfold employee_delete. rewrite role_required_admits by done.
    run_read. rewrite Hload.
    unfold bind at 1. cbn [lift]. rewrite find_by_id_miss by done. done.
Qed.

(** ** Reading a file and writing it back *)

(** C7, as the code has it. When the file exists and holds well-formed JSON
    (and [json.load] reads back what [json.dump] writes for that value),
    [write_json_file(X, read_json_file(X))] returns normally, leaves in [X]
    a text with the same content, and changes nothing else. *)
Theorem save_load_well_formed (filepath text : string) (v : value) (st : state) :
  files st !! filepath = Some text ->
  json_decode text = Some v ->
  json_decode (json_dump v) = Some v ->
  exists st',
    save_load filepath st = (st', Ok tt)
    /\ same_content (files st' !! filepath) (files st !! filepath)
    /\ (forall p, p <> filepath -> files st' !! p = files st !! p)
    /\ session st' = session st
    /\ flashes st' = flashes st.
Proof.
  intros Hfile Htext Hback.
  unfold save_load, bind. rewrite read_json_file_loaded.
  unfold loaded. rewrite Hfile, Htext. unfold write_json_file.
  eexists. split; [reflexivity|]. cbn [files session flashes].
  split; [|split; [|done]].
  - unfold same_content. rewrite lookup_insert_eq. cbn. by rewrite Hback, Htext.
  - intros p Hp. by rewrite lookup_insert_ne.
Qed.

(** ** Editing a leave request *)

Lemma insert_at_length {A} (l1 l2 : list A) (x y : A) :
  <[List.length l1 := y]> (l1 ++ x :: l2)%list = (l1 ++ y :: l2)%list.
Proof. induction l1 as [|z l1 IH]; cbn; [done|]. f_equal. exact IH. Qed.

Lemma dict_get_set_eq {A} (k : string) (v : A) (d : list (string * A)) :
  dict_get k (dict_set k v d) = Some v.
Proof.
  induction d as [|[k' v'] d IH]; cbn.
  - by rewrite String.eqb_refl.
  - destruct (String.eqb k' k) eqn:E; cbn; rewrite E; [done|exact IH].
Qed.

Lemma dict_get_set_ne {A} (k k' : string) (v : A) (d : list (string * A)) :
  k <> k' -> dict_get k' (dict_set k v d) = dict_get k' d.
Proof.
  intros Hne. induction d as [|[k0 v0] d IH]; cbn.
  - destruct (String.eqb k k') eqn:E; [|done]. by apply String.eqb_eq in E.
  - destruct (String.eqb k0 k) eqn:E; cbn.
    + apply String.eqb_eq in E. subst k0.
      destruct (String.eqb k k') eqn:E'; [|done]. by apply String.eqb_eq in E'.
    + by rewrite IH.
Qed.

Lemma field_set_ne (k k' : string) (x : value) (d : list (string * value)) :
  k <> k' -> field k' (VDict (dict_set k x d)) = field k' (VDict d).
Proof. intros Hne. cbn. by rewrite dict_get_set_ne. Qed.

Lemma has_key_set_ne (k k' : string) (x : value) (d : list (string * value)) :
  k <> k' -> has_key k' (VDict (dict_set k x d)) = has_key k' (VDict d).
Proof. intros Hne. cbn. by rewrite dict_get_set_ne. Qed.

Lemma setitems_dict (d : list (string * value)) (kvs : list (string * value)) :
  setitems (VDict d) kvs
  = Ok (VDict (fold_left (fun acc kv => dict_set kv.1 kv.2 acc) kvs d)).
Proof.
  revert d. induction kvs as [|[k x] kvs IH]; intros d; cbn; [done|]. apply IH.
Qed.

(** The edit replaces the four fields of the form and no other. *)
Lemma edited_leave_fields (req : request) (leave : value) :
  has_key "leave_id" leave = true ->
  field "leave_type" (edited_leave req leave) = form_get req "leave_type"
  /\ field "start_date" (edited_leave req leave) = form_get req "start_date"
  /\ field "end_date" (edited_leave req leave) = form_get req "end_date"
  /\ field "reason" (edited_leave req leave) = form_get req "reason"
  /\ (forall k, k <> "leave_type" -> k <> "start_date" -> k <> "end_date" ->
        k <> "reason" ->
        has_key k (edited_leave req leave) = has_key k leave
        /\ field k (edited_leave req leave) = field k leave).
Proof.
  intros Hk. destruct leave as [| | | | | |d]; try discriminate.
  unfold edited_leave. repeat split.
  - rewrite !field_set_ne by done. cbn. by rewrite dict_get_set_eq.
  - rewrite !field_set_ne by done. cbn. by rewrite dict_get_set_eq.
  - rewrite !field_set_ne by done. cbn. by rewrite dict_get_set_eq.
  - cbn. by rewrite dict_get_set_eq.
  - by rewrite !has_key_set_ne.
  - by rewrite !field_set_ne.
Qed.

(** C3. A POST to [leave_edit] on a leave request whose status is
    ["Approved"]: for a caller whose role is ["Employee"], owner of the
    request or not, the answer is a redirect and the state changes only by
    the flashed message (nothing is written); for a caller whose role is
    ["HR Staff"] the edit is applied: the collection is written back with
    the request changed in its place, [leave_type], [start_date],
    [end_date] and [reason] being those of the form and every other field,
    the status and the approval among them, as it was. *)
Theorem leave_edit_approved (leave_id : Z) (req : request) (st : state)
    (l1 l2 : list value) (leave : value) :
  logged_in st ->
  method req = POST ->
  loaded st LEAVES_FILE = VList (l1 ++ leave :: l2) ->
  Forall (fun x => id_isnt "leave_id" leave_id x = true) l1 ->
  id_is "leave_id" leave_id leave = true ->
  has_key "employee_id" leave = true ->
  getitem leave "status" = Ok (VStr "Approved") ->
  (session_role st = VStr "Employee" ->
     leave_edit leave_id req st
     = (flashed st "You can only edit your own pending leave requests." "danger",
        Ok (Redirect "leaves_list" [])))
  /\ (session_role st = VStr "HR Staff" ->
     let edited := edited_leave req leave in
     leave_edit leave_id req st
     = (flashed (written st LEAVES_FILE (VList (l1 ++ edited :: l2)))
          "Leave request updated successfully!" "success",
        Ok (Redirect "leaves_list" []))
     /\ field "leave_type" edited = form_get req "leave_type"
     /\ field "start_date" edited = form_get req "start_date"
     /\ field "end_date" edited = form_get req "end_date"
     /\ field "reason" edited = form_get req "reason"
     /\ field "status" edited = VStr "Approved"
     /\ (forall k, k <> "leave_type" -> k <> "start_date" -> k <> "end_date" ->
           k <> "reason" -> field k edited = field k leave)).
Proof.
  intros Hin Hpost Hload Hl1 Hid Howner Hstatus.
  assert (leave_edit leave_id req st
            = (let* current_user_role := session_get "role" in
               let* current_employee_id := session_get "employee_id" in
               let privileged := py_in current_user_role ["Admin"; "HR Staff"] in
               let* refused :=
                 lift (if negb privileged then
                         let? owner := getitem leave "employee_id" in
                         if negb (py_eq owner current_employee_id) then Ok true
                         else
                           let? status := getitem leave "status" in
                           Ok (negb (py_eq status (VStr "Pending")))
                       else Ok false) in
               if refused then
                 flash "You can only edit your own pending leave requests." "danger";;
                 redirect "leaves_list"
               else
                 let* status := lift (getitem leave "status") in
                 (if py_eq status (VStr "Pending") || privileged then
                    let* e1 := lift (setitems leave (leave_form req)) in
                    let* e2 := lift (if negb privileged then
                                       setitems e1
                                         [("approved_by", VNone);
                                          ("approved_date", VNone);
                                          ("comments", VNone)]
                                     else Ok e1) in
                    write_json_file LEAVES_FILE
                      (coll_update (VList (l1 ++ leave :: l2)) (List.length l1) e2);;
                    flash "Leave request updated successfully!" "success"
                  else flash "Cannot edit approved or rejected leave requests." "danger");;
                 redirect "leaves_list") st) as Hrun.
  { unfold leave_edit. rewrite login_required_admits by done.
    run_read. rewrite Hload.
    unfold bind at 1. cbn [lift]. rewrite find_by_id_hit by done.
    cbn [present]. rewrite (id_is_truthy _ _ _ Hid). by rewrite Hpost. }
  split.
  - intros Hrole. rewrite Hrun. unfold bind, session_get, lift.
    fold (session_role st). rewrite Hrole. cbn.
    rewrite (getitem_field _ _ Howner). cbn.
    destruct (py_eq (field "employee_id" leave) _); cbn; [|done].
    rewrite Hstatus. done.
  - intros Hrole edited. subst edited.
    assert (has_key "leave_id" leave = true) as Hkey.
    { by apply andb_true_iff in Hid as [? _]. }
    destruct (edited_leave_fields req leave Hkey) as (Ht & Hs & He & Hr & Hrest).
    split; [|repeat split; try done].
    + destruct leave as [| | | | | |d]; try discriminate.
      rewrite Hrun. unfold bind, session_get, lift.
      fold (session_role st). rewrite Hrole. cbn -[setitems getitem].
      rewrite Hstatus. cbn -[setitems]. rewrite setitems_dict. cbn.
      unfold written, flashed. cbn. by rewrite insert_at_length.
    + destruct (Hrest "status") as [_ ->]; try done.
      destruct leave as [| | | | | |d]; try discriminate. cbn in Hstatus |- *.
      destruct (dict_get "status" d); [|discriminate]. by injection Hstatus as ->.
    + intros k Hk1 Hk2 Hk3 Hk4. by destruct (Hrest k Hk1 Hk2 Hk3 Hk4).
Qed.

(** ** Login *)

Lemma getitem_has_key (key : string) (r x : value) :
  getitem r key = Ok x -> has_key key r = true /\ field key r = x.
Proof.
  destruct r; try discriminate. cbn.
  destruct (dict_get key d); [|discriminate]. by intros [= ->].
Qed.

Lemma login_keeps_files (req : request) (st : state) :
  files (login req st).1 = files st.
Proof.
  unfold login. destruct (method req); [done|].
  run_read.
  unfold bind, lift, session_set, flash, redirect, render_template, ret.
  repeat case_match; simplify_eq; done.
Qed.

Lemma login_sets_session (req : request) (st : state) :
  session (login req st).1 = session st \/ exists user, login_accepts req st user.
Proof.
  unfold login. destruct (method req) eqn:Hm; [by left|].
  run_read.
  run_lift.
  destruct (py_iter (loaded st USERS_FILE)) as [items|] eqn:Hiter; [|by left].
  run_lift.
  destruct (find_first _ items) as [found|] eqn:Hfind; [|by left].
  destruct found as [[i user]|]; [|by left]. cbn [present].
  destruct (py_truthy user); [|by left].
  destruct (getitem user "active") as [active|] eqn:Hactive; [|by left]. cbn [res_bind].
  destruct (py_truthy active) eqn:Htrue; [|by left].
  unfold form_get at 1.
  destruct (form req !! "password") as [password|] eqn:Hpw; [|by left]. cbn [encode res_bind].
  destruct (getitem user "password_hash") as [stored|] eqn:Hstored; [|by left]. cbn [res_bind].
  destruct stored as [| | | |stored| |]; try by left. cbn [encode res_bind].
  destruct (checkpw password stored) as [[|]|] eqn:Hcheck; try by left.
  right. exists user. split; [done|]. by exists items, i, active, password, stored.
Qed.

Lemma login_accepted (req : request) (st : state) (user : value) :
  login_accepts req st user ->
  has_key "user_id" user = true -> has_key "role" user = true ->
  login req st
  = (flashed {| files := files st; session := session_for user (session st);
                flashes := flashes st |}
       ("Welcome back, " +:+ py_str (form_get req "username") +:+ "!") "success",
     Ok (Redirect "index" [])).
Proof.
  intros (Hm & items & i & active & password & stored
          & Hiter & Hfind & Hactive & Htrue & Hpw & Hstored & Hcheck) Hid Hrole.
  assert (has_key "username" user = true) as Hname.
  { unfold find_first in Hfind. clear -Hfind. revert Hfind. generalize 0%nat.
    induction items as [|x items IH]; intros n; cbn; [discriminate|].
    unfold field_eq at 1. destruct (getitem x "username") as [y|] eqn:Hy; [|discriminate].
    cbn. destruct (py_eq y _).
    - intros [= _ ->]. by apply getitem_has_key in Hy as [? _].
    - apply IH. }
  assert (py_truthy user = true) as Huser by by eapply has_key_truthy.
  unfold login. rewrite Hm.
  run_read.
  run_lift. rewrite Hiter.
  run_lift. rewrite Hfind.
  cbn [present]. rewrite Huser, Hactive. cbn [res_bind]. rewrite Htrue.
  unfold form_get at 1. rewrite Hpw. cbn [encode res_bind].
  rewrite Hstored. cbn [encode res_bind]. rewrite Hcheck. cbn [res_bind].
  run_lift.
  rewrite !getitem_field by done.
  destruct user; try discriminate. done.
Qed.

(** C10. [login] never writes a file. It changes the session only when the
    request is a POST, a user record with the submitted username exists
    (the first such record is the one examined), that record's [active] is
    true and the bcrypt check of the submitted password against its
    [password_hash] succeeds; in every other case the session is left as it
    was. When those conditions hold for a record that has a [user_id] and a
    [role], the session receives [user_id], [username], [role] and
    [employee_id] from it. *)
Theorem login_sound (req : request) (st : state) :
  files (login req st).1 = files st
  /\ (session (login req st).1 = session st \/ exists user, login_accepts req st user)
  /\ (forall user,
        login_accepts req st user ->
        has_key "user_id" user = true -> has_key "role" user = true ->
        (login req st).2 = Ok (Redirect "index" [])
        /\ session (login req st).1 = session_for user (session st)).
Proof.
  split; [apply login_keeps_files|]. split; [apply login_sets_session|].
  intros user Hacc Hid Hrole. by rewrite (login_accepted _ _ _ Hacc Hid Hrole).
Qed.

(** ** Allocating an id *)

Lemma py_max_from_ints (b : Z) (zs : list Z) :
  py_max_from (VInt b) (map VInt zs) = Ok (VInt (fold_left Z.max zs b)).
Proof.
  revert b. induction zs as [|z zs IH]; intros b; cbn; [done|].
  unfold num_gtb. cbn.
  destruct (Z.compare_spec z b) as [Heq|Hlt|Hgt]; rewrite IH; do 2 f_equal.
  - subst. by rewrite Z.max_id.
  - by rewrite Z.max_l by lia.
  - by rewrite Z.max_r by lia.
Qed.

Lemma py_max_ints (d : Z) (zs : list Z) :
  py_max (map VInt zs) (VInt d) = Ok (VInt (max_or d zs)).
Proof. destruct zs as [|z zs]; cbn; [done|]. apply py_max_from_ints. Qed.

Lemma ids_with_default (key : string) (l : list value) :
  Forall (fun r => int_id key r = true) l ->
  map_res (fun r => py_get r key (VInt 0)) l = Ok (map VInt (map (id_or_0 key) l)).
Proof.
  induction 1 as [|r l Hr _ IH]; cbn; [done|].
  rewrite IH. destruct r as [| | | | | |d]; try discriminate. cbn.
  unfold id_or_0. cbn. cbn in Hr.
  destruct (dict_get key d) as [[]|]; cbn; congruence.
Qed.

Lemma ids_by_index (key : string) (l : list value) :
  Forall (fun r => int_id key r = true /\ has_key key r = true) l ->
  map_res (fun r => getitem r key) l = Ok (map VInt (map (id_or_0 key) l)).
Proof.
  induction 1 as [|r l [Hr Hk] _ IH]; cbn; [done|].
  rewrite IH. destruct r as [| | | | | |d]; try discriminate. cbn.
  unfold id_or_0. cbn. cbn in Hk, Hr.
  destruct (dict_get key d) as [[]|]; cbn; congruence.
Qed.

(** The allocation used for attendance, leave, payroll, job and applicant
    records: on records whose ids are integers the new id is one more than
    the greatest, a record without the key counting for 0 and the greatest
    of no record being 0. *)
Lemma next_id_get_spec (key : string) (l : list value) :
  Forall (fun r => int_id key r = true) l ->
  next_id_get (VList l) key = Ok (VInt (max_or 0 (map (id_or_0 key) l) + 1)).
Proof.
  intros Hl. unfold next_id_get. cbn.
  rewrite ids_with_default by done. cbn. by rewrite py_max_ints.
Qed.

(** The allocation used for employees agrees with it when every record has
    the key. *)
Lemma next_id_item_spec (key : string) (l : list value) :
  Forall (fun r => int_id key r = true /\ has_key key r = true) l ->
  next_id_item (VList l) key = Ok (VInt (max_or 0 (map (id_or_0 key) l) + 1)).
Proof.
  intros Hl. unfold next_id_item. cbn.
  rewrite ids_by_index by done. cbn. by rewrite py_max_ints.
Qed.

(** The greatest id bounds every id, so the allocated one is new. *)
Lemma max_or_bound (d : Z) (zs : list Z) (z : Z) : In z zs -> z <= max_or d zs.
Proof.
  destruct zs as [|b zs]; [done|]. cbn [max_or].
  assert (forall l a, a <= fold_left Z.max l a) as Hge.
  { induction l as [|y l IH]; intros a; cbn; [lia|]. etrans; [|apply IH]. lia. }
  revert b. induction zs as [|y zs IH]; intros b.
  - intros [->|[]]. cbn. lia.
  - intros [->|[->|Hin]]; cbn.
    + etrans; [|apply Hge]. lia.
    + etrans; [|apply Hge]. lia.
    + apply IH. by right.
Qed.

(** ** Listing attendance *)

Lemma lookup_set_values (P : value -> Prop) (k v : value) (m : list (value * value)) :
  Forall (fun kv => P kv.2) m -> P v -> Forall (fun kv => P kv.2) (lookup_set k v m).
Proof.
  intros Hm Hv. induction Hm as [|[k' v'] m Hkv Hm IH]; cbn.
  - by repeat constructor.
  - destruct (py_eq k' k); constructor; done.
Qed.

Lemma build_lookup_ok (emps : list value) (m0 : list (value * value)) :
  Forall (fun e => wf_employee e = true) emps ->
  Forall (fun kv => wf_employee kv.2 = true) m0 ->
  exists m, build_lookup "employee_id" m0 emps = Ok m
            /\ Forall (fun kv => wf_employee kv.2 = true) m.
Proof.
  intros Hemps. revert m0. induction Hemps as [|e emps He _ IH]; intros m0 Hm0; cbn.
  - by exists m0.
  - pose proof He as He'. unfold wf_employee, has_scalar in He'.
    apply andb_true_iff in He' as [[[Hk Hh]%andb_true_iff _]%andb_true_iff _].
    rewrite (getitem_field _ _ Hk). cbn. rewrite Hh.
    apply IH. by apply (lookup_set_values (fun v => wf_employee v = true)).
Qed.

Lemma lookup_find_values (P : value -> Prop) (k e : value) (m : list (value * value)) :
  Forall (fun kv => P kv.2) m -> lookup_find k m = Some e -> P e.
Proof.
  induction 1 as [|[k' v'] m Hkv _ IH]; cbn; [done|].
  destruct (py_eq k' k); [by intros [= <-]|exact IH].
Qed.

Lemma full_name_ok (e : value) :
  wf_employee e = true -> exists n, full_name e = Ok n.
Proof.
  unfold wf_employee. intros [[_ Hf]%andb_true_iff Hl]%andb_true_iff.
  unfold full_name. rewrite (getitem_field _ _ Hf), (getitem_field _ _ Hl). cbn.
  by eexists.
Qed.

Lemma wf_employee_truthy (e : value) : wf_employee e = true -> py_truthy e = true.
Proof.
  unfold wf_employee. intros [_ Hl]%andb_true_iff. by eapply has_key_truthy.
Qed.

Lemma add_employee_name_ok (m : list (value * value)) (r : value) :
  Forall (fun kv => wf_employee kv.2 = true) m ->
  has_scalar "employee_id" r = true ->
  exists row, add_employee_name m r = Ok row /\ named_row r row.
Proof.
  intros Hm [Hk Hh]%andb_true_iff. unfold add_employee_name, lookup_get.
  rewrite (getitem_field _ _ Hk). cbn [res_bind]. rewrite Hh. cbn [res_bind].
  destruct r as [| | | | | |d]; try discriminate.
  destruct (lookup_find _ m) as [e|] eqn:Hfind.
  - pose proof (lookup_find_values (fun v => wf_employee v = true) _ _ _ Hm Hfind) as He.
    rewrite (wf_employee_truthy _ He).
    destruct (full_name_ok _ He) as [n ->]. cbn.
    eexists. split; [done|]. by exists n.
  - cbn. eexists. split; [done|]. by eexists.
Qed.

(** A row differs from its record by [employee_name] only. *)
Lemma named_row_keeps (r row : value) (k : string) :
  named_row r row -> k <> "employee_name" -> field k row = field k r.
Proof.
  intros [name Hset] Hk. destruct r as [| | | | | |d]; try discriminate.
  cbn in Hset. injection Hset as <-. by apply field_set_ne.
Qed.

Lemma map_res_Forall2 {A B} (f : A -> res B) (R : A -> B -> Prop) (l : list A) :
  Forall (fun x => exists y, f x = Ok y /\ R x y) l ->
  exists ys, map_res f l = Ok ys /\ Forall2 R l ys.
Proof.
  induction 1 as [|x l (y & Hy & HR) _ (ys & Hys & Hall)]; cbn.
  - by exists [].
  - rewrite Hy, Hys. cbn. exists (y :: ys). split; [done|]. by constructor.
Qed.

Lemma field_eq_total (key : string) (v : value) (l : list value) :
  Forall (fun r => has_key key r = true) l ->
  Forall (fun r => field_eq key v r = Ok (py_eq (field key r) v)) l.
Proof.
  intros Hl. eapply Forall_impl; [exact Hl|]. intros r Hr.
  unfold field_eq. by rewrite (getitem_field _ _ Hr).
Qed.

Lemma show_rows (employees : value) (emps l : list value) (st : state) :
  employees = VList emps ->
  Forall (fun e => wf_employee e = true) emps ->
  Forall (fun r => has_scalar "employee_id" r = true) l ->
  exists rows,
    (let* es := lift (py_iter employees) in
     let* employee_lookup := lift (build_lookup "employee_id" [] es) in
     let* rows := lift (py_iter (VList l)) in
     let* named := lift (map_res (add_employee_name employee_lookup) rows) in
     render_template "attendance/list.html"
       [("attendance_records", rows_after_loop (VList l) named)]) st
    = (st, Ok (Render "attendance/list.html" [("attendance_records", VList rows)]))
    /\ Forall2 named_row l rows.
Proof.
  intros -> Hemps Hl.
  destruct (build_lookup_ok emps [] Hemps) as (m & Hm & Hwf); [constructor|].
  destruct (map_res_Forall2 (add_employee_name m) named_row l) as (rows & Hrows & Hall).
  { eapply Forall_impl; [exact Hl|]. intros r Hr. by apply add_employee_name_ok. }
  exists rows. split; [|done].
  unfold bind, lift. cbn [py_iter]. rewrite Hm, Hrows. done.
Qed.

(** C2. [attendance_list] for a logged-in caller, over an attendance
    collection whose records carry an [employee_id] and an employees
    collection whose records carry [employee_id], [first_name] and
    [last_name]: with the session role ["Employee"] the rows rendered are
    exactly the records whose [employee_id] equals the session's
    [employee_id], in their original order; with the role ["Admin"] they are
    all the records. Each row is its record with [employee_name] attached. *)
Theorem attendance_list_rows (req : request) (st : state) (l emps : list value) :
  logged_in st ->
  loaded st ATTENDANCE_FILE = VList l ->
  Forall (fun r => has_scalar "employee_id" r = true) l ->
  loaded st EMPLOYEES_FILE = VList emps ->
  Forall (fun e => wf_employee e = true) emps ->
  (session_role st = VStr "Employee" ->
     exists rows,
       attendance_list req st
       = (st, Ok (Render "attendance/list.html" [("attendance_records", VList rows)]))
       /\ Forall2 named_row (own_rows (session_employee st) l) rows)
  /\ (session_role st = VStr "Admin" ->
     exists rows,
       attendance_list req st
       = (st, Ok (Render "attendance/list.html" [("attendance_records", VList rows)]))
       /\ Forall2 named_row l rows).
Proof.
  intros Hin Hatt Hl Hemp Hemps.
  assert (Forall (fun r => has_key "employee_id" r = true) l) as Hkeys.
  { eapply Forall_impl; [exact Hl|]. by intros r [? _]%andb_true_iff. }
  split; intros Hrole.
  - destruct (show_rows (VList emps) emps (own_rows (session_employee st) l) st)
      as (rows & Hrun & Hall); [done|done| |].
    { unfold own_rows. clear -Hl. induction Hl as [|r l Hr _ IH]; cbn; [constructor|].
      destruct (py_eq _ _); [by constructor|done]. }
    exists rows. split; [|done].
    unfold attendance_list. rewrite login_required_admits by done.
    run_read. rewrite Hatt.
    run_read. rewrite Hemp.
    unfold bind at 1. unfold session_get at 1. fold (session_role st). rewrite Hrole.
    unfold bind at 1. unfold session_get at 1. fold (session_employee st).
    cbn [py_eq String.eqb Ascii.eqb Bool.eqb].
    run_lift. unfold only_with. cbn [py_iter res_bind].
    rewrite (filter_res_total _ _ _ (field_eq_total _ _ _ Hkeys)). cbn [res_bind].
    exact Hrun.
  - destruct (show_rows (VList emps) emps l st) as (rows & Hrun & Hall); [done..|].
    exists rows. split; [|done].
    unfold attendance_list. rewrite login_required_admits by done.
    run_read. rewrite Hatt.
    run_read. rewrite Hemp.
    unfold bind at 1. unfold session_get at 1. fold (session_role st). rewrite Hrole.
    unfold bind at 1. unfold session_get at 1.
    cbn [py_eq String.eqb Ascii.eqb Bool.eqb py_in existsb negb orb].
    exact Hrun.
Qed.

(** ** One attendance record per employee and day *)

Lemma find_from_sound {A} (p : A -> res bool) (l : list A) (i : nat) (found : option (nat * A)) :
  find_from p i l = Ok found ->
  match found with
  | Some (j, x) =>
      exists l1 l2, l = (l1 ++ x :: l2)%list /\ j = (i + List.length l1)%nat
                    /\ Forall (fun r => p r = Ok false) l1 /\ p x = Ok true
  | None => Forall (fun r => p r = Ok false) l
  end.
Proof.
  revert i. induction l as [|y l IH]; intros i; cbn.
  - intros [= <-]. constructor.
  - destruct (p y) as [[|]|] eqn:Hy; cbn; [| |discriminate].
    + intros [= <-]. exists [], l. cbn. by rewrite Nat.add_0_r.
    + intros Hfind. specialize (IH _ Hfind). destruct found as [[j x]|].
      * destruct IH as (l1 & l2 & -> & -> & Hl1 & Hx).
        exists (y :: l1), l2. cbn. repeat split; [lia|by constructor|done].
      * by constructor.
Qed.

Lemma unique_app_one (l : list value) (x : value) :
  unique_per_day l = true ->
  Forall (fun r => same_day r x = false) l ->
  unique_per_day (l ++ [x]) = true.
Proof.
  intros Hu Hl. induction Hl as [|r l Hr _ IH]; cbn; [done|].
  cbn in Hu. apply andb_true_iff in Hu as [Hr' Hu].
  rewrite IH by done. rewrite existsb_app. cbn. rewrite Hr.
  apply negb_true_iff in Hr'. by rewrite Hr'.
Qed.

Lemma same_day_fields (a a' b b' : value) :
  field "employee_id" a' = field "employee_id" a -> field "date" a' = field "date" a ->
  field "employee_id" b' = field "employee_id" b -> field "date" b' = field "date" b ->
  same_day a' b' = same_day a b.
Proof. unfold same_day. by intros -> -> -> ->. Qed.

Lemma existsb_insert_same (r x x' : value) (l : list value) (i : nat) :
  l !! i = Some x ->
  field "employee_id" x' = field "employee_id" x -> field "date" x' = field "date" x ->
  existsb (same_day r) (<[i := x']> l) = existsb (same_day r) l.
Proof.
  intros Hi He Hd. revert i Hi. induction l as [|y l IH]; intros [|i]; cbn; try done.
  - intros [= ->]. by rewrite (same_day_fields r r x x').
  - intros Hi. by rewrite IH.
Qed.

Lemma unique_insert_same (x x' : value) (l : list value) (i : nat) :
  l !! i = Some x ->
  field "employee_id" x' = field "employee_id" x -> field "date" x' = field "date" x ->
  unique_per_day (<[i := x']> l) = unique_per_day l.
Proof.
  intros Hi He Hd. revert i Hi. induction l as [|y l IH]; intros [|i]; cbn; try done.
  - intros [= ->]. f_equal. f_equal. clear IH.
    induction l as [|z l IH]; cbn; [done|].
    by rewrite IH, (same_day_fields x x' z z).
  - intros Hi. rewrite IH by done. by rewrite (existsb_insert_same y x x').
Qed.

Lemma filter_res_sublist {A} (p : A -> res bool) (l l' : list A) :
  filter_res p l = Ok l' -> sublist l' l.
Proof.
  revert l'. induction l as [|x l IH]; intros l'; cbn.
  - intros [= <-]. constructor.
  - destruct (p x) as [b|]; [|discriminate]. cbn.
    destruct (filter_res p l) as [ys|]; [|discriminate]. cbn.
    intros [= <-]. destruct b; [apply sublist_skip|apply sublist_cons]; by apply IH.
Qed.

Lemma unique_sublist (l l' : list value) :
  sublist l' l -> unique_per_day l = true -> unique_per_day l' = true.
Proof.
  induction 1 as [|x l1 l2 Hsub IH|x l1 l2 Hsub IH]; cbn; [done| |].
  - intros [Hx Hu]%andb_true_iff. rewrite IH by done. rewrite andb_true_r.
    apply negb_true_iff. apply negb_true_iff in Hx.
    apply not_true_iff_false. intros (y & Hy & Hsame)%existsb_exists.
    apply not_true_iff_false in Hx. apply Hx. apply existsb_exists.
    exists y. split; [|done]. apply list_elem_of_In. eapply elem_of_sublist; [|done].
    by apply list_elem_of_In.
  - intros [_ Hu]%andb_true_iff. by apply IH.
Qed.

Lemma login_required_cases (f : handler) (req : request) (st : state) :
  login_required f req st = f req st \/ files (login_required f req st).1 = files st.
Proof.
  unfold login_required, bind, session_has.
  destruct (bool_decide _); [by left|by right].
Qed.

Lemma role_required_cases (roles : list string) (f : handler) (req : request) (st : state) :
  role_required roles f req st = f req st \/ files (role_required roles f req st).1 = files st.
Proof.
  unfold role_required, bind, session_has, session_get.
  destruct (bool_decide _); [|by right]. cbn.
  destruct (py_in _ roles); [by left|by right].
Qed.

Lemma is_today_record_false (e : Z) (t : string) (r : value) :
  is_today_record e t r = Ok false ->
  py_eq (field "employee_id" r) (VInt e) && py_eq (field "date" r) (VStr t) = false.
Proof.
  unfold is_today_record.
  destruct (getitem r "employee_id") as [x|] eqn:Hx; [|discriminate].
  apply getitem_has_key in Hx as [_ ->]. cbn.
  destruct (py_eq x (VInt e)); [|done].
  destruct (getitem r "date") as [d|] eqn:Hd; [|discriminate].
  apply getitem_has_key in Hd as [_ ->]. cbn. by intros [= ->].
Qed.

Lemma is_today_record_true (e : Z) (t : string) (r : value) :
  is_today_record e t r = Ok true -> py_truthy r = true.
Proof.
  unfold is_today_record.
  destruct (getitem r "employee_id") as [x|] eqn:Hx; [|discriminate].
  apply getitem_has_key in Hx as [Hk _]. intros _. by eapply has_key_truthy.
Qed.

(** Checking in and checking out keep one record per employee and day:
    whatever [attendance_mark] writes over a collection with that property
    has it too. *)
Lemma attendance_mark_keeps_unique (req : request) (st : state) (l : list value) :
  loaded st ATTENDANCE_FILE = VList l ->
  unique_per_day l = true ->
  files (attendance_mark req st).1 = files st
  \/ exists l', files (attendance_mark req st).1
                = <[ATTENDANCE_FILE := json_dump (VList l')]> (files st)
                /\ unique_per_day l' = true.
Proof.
  intros Hload Hu.
  remember (attendance_mark req st) as out eqn:Hout.
  unfold attendance_mark in Hout.
  match type of Hout with
  | context [login_required ?f ?r ?s] =>
      destruct (login_required_cases f r s) as [Heq|Hsame];
      [rewrite Heq in Hout; clear Heq | rewrite Hout; by left]
  end.
  unfold bind at 1 in Hout. unfold session_get at 1 in Hout.
  unfold bind at 1 in Hout. unfold session_get at 1 in Hout.
  destruct (method req).
  { left. rewrite Hout.
    unfold bind, lift, render_template, ret. rewrite read_json_file_loaded.
    repeat case_match; simplify_eq; done. }
  run_lift_in Hout.
  destruct (form_int req "employee_id") as [e|]; [|rewrite Hout; by left].
  destruct (_ && _); [rewrite Hout; by left|].
  unfold bind at 1 in Hout. rewrite read_json_file_loaded, Hload in Hout.
  run_lift_in Hout. cbn [py_iter] in Hout.
  unfold bind at 1 in Hout. run_lift_in Hout.
  destruct (find_first _ l) as [found|] eqn:Hfind; [|rewrite Hout; by left].
  apply find_from_sound in Hfind.
  destruct (py_eq (form_get req "action") (VStr "check_in")).
  - destruct found as [[i r]|]; cbn [present] in Hout.
    + destruct Hfind as (l1 & l2 & -> & -> & Hl1 & Hr).
      rewrite (is_today_record_true _ _ _ Hr) in Hout. rewrite Hout. by left.
    + run_lift_in Hout.
      destruct (next_id_get (VList l) "attendance_id") as [aid|];
        [|rewrite Hout; by left].
      right. rewrite Hout. eexists. split; [reflexivity|].
      apply unique_app_one; [done|].
      eapply Forall_impl; [exact Hfind|]. intros r Hr.
      by apply is_today_record_false in Hr.
  - destruct found as [[i r]|]; cbn [present] in Hout; [|rewrite Hout; by left].
    destruct Hfind as (l1 & l2 & -> & -> & Hl1 & Hr).
    rewrite (is_today_record_true _ _ _ Hr) in Hout.
    run_lift_in Hout.
    destruct (getitem r "check_out_time") as [co|] eqn:Hco; [|rewrite Hout; by left].
    destruct (py_truthy co); [rewrite Hout; by left|].
    destruct r as [| | | | | |d]; try discriminate.
    cbn [setitem] in Hout. run_lift_in Hout.
    run_lift_in Hout.
    assert (forall x : value,
              field "employee_id" x = field "employee_id" (VDict d) ->
              field "date" x = field "date" (VDict d) ->
              unique_per_day (l1 ++ x :: l2) = true) as Hkeep.
    { intros x He Hd. rewrite <- (insert_at_length l1 l2 (VDict d)).
      rewrite (unique_insert_same (VDict d)); [done| |done|done].
      by apply list_lookup_middle. }
    destruct (py_truthy (form_get_default req "notes" (VStr EmptyString)));
      cbn [setitem] in Hout; rewrite Hout; right;
      (eexists; split; [cbn; rewrite insert_at_length; reflexivity|]);
      apply Hkeep; by rewrite !field_set_ne.
Qed.

(** Deleting keeps it as well. *)
Lemma attendance_delete_keeps_unique (id : Z) (req : request) (st : state) (l : list value) :
  loaded st ATTENDANCE_FILE = VList l ->
  unique_per_day l = true ->
  files (attendance_delete id req st).1 = files st
  \/ exists l', files (attendance_delete id req st).1
                = <[ATTENDANCE_FILE := json_dump (VList l')]> (files st)
                /\ unique_per_day l' = true.
Proof.
  intros Hload Hu.
  remember (attendance_delete id req st) as out eqn:Hout.
  unfold attendance_delete in Hout.
  match type of Hout with
  | context [role_required ?roles ?f ?r ?s] =>
      destruct (role_required_cases roles f r s) as [Heq|Hsame];
      [rewrite Heq in Hout; clear Heq | rewrite Hout; by left]
  end.
  unfold bind at 1 in Hout. unfold bind at 1 in Hout.
  rewrite read_json_file_loaded, Hload in Hout.
  run_lift_in Hout.
  destruct (find_by_id _ _ _) as [found|]; [|rewrite Hout; by left].
  destruct (present found) as [[? ?]|]; [|rewrite Hout; by left].
  run_lift_in Hout.
  unfold without_id in Hout. cbn [py_iter res_bind] in Hout.
  destruct (filter_res _ l) as [kept|] eqn:Hkept; [|rewrite Hout; by left].
  right. rewrite Hout. exists kept. split; [done|].
  eapply unique_sublist; [|done]. by eapply filter_res_sublist.
Qed.

(** ** From application to employee *)

Lemma py_eq_int (a b : Z) : py_eq (VInt a) (VInt b) = (a =? b).
Proof.
  cbn. unfold num_eqb. cbn.
  destruct (Z.compare_spec a b) as [->|Hlt|Hgt]; symmetry.
  - apply Z.eqb_refl.
  - apply Z.eqb_neq. lia.
  - apply Z.eqb_neq. lia.
Qed.

Lemma int_ids_fresh (key : string) (l : list value) :
  int_ids key l -> Forall (fun r => id_isnt key (next_id key l) r = true) l.
Proof.
  intros Hl. unfold next_id.
  assert (forall r, In r l -> id_or_0 key r <= max_or 0 (map (id_or_0 key) l)) as Hbound.
  { intros r Hr. apply max_or_bound. by apply in_map. }
  revert Hbound. generalize (max_or 0 (map (id_or_0 key) l)). intros m Hbound.
  induction Hl as [|r l [Hint Hk] _ IH]; constructor.
  - unfold id_isnt. rewrite Hk. cbn [andb].
    specialize (Hbound r (or_introl eq_refl)). unfold id_or_0 in Hbound.
    destruct r as [| | | | | |d]; try discriminate. cbn in Hint, Hk, Hbound |- *.
    destruct (dict_get key d) as [[]|]; try discriminate. cbn in Hbound |- *.
    unfold num_eqb. cbn. destruct (Z.compare_spec z (m + 1)); [lia|done|done].
  - apply IH. intros x Hx. apply Hbound. by right.
Qed.

Lemma int_ids_int_id (key : string) (l : list value) :
  int_ids key l -> Forall (fun r => int_id key r = true) l.
Proof. intros Hl. eapply Forall_impl; [exact Hl|]. by intros r [? _]. Qed.

Lemma job_apply_appends (job_id years : Z) (expected : float) (req : request) (st : state)
    (jobs1 jobs2 apps : list value) (job : value) :
  method req = POST ->
  loaded st JOBS_FILE = VList (jobs1 ++ job :: jobs2) ->
  Forall (fun x => id_isnt "job_id" job_id x = true) jobs1 ->
  id_is "job_id" job_id job = true ->
  upload_accepted req ->
  loaded st APPLICANTS_FILE = VList apps ->
  int_ids "applicant_id" apps ->
  form_int_default req "experience_years" = Ok years ->
  form_float req "expected_salary" = Ok expected ->
  exists fs,
    job_apply job_id req st
    = (flashed {| files := <[APPLICANTS_FILE :=
                     json_dump (VList (apps ++ [new_applicant req job_id
                                                  (next_id "applicant_id" apps)
                                                  years expected]))]> fs;
                  session := session st; flashes := flashes st |}
         "Your application has been submitted successfully! We will contact you soon."
         "success",
       Ok (Redirect "job_view" [("job_id", job_id)])).
Proof.
  intros Hpost Hjobs Hj1 Hjob Hup Happs Hids Hyears Hexp.
  unfold job_apply.
  run_read. rewrite Hjobs.
  run_lift. rewrite find_by_id_hit by done.
  cbn [present]. rewrite (id_is_truthy _ _ _ Hjob). rewrite Hpost.
  run_read. rewrite Happs.
  assert (forall (fs : gmap string string) (resume : value),
            resume = resume_name req ->
            exists fs', (let* applicant_id := lift (next_id_get (VList apps) "applicant_id") in
             let* experience_years := lift (form_int_default req "experience_years") in
             let* expected_salary := lift (form_float req "expected_salary") in
             let new_applicant := VDict
               [("applicant_id", applicant_id);
                ("job_id", VInt job_id);
                ("first_name", form_get req "first_name");
                ("last_name", form_get req "last_name");
                ("email", form_get req "email");
                ("contact", form_get req "contact");
                ("cnic", form_get req "cnic");
                ("experience_years", VInt experience_years);
                ("current_company", form_get_default req "current_company" (VStr ""));
                ("expected_salary", VFloat expected_salary);
                ("cover_letter", form_get_default req "cover_letter" (VStr ""));
                ("resume_filename", resume);
                ("application_date", VStr (today req));
                ("status", VStr "Applied");
                ("reviewed_by", VNone);
                ("review_date", VNone);
                ("interview_date", VNone);
                ("notes", VNone)] in
             let* appended := lift (py_append (VList apps) new_applicant) in
             write_json_file APPLICANTS_FILE appended;;
             flash "Your application has been submitted successfully! We will contact you soon."
               "success";;
             ret (Redirect "job_view" [("job_id", job_id)]))
              {| files := fs; session := session st; flashes := flashes st |}
            = (flashed {| files := <[APPLICANTS_FILE :=
                     json_dump (VList (apps ++ [new_applicant req job_id
                                                  (next_id "applicant_id" apps)
                                                  years expected]))]> fs';
                  session := session st; flashes := flashes st |}
         "Your application has been submitted successfully! We will contact you soon."
         "success",
       Ok (Redirect "job_view" [("job_id", job_id)]))) as Htail.
  { intros fs resume ->. exists fs.
    run_lift.
    rewrite next_id_get_spec by by apply int_ids_int_id.
    run_lift. rewrite Hyears.
    run_lift. rewrite Hexp.
    done. }
  unfold upload_accepted in Hup. unfold resume_name in Htail.
  destruct (upload req) as [[name content]|] eqn:Hupload.
  - cbn [fst snd]. destruct Hup as [->|[Hallowed Hstamp]].
    + cbn [String.eqb negb]. unfold bind at 1. unfold ret at 1.
      destruct st as [fs ss fl]. apply (Htail fs). done.
    + assert (String.eqb name EmptyString = false) as Hname.
      { destruct name; [discriminate|done]. }
      rewrite Hname in Htail |- *. cbn [negb].
      unfold bind at 1. unfold bind at 1. unfold save_uploaded_file.
      cbn [fst snd]. rewrite Hname, Hallowed. cbn [negb andb].
      assert (String.eqb (now_stamp req +:+ secure_filename name) EmptyString = false) as ->.
      { destruct (now_stamp req); [done|done]. }
      cbn [negb]. unfold ret at 1. cbn [files session flashes].
      eapply Htail. done.
  - unfold bind at 1. unfold ret at 1.
    destruct st as [fs ss fl]. apply (Htail fs). done.
Qed.

Lemma applicant_onboard_hires (applicant_id : Z) (req : request) (st : state)
    (l1 l2 emps : list value) (applicant : value) (salary : float) :
  authorized ["Admin"; "HR Staff"] st ->
  method req = POST ->
  loaded st APPLICANTS_FILE = VList (l1 ++ applicant :: l2) ->
  Forall (fun x => id_isnt "applicant_id" applicant_id x = true) l1 ->
  id_is "applicant_id" applicant_id applicant = true ->
  Forall (fun k => has_key k applicant = true)
    ["first_name"; "last_name"; "cnic"; "email"; "contact"] ->
  loaded st EMPLOYEES_FILE = VList emps ->
  int_ids "employee_id" emps ->
  form_float req "salary" = Ok salary ->
  exists employee hired message,
    applicant_onboard applicant_id req st
    = (flashed (written (written st EMPLOYEES_FILE (VList (emps ++ [employee])))
                  APPLICANTS_FILE (VList (l1 ++ hired :: l2)))
         message "success",
       Ok (Redirect "applicants_list" []))
    /\ field "employee_id" employee = VInt (next_id "employee_id" emps)
    /\ Forall (fun k => field k employee = field k applicant)
         ["first_name"; "last_name"; "cnic"; "email"; "contact"]
    /\ field "status" hired = VStr "Hired"
    /\ (forall k, k <> "status" -> k <> "notes" -> field k hired = field k applicant).
Proof.
  intros Hauth Hpost Happs Hl1 Hid Hkeys Hemps Hids Hsalary.
  apply Forall_cons in Hkeys as [Hfirst Hkeys]. apply Forall_cons in Hkeys as [Hlast Hkeys].
  apply Forall_cons in Hkeys as [Hcnic Hkeys]. apply Forall_cons in Hkeys as [Hemail Hkeys].
  apply Forall_cons in Hkeys as [Hcontact _].
  destruct applicant as [| | | | | |d]; try discriminate.
  set (hired := VDict (dict_set "notes"
                  (VStr ("Hired as " +:+ py_str (form_get req "designation") +:+ " in "
                         +:+ py_str (form_get req "department")
                         +:+ " department. Employee ID: "
                         +:+ py_str (VInt (next_id "employee_id" emps))))
                  (dict_set "status" (VStr "Hired") d))).
  assert (has_key "first_name" hired = true) as Hfirst'.
  { unfold hired. by rewrite !has_key_set_ne. }
  assert (has_key "last_name" hired = true) as Hlast'.
  { unfold hired. by rewrite !has_key_set_ne. }
  eexists _, hired, _. split; [|split; [|split; [|split]]].
  - unfold applicant_onboard. rewrite role_required_admits by done.
    run_read. rewrite Happs.
    run_lift. rewrite find_by_id_hit by done.
    cbn [present]. rewrite (id_is_truthy _ _ _ Hid). rewrite Hpost.
    run_read. rewrite Hemps.
    run_lift. rewrite next_id_item_spec by done.
    fold (next_id "employee_id" emps).
    do 5 (run_lift; rewrite getitem_field by done).
    run_lift. rewrite Hsalary.
    run_lift. cbn [py_append].
    unfold bind at 1. unfold write_json_file at 1. cbn [files session flashes].
    run_lift. rewrite setitems_dict. cbn [fold_left fst snd].
    fold hired.
    unfold bind at 1. unfold write_json_file at 1. cbn [files session flashes coll_update].
    rewrite insert_at_length.
    run_lift. unfold full_name.
    rewrite (getitem_field _ _ Hfirst'), (getitem_field _ _ Hlast'). cbn [res_bind].
    reflexivity.
  - done.
  - by repeat constructor.
  - unfold hired. rewrite field_set_ne by done. cbn. by rewrite dict_get_set_eq.
  - intros k Hs Hn. unfold hired. by rewrite !field_set_ne.
Qed.

(** C9. An application submitted for an existing job (a POST with no file or
    a file of an allowed type, and numeric fields that parse) is appended
    to the applicants with status ["Applied"]. Onboarding that applicant
    afterwards by a POST from an administrator or HR user appends exactly
    one employee whose [first_name], [last_name], [cnic], [email] and
    [contact] are the applicant's, and writes the applicant back with
    status ["Hired"]. *)
Theorem apply_then_onboard (job_id years : Z) (expected salary : float)
    (apply_req onboard_req : request) (st hr_st : state)
    (jobs1 jobs2 apps emps : list value) (job : value) :
  let applicant_id := next_id "applicant_id" apps in
  let applicant := new_applicant apply_req job_id applicant_id years expected in
  method apply_req = POST ->
  loaded st JOBS_FILE = VList (jobs1 ++ job :: jobs2) ->
  Forall (fun x => id_isnt "job_id" job_id x = true) jobs1 ->
  id_is "job_id" job_id job = true ->
  upload_accepted apply_req ->
  loaded st APPLICANTS_FILE = VList apps ->
  int_ids "applicant_id" apps ->
  form_int_default apply_req "experience_years" = Ok years ->
  form_float apply_req "expected_salary" = Ok expected ->
  json_decode (json_dump (VList (apps ++ [applicant]))) = Some (VList (apps ++ [applicant])) ->
  files hr_st = files (job_apply job_id apply_req st).1 ->
  authorized ["Admin"; "HR Staff"] hr_st ->
  method onboard_req = POST ->
  loaded hr_st EMPLOYEES_FILE = VList emps ->
  int_ids "employee_id" emps ->
  form_float onboard_req "salary" = Ok salary ->
  (job_apply job_id apply_req st).2 = Ok (Redirect "job_view" [("job_id", job_id)])
  /\ loaded hr_st APPLICANTS_FILE = VList (apps ++ [applicant])
  /\ field "status" applicant = VStr "Applied"
  /\ exists employee hired message,
       applicant_onboard applicant_id onboard_req hr_st
       = (flashed (written (written hr_st EMPLOYEES_FILE (VList (emps ++ [employee])))
                     APPLICANTS_FILE (VList (apps ++ [hired])))
            message "success",
          Ok (Redirect "applicants_list" []))
       /\ Forall (fun k => field k employee = field k applicant)
            ["first_name"; "last_name"; "cnic"; "email"; "contact"]
       /\ field "status" hired = VStr "Hired"
       /\ (forall k, k <> "status" -> k <> "notes" -> field k hired = field k applicant).
Proof.
  intros applicant_id applicant Hpost Hjobs Hj1 Hjob Hup Happs Hids Hyears Hexp Hback
    Hfiles Hauth Hpost' Hemps Heids Hsalary.
  destruct (job_apply_appends job_id years expected apply_req st jobs1 jobs2 apps job)
    as (fs & Happly); try done.
  fold applicant_id in Happly. fold applicant in Happly.
  rewrite Happly in Hfiles |- *. cbn [fst snd flashed files] in Hfiles |- *.
  assert (loaded hr_st APPLICANTS_FILE = VList (apps ++ [applicant])) as Hstored.
  { unfold loaded. rewrite Hfiles, lookup_insert_eq. by rewrite Hback. }
  split; [done|]. split; [done|]. split; [done|].
  destruct (applicant_onboard_hires applicant_id onboard_req hr_st apps [] emps
              applicant salary) as (employee & hired & message & Hrun & _ & Hcopy & Hst & Hrest);
    try done.
  - by apply int_ids_fresh.
  - unfold id_is, applicant, new_applicant. cbn -[py_eq]. by rewrite py_eq_int, Z.eqb_refl.
  - unfold applicant, new_applicant. repeat constructor.
  - by exists employee, hired, message.
Qed.

End Properties.

(** * The statements on the example data *)

Section Instances.
Local Existing Instance Sample.externals.
Local Existing Instance kept_store.

(** Reading the attendance file of the examples and writing it back. *)
Lemma save_load_well_formed_witness :
  exists st',
    save_load ATTENDANCE_FILE Examples.as_admin = (st', Ok tt)
    /\ same_content (files st' !! ATTENDANCE_FILE) (files Examples.as_admin !! ATTENDANCE_FILE)
    /\ (forall p, p <> ATTENDANCE_FILE -> files st' !! p = files Examples.as_admin !! p)
    /\ session st' = session Examples.as_admin
    /\ flashes st' = flashes Examples.as_admin.
Proof.
  apply (save_load_well_formed ATTENDANCE_FILE
           (Sample.show 0 (VList Examples.attendance_rows))
           (VList Examples.attendance_rows)).
  - vm_compute. reflexivity.
  - vm_compute. reflexivity.
  - vm_compute. reflexivity.
Defined.

(** C7 as stated fails on a file whose content is not well-formed JSON: it
    is read as the empty list, and the empty list is written over it. *)
Lemma save_load_malformed_counterexample :
  files Examples.broken_leaves !! LEAVES_FILE = Some "[{"
  /\ files (save_load LEAVES_FILE Examples.broken_leaves).1 !! LEAVES_FILE = Some "[]"
  /\ ~ same_content
        (files (save_load LEAVES_FILE Examples.broken_leaves).1 !! LEAVES_FILE)
        (files Examples.broken_leaves !! LEAVES_FILE).
Proof.
  split; [vm_compute; reflexivity|]. split; [vm_compute; reflexivity|].
  unfold same_content. vm_compute. discriminate.
Qed.

(** Deleting the second of the three attendance records. *)
Lemma delete_removes_exactly_witness :
  authorized ["Admin"; "HR Staff"] Examples.as_admin
  /\ files (attendance_delete 2 (Examples.post_request []) Examples.as_admin).1
     = <[ATTENDANCE_FILE :=
           json_dump (VList [Examples.attendance_row 1 7 "2025-10-01" (VStr "17:00:00");
                             Examples.attendance_row 3 7 "2025-10-02" VNone])]>
         (files Examples.as_admin).
Proof.
  assert (authorized ["Admin"; "HR Staff"] Examples.as_admin) as Hauth.
  { split; [by eexists | vm_compute; reflexivity]. }
  split; [exact Hauth|].
  destruct (delete_removes_exactly 2 (Examples.post_request []) Examples.as_admin Hauth)
    as (Hdel & _).
  apply (Hdel [Examples.attendance_row 1 7 "2025-10-01" (VStr "17:00:00")]
              (Examples.attendance_row 2 4 "2025-10-01" VNone)
              [Examples.attendance_row 3 7 "2025-10-02" VNone]).
  - vm_compute. reflexivity.
  - repeat constructor.
  - vm_compute. reflexivity.
  - repeat constructor.
Defined.

(** An anonymous request and an employee's request to an administrators'
    route. *)
Lemma role_required_rejects_witness :
  role_required ["Admin"; "HR Staff"] (attendance_delete 1) (Examples.post_request [])
    Examples.anonymous
  = (flashed Examples.anonymous "Please log in to access this page." "warning",
     Ok (Redirect "login" []))
  /\ role_required ["Admin"; "HR Staff"] (attendance_delete 1) (Examples.post_request [])
       Examples.as_employee7
     = (flashed Examples.as_employee7 "You do not have permission to access this page."
          "danger",
        Ok (Redirect "index" []))
  /\ login_required attendance_list Examples.get_request Examples.anonymous
     = (flashed Examples.anonymous "Please log in to access this page." "warning",
        Ok (Redirect "login" [])).
Proof.
  split; [|split].
  - apply (role_required_rejects ["Admin"; "HR Staff"] (attendance_delete 1)
             (Examples.post_request []) Examples.anonymous).
    vm_compute. reflexivity.
  - apply (role_required_rejects ["Admin"; "HR Staff"] (attendance_delete 1)
             (Examples.post_request []) Examples.as_employee7).
    + by eexists.
    + vm_compute. reflexivity.
  - apply (role_required_rejects [] attendance_list Examples.get_request Examples.anonymous).
    vm_compute. reflexivity.
Defined.

(** C6. The claim fails on [read_json_file]: on an employees file that was
    saved in Latin-1, where a letter with an accent is one byte above 127
    that a UTF-8 locale does not decode, reading raises
    [UnicodeDecodeError]. The function catches [FileNotFoundError] and
    [json.JSONDecodeError] only, so the exception leaves it, whatever the
    limits of the interpreter are (decoding fails before [json.load] parses
    anything); the claim, as the docstring of the function, promises the
    empty list for a file whose content is not valid. *)
Theorem read_json_file_lets_decoding_error_out (limits : string -> option limit) :
  Sample.utf8_valid Examples.latin1_text = false
  /\ read_json_file (P := Sample.utf8 limits) EMPLOYEES_FILE Examples.latin1_employees
     = (Examples.latin1_employees, Raise UnicodeDecodeError)
  /\ employees_list (P := Sample.utf8 limits) Examples.get_request Examples.latin1_employees
     = (Examples.latin1_employees, Raise UnicodeDecodeError).
Proof.
  assert (read_json_file (P := Sample.utf8 limits) EMPLOYEES_FILE Examples.latin1_employees
          = (Examples.latin1_employees, Raise UnicodeDecodeError)) as Hread.
  { by rewrite read_json_file_outcome. }
  split; [reflexivity|]. split; [exact Hread|].
  unfold employees_list.
  rewrite role_required_admits by (split; [by eexists|reflexivity]).
  unfold bind at 1. by rewrite Hread.
Qed.

(** Employee 7 sees the first and the third record, the administrator all
    three. *)
Lemma attendance_list_rows_witness :
  (exists rows,
     attendance_list Examples.get_request Examples.as_employee7
     = (Examples.as_employee7,
        Ok (Render "attendance/list.html" [("attendance_records", VList rows)]))
     /\ Forall2 named_row
          [Examples.attendance_row 1 7 "2025-10-01" (VStr "17:00:00");
           Examples.attendance_row 3 7 "2025-10-02" VNone] rows)
  /\ (exists rows,
     attendance_list Examples.get_request Examples.as_admin
     = (Examples.as_admin,
        Ok (Render "attendance/list.html" [("attendance_records", VList rows)]))
     /\ Forall2 named_row Examples.attendance_rows rows).
Proof.
  split.
  - apply (attendance_list_rows Examples.get_request Examples.as_employee7
             Examples.attendance_rows Examples.employee_rows).
    + by eexists.
    + vm_compute. reflexivity.
    + repeat constructor.
    + vm_compute. reflexivity.
    + repeat constructor.
    + vm_compute. reflexivity.
  - apply (attendance_list_rows Examples.get_request Examples.as_admin
             Examples.attendance_rows Examples.employee_rows).
    + by eexists.
    + vm_compute. reflexivity.
    + repeat constructor.
    + vm_compute. reflexivity.
    + repeat constructor.
    + vm_compute. reflexivity.
Defined.

(** Leave request 2 of employee 7 is approved: the employee's edit is
    refused, the HR user's edit is written, and the record then holds the
    leave type, dates and reason of the form with its id, owner, status
    and approval as before. *)
Lemma leave_edit_approved_witness :
  let edited :=
    VDict
      [("leave_id", VInt 2); ("employee_id", VInt 7); ("leave_type", VStr "Sick");
       ("start_date", VStr "2025-11-04"); ("end_date", VStr "2025-11-05");
       ("reason", VStr "Flu"); ("status", VStr "Approved");
       ("applied_date", VStr "2025-10-01"); ("approved_by", VInt 2);
       ("approved_date", VStr "2025-10-02"); ("comments", VStr "Enjoy")] in
  leave_edit 2 Examples.leave_change Examples.as_employee7
  = (flashed Examples.as_employee7 "You can only edit your own pending leave requests."
       "danger",
     Ok (Redirect "leaves_list" []))
  /\ leave_edit 2 Examples.leave_change Examples.as_hr
     = (flashed (written Examples.as_hr LEAVES_FILE
                   (VList [Examples.leave_row 1 4 "Pending"; edited;
                           Examples.leave_row 3 7 "Rejected"]))
          "Leave request updated successfully!" "success",
        Ok (Redirect "leaves_list" [])).
Proof.
  intros edited. split.
  - apply (leave_edit_approved 2 Examples.leave_change Examples.as_employee7
             [Examples.leave_row 1 4 "Pending"] [Examples.leave_row 3 7 "Rejected"]
             (Examples.leave_row 2 7 "Approved")).
    + by eexists.
    + reflexivity.
    + vm_compute. reflexivity.
    + repeat constructor.
    + vm_compute. reflexivity.
    + vm_compute. reflexivity.
    + vm_compute. reflexivity.
    + vm_compute. reflexivity.
  - change edited
      with (edited_leave Examples.leave_change (Examples.leave_row 2 7 "Approved")).
    apply (leave_edit_approved 2 Examples.leave_change Examples.as_hr
             [Examples.leave_row 1 4 "Pending"] [Examples.leave_row 3 7 "Rejected"]
             (Examples.leave_row 2 7 "Approved")).
    + by eexists.
    + reflexivity.
    + vm_compute. reflexivity.
    + repeat constructor.
    + vm_compute. reflexivity.
    + vm_compute. reflexivity.
    + vm_compute. reflexivity.
    + vm_compute. reflexivity.
Defined.

(** C4. The claim fails on [attendance_edit]: it assigns the submitted date
    without looking for another record of the same employee on that date.
    On a collection with one record per employee and day, moving the
    record of 2025-10-02 of employee 7 to 2025-10-01 is accepted and leaves
    two records of employee 7 on 2025-10-01. *)
Theorem attendance_edit_breaks_unique :
  authorized ["Admin"; "HR Staff"] Examples.as_admin
  /\ loaded Examples.as_admin ATTENDANCE_FILE = VList Examples.attendance_rows
  /\ unique_per_day Examples.attendance_rows = true
  /\ (attendance_edit 3 Examples.move_to_first_day Examples.as_admin).2
     = Ok (Redirect "attendance_list" [])
  /\ exists moved,
       loaded (attendance_edit 3 Examples.move_to_first_day Examples.as_admin).1
         ATTENDANCE_FILE
       = VList [Examples.attendance_row 1 7 "2025-10-01" (VStr "17:00:00");
                Examples.attendance_row 2 4 "2025-10-01" VNone;
                moved]
       /\ same_day (Examples.attendance_row 1 7 "2025-10-01" (VStr "17:00:00")) moved = true
       /\ unique_per_day
            [Examples.attendance_row 1 7 "2025-10-01" (VStr "17:00:00");
             Examples.attendance_row 2 4 "2025-10-01" VNone;
             moved] = false.
Proof.
  split; [split; [by eexists | vm_compute; reflexivity]|].
  split; [vm_compute; reflexivity|]. split; [vm_compute; reflexivity|].
  split; [vm_compute; reflexivity|].
  eexists. split; [vm_compute; reflexivity|]. split; vm_compute; reflexivity.
Qed.

(** C5. The ids of attendance records (and of every collection but the
    employees) are allocated as the claim says: 1 over no record, 8 over
    ids 3 and 7, a record without id counting for 0. The allocation in
    [employee_add] reads the id with [e['employee_id']] instead: over an
    employees file with a record that has no [employee_id] it raises
    [KeyError] and adds nothing, where the claim gives the new record id 1. *)
Theorem employee_add_missing_id_raises :
  next_id_get (VList []) "attendance_id" = Ok (VInt 1)
  /\ next_id_get (VList [VDict [("id", VInt 3)]; VDict [("id", VInt 7)]]) "id" = Ok (VInt 8)
  /\ next_id_item (VList []) "employee_id" = Ok (VInt 1)
  /\ next_id_item (VList [VDict [("id", VInt 3)]; VDict [("id", VInt 7)]]) "id" = Ok (VInt 8)
  /\ loaded Examples.id_less_employees EMPLOYEES_FILE = VList [Examples.employee_without_id]
  /\ next_id_get (VList [Examples.employee_without_id]) "employee_id" = Ok (VInt 1)
  /\ next_id_item (VList [Examples.employee_without_id]) "employee_id"
     = Raise (KeyError "employee_id")
  /\ employee_add Examples.new_hire_form Examples.id_less_employees
     = (Examples.id_less_employees, Raise (KeyError "employee_id")).
Proof. repeat split; vm_compute; reflexivity. Qed.

(** An application for job 5, the first in the applicants file, then its
    onboarding by the HR user. *)
Lemma apply_then_onboard_witness :
  let applicant :=
    new_applicant Examples.application 5 1 4 (Sample.Z_float 120000) in
  (job_apply 5 Examples.application Examples.anonymous).2
  = Ok (Redirect "job_view" [("job_id", 5)])
  /\ loaded Examples.hr_after_application APPLICANTS_FILE = VList [applicant]
  /\ field "status" applicant = VStr "Applied"
  /\ exists employee hired message,
       applicant_onboard 1 Examples.onboarding Examples.hr_after_application
       = (flashed (written (written Examples.hr_after_application EMPLOYEES_FILE
                              (VList (Examples.employee_rows ++ [employee])))
                     APPLICANTS_FILE (VList [hired]))
            message "success",
          Ok (Redirect "applicants_list" []))
       /\ Forall (fun k => field k employee = field k applicant)
            ["first_name"; "last_name"; "cnic"; "email"; "contact"]
       /\ field "status" hired = VStr "Hired"
       /\ (forall k, k <> "status" -> k <> "notes" -> field k hired = field k applicant).
Proof.
  apply (apply_then_onboard 5 4 (Sample.Z_float 120000) (Sample.Z_float 110000)
           Examples.application Examples.onboarding
           Examples.anonymous Examples.hr_after_application
           [Examples.job_row 3 "Accountant"] [] [] Examples.employee_rows
           (Examples.job_row 5 "Software Engineer")).
  - reflexivity.
  - vm_compute. reflexivity.
  - repeat constructor.
  - vm_compute. reflexivity.
  - exact I.
  - vm_compute. reflexivity.
  - constructor.
  - vm_compute. reflexivity.
  - vm_compute. reflexivity.
  - vm_compute. reflexivity.
  - reflexivity.
  - split; [by eexists | vm_compute; reflexivity].
  - reflexivity.
  - vm_compute. reflexivity.
  - repeat constructor.
  - vm_compute. reflexivity.
Defined.

(** The right password opens a session for user 3; a wrong one leaves the
    session empty. *)
Lemma login_sound_witness :
  (files (login Examples.good_login Examples.anonymous).1 = files Examples.anonymous
   /\ (login Examples.good_login Examples.anonymous).2 = Ok (Redirect "index" [])
   /\ session (login Examples.good_login Examples.anonymous).1
      = session_for (Examples.user_row 3 "bilal" "Employee" true (VInt 7)) ∅)
  /\ session (login Examples.bad_login Examples.anonymous).1 = ∅.
Proof.
  split.
  - destruct (login_sound Examples.good_login Examples.anonymous) as (Hfiles & _ & Hacc).
    split; [exact Hfiles|].
    apply (Hacc (Examples.user_row 3 "bilal" "Employee" true (VInt 7))).
    + split; [reflexivity|].
      exists Examples.user_rows, 2%nat, (VBool true), "bilal-secret", "bcrypt:bilal-secret".
      repeat split; vm_compute; reflexivity.
    + reflexivity.
    + reflexivity.
  - destruct (login_sound Examples.bad_login Examples.anonymous) as (_ & [Hsame|Hacc] & _).
    + exact Hsame.
    + exfalso.
      destruct Hacc as (user & _ & items & i & active & password & stored
                        & Hiter & Hfind & _ & _ & Hpw & Hstored & Hcheck).
      vm_compute in Hiter. injection Hiter as <-.
      vm_compute in Hfind. injection Hfind as <- <-.
      vm_compute in Hpw. injection Hpw as <-.
      vm_compute in Hstored. injection Hstored as <-.
      vm_compute in Hcheck. discriminate Hcheck.
Defined.

End Instances.

(** * Properties of the other routes *)

Section MoreProperties.
Context `{Externals} `{Arithmetic} `{Hashing}.
Local Existing Instance kept_store.

(** One step of a handler, as above. *)
Ltac run_lift := unfold bind at 1; unfold lift at 1.
Ltac run_lift_in H := unfold bind at 1 in H; unfold lift at 1 in H.
Ltac run_read := unfold bind at 1; rewrite read_json_file_loaded.
Ltac run_read_in H := unfold bind at 1 in H; rewrite read_json_file_loaded in H.
Ltac run_session := unfold bind at 1; unfold session_get at 1.
Ltac run_session_in H := unfold bind at 1 in H; unfold session_get at 1 in H.

(** ** Sessions *)

(** X1. After [logout] the session is empty and the files are as before;
    whatever route is asked for next, a guard ([login_required] or
    [role_required], with any roles) answers with the redirect to the login
    page and does not run the handler. *)
Theorem logout_ends_session (req req' : request) (st : state) (roles : list string)
    (f : handler) :
  logout req st = (logged_out st, Ok (Redirect "login" []))
  /\ login_required f req' (logout req st).1 = to_login (logged_out st)
  /\ role_required roles f req' (logout req st).1 = to_login (logged_out st).
Proof.
  assert (logout req st = (logged_out st, Ok (Redirect "login" []))) as Hout by done.
  rewrite Hout. cbn [fst]. split; [done|]. split.
  - unfold login_required, bind, session_has. cbn.
    rewrite bool_decide_eq_false_2; [done|]. rewrite lookup_empty. by intros [? ?].
  - unfold role_required, bind, session_has. cbn.
    rewrite bool_decide_eq_false_2; [done|]. rewrite lookup_empty. by intros [? ?].
Qed.

(** X2. After a login that is accepted for the record [user], a route under
    [login_required] runs its handler, and a route under [role_required]
    runs it exactly when the role of [user] is one of the roles of the
    route; otherwise the caller is sent to the home page. *)
Theorem login_opens_routes (req req' : request) (st : state) (user : value)
    (roles : list string) (f : handler) :
  login_accepts req st user ->
  has_key "user_id" user = true ->
  has_key "role" user = true ->
  let st' := (login req st).1 in
  login_required f req' st' = f req' st'
  /\ role_required roles f req' st'
     = if py_in (field "role" user) roles then f req' st' else to_home st'.
Proof.
  intros Hacc Hid Hrole st'. unfold st'.
  rewrite (login_accepted _ _ _ Hacc Hid Hrole). cbn [fst].
  set (s := flashed _ _ _).
  assert (logged_in s) as Hin.
  { unfold logged_in, s, session_for. cbn.
    rewrite !lookup_insert_ne by done. rewrite lookup_insert_eq. by eexists. }
  assert (session_role s = field "role" user) as Hr.
  { unfold session_role, s, session_for. cbn.
    rewrite lookup_insert_ne by done. by rewrite lookup_insert_eq. }
  split; [by apply login_required_admits|].
  destruct (py_in (field "role" user) roles) eqn:Hroles.
  - apply role_required_admits. split; [done|]. by rewrite Hr.
  - unfold role_required, bind, session_has, session_get.
    rewrite bool_decide_eq_true_2 by done. cbn -[s].
    fold (session_role s). by rewrite Hr, Hroles.
Qed.

(** ** The JSON store *)

(** X3. What [write_json_file] wrote is what [read_json_file] reads back
    from that file (where [json.load] reads back what [json.dump] wrote for
    the value), and the write does not change what is read from any other
    file. *)
Theorem write_then_read (filepath other : string) (data : value) (st : state) :
  json_decode (json_dump data) = Some data ->
  other <> filepath ->
  (write_json_file filepath data;; read_json_file filepath) st
  = (written st filepath data, Ok data)
  /\ (write_json_file filepath data;; read_json_file other) st
     = (written st filepath data, Ok (loaded st other)).
Proof.
  intros Hback Hother. unfold bind, write_json_file. fold (written st filepath data).
  rewrite !read_json_file_loaded. unfold loaded, written. cbn [files].
  rewrite lookup_insert_eq, Hback. by rewrite lookup_insert_ne.
Qed.

(** ** Allocating an id *)

(** X4. Over records whose ids are integers (a record may have none), the
    id allocated by [max([r.get(key, 0) ...], default=0) + 1] is the id of
    no record of the collection. *)
Theorem allocated_id_is_new (key : string) (l : list value) :
  Forall (fun r => int_id key r = true) l ->
  next_id_get (VList l) key = Ok (VInt (next_id key l))
  /\ Forall (fun r => py_eq (field key r) (VInt (next_id key l)) = false) l.
Proof.
  intros Hl. split; [by apply next_id_get_spec|]. unfold next_id.
  assert (forall r, In r l -> id_or_0 key r <= max_or 0 (map (id_or_0 key) l)) as Hbound.
  { intros r Hr. apply max_or_bound. by apply in_map. }
  revert Hbound. generalize (max_or 0 (map (id_or_0 key) l)). intros m Hbound.
  induction Hl as [|r l Hint _ IH]; constructor.
  - specialize (Hbound r (or_introl eq_refl)). unfold id_or_0 in Hbound.
    destruct r as [| | | | | |d]; try discriminate. cbn in Hint, Hbound |- *.
    destruct (dict_get key d) as [[]|]; try discriminate; cbn in Hbound |- *; [|done].
    unfold num_eqb. cbn. destruct (Z.compare_spec z (m + 1)); [lia|done|done].
  - apply IH. intros x Hx. apply Hbound. by right.
Qed.

(** ** Uploaded files *)




(** ** Acting for oneself *)

(** X6. An employee who submits somebody else's [employee_id] to
    [attendance_mark] or to [leave_apply] is turned away: the answer is a
    redirect back to the form and nothing is written. *)
Theorem employees_act_for_themselves (req : request) (st : state) (employee_id : Z) :
  logged_in st ->
  method req = POST ->
  form_int req "employee_id" = Ok employee_id ->
  for_another st employee_id = true ->
  attendance_mark req st
  = (flashed st "You can only mark your own attendance." "danger",
     Ok (Redirect "attendance_mark" []))
  /\ leave_apply req st
     = (flashed st "You can only apply for your own leave." "danger",
        Ok (Redirect "leave_apply" [])).
Proof.
  intros Hin Hpost Hid Hother. unfold for_another, session_role, session_employee in Hother.
  split.
  - unfold attendance_mark. rewrite login_required_admits by done.
    unfold bind, session_get, lift. by rewrite Hpost, Hid, Hother.
  - unfold leave_apply. rewrite login_required_admits by done.
    unfold bind, session_get, lift. by rewrite Hpost, Hid, Hother.
Qed.

(** ** The life of a leave request *)

(** X7. A leave application that passes the self-service check is appended
    to the collection as the last record, with status ["Pending"], no
    approver, and the id allocated over the records before it, which are
    written back unchanged. *)
Theorem leave_apply_pending (req : request) (st : state) (employee_id : Z) (l : list value) :
  logged_in st ->
  method req = POST ->
  form_int req "employee_id" = Ok employee_id ->
  for_another st employee_id = false ->
  loaded st LEAVES_FILE = VList l ->
  Forall (fun r => int_id "leave_id" r = true) l ->
  leave_apply req st
  = (flashed (written st LEAVES_FILE
                (VList (l ++ [new_leave req employee_id (next_id "leave_id" l)])))
       "Leave application submitted successfully!" "success",
     Ok (Redirect "leaves_list" [])).
Proof.
  intros Hin Hpost Hid Hown Hload Hl.
  unfold for_another, session_role, session_employee in Hown.
  unfold leave_apply. rewrite login_required_admits by done.
  unfold bind at 1. unfold session_get at 1.
  unfold bind at 1. unfold session_get at 1. rewrite Hpost.
  run_lift. rewrite Hid, Hown.
  run_read. rewrite Hload.
  run_lift. rewrite next_id_get_spec by done.
  done.
Qed.

Lemma decided_leave_fields (status : string) (req : request) (st : state)
    (d : list (string * value)) :
  field "status" (decided_leave status req st (VDict d)) = VStr status
  /\ field "approved_by" (decided_leave status req st (VDict d))
     = default VNone (session st !! "user_id")
  /\ (forall k, k <> "status" -> k <> "approved_by" -> k <> "approved_date" ->
        k <> "comments" ->
        field k (decided_leave status req st (VDict d)) = field k (VDict d)).
Proof.
  unfold decided_leave. split; [|split].
  - rewrite !field_set_ne by done. cbn. by rewrite dict_get_set_eq.
  - rewrite !field_set_ne by done. cbn. by rewrite dict_get_set_eq.
  - intros k Hk1 Hk2 Hk3 Hk4. by rewrite !field_set_ne.
Qed.

Lemma leave_decide_run (leave_id : Z) (status message category : string)
    (req : request) (st : state) (l1 l2 : list value) (leave : value) :
  authorized ["Admin"; "HR Staff"] st ->
  loaded st LEAVES_FILE = VList (l1 ++ leave :: l2) ->
  Forall (fun x => id_isnt "leave_id" leave_id x = true) l1 ->
  id_is "leave_id" leave_id leave = true ->
  leave_decide leave_id status message category req st
  = (flashed (written st LEAVES_FILE
                (VList (l1 ++ decided_leave status req st leave :: l2)))
       message category,
     Ok (Redirect "leaves_list" [])).
Proof.
  intros Hauth Hload Hl1 Hid.
  unfold leave_decide. rewrite role_required_admits by done.
  unfold bind at 1. run_read. rewrite Hload.
  run_lift. rewrite find_by_id_hit by done.
  cbn [present]. rewrite (id_is_truthy _ _ _ Hid).
  destruct leave as [| | | | | |d]; try discriminate.
  unfold bind at 1. unfold session_get at 1.
  run_lift. rewrite setitems_dict. cbn [fold_left fst snd].
  unfold bind, write_json_file, flash, redirect, ret. cbn.
  unfold written, flashed. cbn. by rewrite insert_at_length.
Qed.

(** X8. Approving or rejecting a leave request changes that request only,
    and of it only [status], [approved_by] (the deciding user),
    [approved_date] and [comments]; the request is decided whatever its
    status was. A decision on an id that no request has writes nothing. *)
Theorem leave_decision_recorded (leave_id : Z) (req : request) (st : state)
    (l1 l2 : list value) (leave : value) :
  authorized ["Admin"; "HR Staff"] st ->
  loaded st LEAVES_FILE = VList (l1 ++ leave :: l2) ->
  Forall (fun x => id_isnt "leave_id" leave_id x = true) l1 ->
  id_is "leave_id" leave_id leave = true ->
  let approved := decided_leave "Approved" req st leave in
  let rejected := decided_leave "Rejected" req st leave in
  leave_approve leave_id req st
  = (flashed (written st LEAVES_FILE (VList (l1 ++ approved :: l2)))
       "Leave request approved successfully!" "success",
     Ok (Redirect "leaves_list" []))
  /\ leave_reject leave_id req st
     = (flashed (written st LEAVES_FILE (VList (l1 ++ rejected :: l2)))
          "Leave request rejected." "info",
        Ok (Redirect "leaves_list" []))
  /\ field "status" approved = VStr "Approved"
  /\ field "status" rejected = VStr "Rejected"
  /\ field "approved_by" approved = default VNone (session st !! "user_id")
  /\ (forall k, k <> "status" -> k <> "approved_by" -> k <> "approved_date" ->
        k <> "comments" ->
        field k approved = field k leave /\ field k rejected = field k leave)
  /\ (forall id', Forall (fun x => id_isnt "leave_id" id' x = true) (l1 ++ leave :: l2) ->
        files (leave_approve id' req st).1 = files st
        /\ files (leave_reject id' req st).1 = files st).
Proof.
  intros Hauth Hload Hl1 Hid approved rejected.
  split; [by apply leave_decide_run|]. split; [by apply leave_decide_run|].
  assert (exists d, leave = VDict d) as [d ->].
  { destruct leave; try discriminate. by eexists. }
  destruct (decided_leave_fields "Approved" req st d) as (Ha1 & Ha2 & Ha3).
  destruct (decided_leave_fields "Rejected" req st d) as (Hr1 & _ & Hr3).
  repeat split; try done.
  - by apply Ha3.
  - by apply Hr3.
  - unfold leave_approve, leave_decide. rewrite role_required_admits by done.
    unfold bind at 1. run_read. rewrite Hload.
    run_lift. by rewrite find_by_id_miss.
  - unfold leave_reject, leave_decide. rewrite role_required_admits by done.
    unfold bind at 1. run_read. rewrite Hload.
    run_lift. by rewrite find_by_id_miss.
Qed.

(** X9. [leave_delete] removes the request when the caller may change it
    (an administrator or HR user, or the owner of a pending request) and
    the other records are written back in their order; any other caller is
    turned away and nothing is written. *)
Theorem leave_delete_own_pending (leave_id : Z) (req : request) (st : state)
    (l1 l2 : list value) (leave : value) :
  logged_in st ->
  loaded st LEAVES_FILE = VList (l1 ++ leave :: l2) ->
  Forall (fun x => id_isnt "leave_id" leave_id x = true) l1 ->
  id_is "leave_id" leave_id leave = true ->
  Forall (fun x => id_isnt "leave_id" leave_id x = true) l2 ->
  has_key "employee_id" leave = true ->
  has_key "status" leave = true ->
  leave_delete leave_id req st
  = if may_change st leave then
      (flashed (written st LEAVES_FILE (VList (l1 ++ l2)))
         "Leave request deleted successfully!" "success",
       Ok (Redirect "leaves_list" []))
    else
      (flashed st "You can only delete your own pending leave requests." "danger",
       Ok (Redirect "leaves_list" [])).
Proof.
  intros Hin Hload Hl1 Hid Hl2 Howner Hstatus.
  unfold leave_delete. rewrite login_required_admits by done.
  run_read. rewrite Hload.
  run_lift. rewrite find_by_id_hit by done.
  cbn [present]. rewrite (id_is_truthy _ _ _ Hid).
  unfold bind at 1. unfold session_get at 1. fold (session_role st).
  unfold bind at 1. unfold session_get at 1. fold (session_employee st).
  run_lift. rewrite !getitem_field by done. cbn [res_bind].
  unfold may_change.
  destruct (py_in (session_role st) ["Admin"; "HR Staff"]); cbn [negb orb].
  - run_lift. by rewrite without_id_once.
  - destruct (py_eq (field "employee_id" leave) (session_employee st)); cbn [negb andb].
    + destruct (py_eq (field "status" leave) (VStr "Pending")); cbn [negb]; [|done].
      run_lift. by rewrite without_id_once.
    + done.
Qed.

Lemma decided_leave_keeps (status : string) (req : request) (st : state) (leave : value)
    (k : string) :
  k <> "status" -> k <> "approved_by" -> k <> "approved_date" -> k <> "comments" ->
  has_key k (decided_leave status req st leave) = has_key k leave
  /\ field k (decided_leave status req st leave) = field k leave.
Proof.
  intros Hk1 Hk2 Hk3 Hk4. destruct leave; try done. unfold decided_leave.
  by rewrite !has_key_set_ne, !field_set_ne.
Qed.

(** X10. Once a leave request has been approved or rejected, a caller who
    is neither administrator nor HR user can no longer delete or edit it,
    not even its owner: both requests are turned away and nothing is
    written. *)
Theorem decided_leave_is_locked (leave_id : Z) (status : string) (req req' : request)
    (st st' : state) (l1 l2 : list value) (leave : value) :
  authorized ["Admin"; "HR Staff"] st ->
  loaded st LEAVES_FILE = VList (l1 ++ leave :: l2) ->
  Forall (fun x => id_isnt "leave_id" leave_id x = true) l1 ->
  id_is "leave_id" leave_id leave = true ->
  has_key "employee_id" leave = true ->
  (status = "Approved" /\ files st' = files (leave_approve leave_id req st).1
   \/ status = "Rejected" /\ files st' = files (leave_reject leave_id req st).1) ->
  json_decode (json_dump (VList (l1 ++ decided_leave status req st leave :: l2)))
  = Some (VList (l1 ++ decided_leave status req st leave :: l2)) ->
  logged_in st' ->
  py_in (session_role st') ["Admin"; "HR Staff"] = false ->
  leave_delete leave_id req' st'
  = (flashed st' "You can only delete your own pending leave requests." "danger",
     Ok (Redirect "leaves_list" []))
  /\ leave_edit leave_id req' st'
     = (flashed st' "You can only edit your own pending leave requests." "danger",
        Ok (Redirect "leaves_list" [])).
Proof.
  intros Hauth Hload Hl1 Hid Howner Hdecided Hback Hin Hrole.
  set (dec := decided_leave status req st leave) in *.
  assert (files st' = <[LEAVES_FILE := json_dump (VList (l1 ++ dec :: l2))]> (files st))
    as Hfiles.
  { destruct Hdecided as [[-> ->]|[-> ->]].
    - unfold leave_approve. by rewrite (leave_decide_run _ _ _ _ _ _ l1 l2 leave).
    - unfold leave_reject. by rewrite (leave_decide_run _ _ _ _ _ _ l1 l2 leave). }
  assert (loaded st' LEAVES_FILE = VList (l1 ++ dec :: l2)) as Hload'.
  { unfold loaded. by rewrite Hfiles, lookup_insert_eq, Hback. }
  assert (exists d, leave = VDict d) as [d ->].
  { destruct leave; try discriminate. by eexists. }
  assert (id_is "leave_id" leave_id dec = true) as Hid'.
  { unfold id_is in Hid |- *. unfold dec.
    by destruct (decided_leave_keeps status req st (VDict d) "leave_id") as [-> ->]. }
  assert (has_key "employee_id" dec = true) as Howner'.
  { unfold dec.
    by destruct (decided_leave_keeps status req st (VDict d) "employee_id") as [-> _]. }
  assert (getitem dec "status" = Ok (VStr status)) as Hst.
  { unfold dec, decided_leave, getitem. rewrite !dict_get_set_ne by done.
    by rewrite dict_get_set_eq. }
  assert (py_eq (VStr status) (VStr "Pending") = false) as Hne.
  { by destruct Hdecided as [[-> _]|[-> _]]. }
  split.
  - unfold leave_delete. rewrite login_required_admits by done.
    run_read. rewrite Hload'.
    run_lift. rewrite find_by_id_hit by done.
    cbn [present]. rewrite (id_is_truthy _ _ _ Hid').
    run_session. fold (session_role st'). run_session.
    run_lift. rewrite Hrole. cbn [negb].
    rewrite (getitem_field _ _ Howner'), Hst. cbn [res_bind]. rewrite Hne.
    by destruct (py_eq (field "employee_id" dec) _).
  - unfold leave_edit. rewrite login_required_admits by done.
    run_read. rewrite Hload'.
    run_lift. rewrite find_by_id_hit by done.
    cbn [present]. rewrite (id_is_truthy _ _ _ Hid').
    run_session. fold (session_role st'). run_session.
    run_lift. rewrite Hrole. cbn [negb].
    rewrite (getitem_field _ _ Howner'), Hst. cbn [res_bind]. rewrite Hne.
    by destruct (py_eq (field "employee_id" dec) _).
Qed.

(** ** What the views leave alone *)

Lemma read_only_ret {A} (a : A) : read_only (ret a).
Proof. done. Qed.

Lemma read_only_lift {A} (r : res A) : read_only (lift r).
Proof. done. Qed.

Lemma read_only_bind {A B} (m : M A) (k : A -> M B) :
  read_only m -> (forall a, read_only (k a)) -> read_only (bind m k).
Proof.
  intros Hm Hk st. unfold bind. specialize (Hm st).
  destruct (m st) as [st' [a|e]]; cbn in *; [|done].
  by rewrite Hk.
Qed.

Lemma read_only_flash (message category : string) : read_only (flash message category).
Proof. done. Qed.

Lemma read_only_session_get (k : string) : read_only (session_get k).
Proof. done. Qed.

Lemma read_only_session_has (k : string) : read_only (session_has k).
Proof. done. Qed.

Lemma read_only_session_set (k : string) (v : value) : read_only (session_set k v).
Proof. done. Qed.

Lemma read_only_read_json_file (filepath : string) : read_only (read_json_file filepath).
Proof. intros st. by rewrite read_json_file_loaded. Qed.

Lemma read_only_redirect (endpoint : string) : read_only (redirect endpoint).
Proof. done. Qed.

Lemma read_only_render_template (template : string) (context : list (string * value)) :
  read_only (render_template template context).
Proof. done. Qed.

Lemma read_only_login_required (f : handler) (req : request) :
  read_only (f req) -> read_only (login_required f req).
Proof.
  intros Hf. unfold login_required.
  apply read_only_bind; [done|]. intros logged. by destruct logged.
Qed.

Lemma read_only_role_required (roles : list string) (f : handler) (req : request) :
  read_only (f req) -> read_only (role_required roles f req).
Proof.
  intros Hf. unfold role_required.
  apply read_only_bind; [done|]. intros logged. destruct logged; [|done].
  apply read_only_bind; [done|]. intros role. by destruct (py_in role roles).
Qed.

(** The steps of a handler that writes nothing, one after the other. *)
Ltac read_only_step :=
  first
    [ apply read_only_login_required; cbv beta
    | apply read_only_role_required; cbv beta
    | apply read_only_bind; [|intros ?]
    | apply read_only_read_json_file
    | apply read_only_session_get
    | apply read_only_session_set
    | apply read_only_flash
    | apply read_only_lift
    | apply read_only_redirect
    | apply read_only_render_template
    | apply read_only_ret
    | match goal with
      | Hget : method ?r = GET |- read_only (match method ?r with _ => _ end) =>
          rewrite Hget
      | |- read_only (match ?x with _ => _ end) => destruct x
      end ].

Ltac read_only_steps := repeat read_only_step.

(** X11. The pages that only show data write no file, whoever asks and
    whatever the files hold, also when the handler raises: the home page,
    the attendance list and report, the leave, employee, payroll, job and
    applicant listings and the views of one employee, payroll record, job
    or applicant. *)
Theorem views_never_write (req : request) :
  read_only (index req)
  /\ read_only (attendance_list req)
  /\ read_only (attendance_reports req)
  /\ read_only (leaves_list req)
  /\ read_only (employees_list req)
  /\ (forall employee_id, read_only (employee_view employee_id req))
  /\ read_only (payroll_list req)
  /\ (forall payroll_id, read_only (payroll_view payroll_id req))
  /\ read_only (my_payroll req)
  /\ read_only (jobs_list req)
  /\ (forall job_id, read_only (job_view job_id req))
  /\ read_only (applicants_list req)
  /\ (forall applicant_id, read_only (applicant_view applicant_id req)).
Proof.
  repeat split; intros;
    unfold index, attendance_list, attendance_reports, leaves_list, employees_list,
      employee_view, payroll_list, payroll_view, my_payroll, jobs_list, job_view,
      applicants_list, applicant_view;
    read_only_steps.
Qed.

(** X12. A GET request to a route that shows a form writes no file: the
    handlers that change data on POST only render on GET, whoever asks. *)
Theorem forms_get_never_writes (req : request) (id : Z) (temp_password salt : string) :
  method req = GET ->
  read_only (login req)
  /\ read_only (attendance_mark req)
  /\ read_only (attendance_edit id req)
  /\ read_only (leave_apply req)
  /\ read_only (leave_edit id req)
  /\ read_only (employee_add req)
  /\ read_only (employee_edit id req)
  /\ read_only (payroll_generate req)
  /\ read_only (job_add req)
  /\ read_only (job_edit id req)
  /\ read_only (job_apply id req)
  /\ read_only (applicant_onboard id req)
  /\ read_only (forgot_password temp_password salt req)
  /\ read_only (change_password salt req).
Proof.
  intros Hget.
  repeat split; intros;
    unfold login, attendance_mark, attendance_edit, leave_apply, leave_edit,
      employee_add, employee_edit, payroll_generate, job_add, job_edit, job_apply,
      applicant_onboard, forgot_password, change_password;
    read_only_steps.
Qed.

(** ** Payroll *)

Lemma unique_period_app_one (l : list value) (x : value) :
  unique_per_period l = true ->
  Forall (fun r => same_period r x = false) l ->
  unique_per_period (l ++ [x]) = true.
Proof.
  intros Hu Hl. induction Hl as [|r l Hr _ IH]; cbn; [done|].
  cbn in Hu. apply andb_true_iff in Hu as [Hr' Hu].
  rewrite IH by done. rewrite existsb_app. cbn. rewrite Hr.
  apply negb_true_iff in Hr'. by rewrite Hr'.
Qed.

(** What the search of the generator found nothing of is not of the
    period of the new record. *)
Lemma is_payroll_of_false (employee month : value) (year : Z) (p q : value) :
  is_payroll_of employee month year p = Ok false ->
  field "employee_id" q = field "employee_id" employee ->
  field "month" q = month ->
  field "year" q = VInt year ->
  same_period p q = false.
Proof.
  unfold is_payroll_of, same_period. intros Hp -> -> ->.
  destruct (getitem p "employee_id") as [x|] eqn:Hx; [|discriminate].
  apply getitem_has_key in Hx as [_ <-]. cbn [res_bind] in Hp.
  destruct (getitem employee "employee_id") as [e|] eqn:He; [|discriminate].
  apply getitem_has_key in He as [_ <-]. cbn [res_bind] in Hp.
  destruct (py_eq (field "employee_id" p) (field "employee_id" employee)); [|done].
  destruct (getitem p "month") as [m|] eqn:Hm; [|discriminate].
  apply getitem_has_key in Hm as [_ <-]. cbn [res_bind] in Hp.
  destruct (py_eq (field "month" p) month); [|done].
  destruct (getitem p "year") as [y|] eqn:Hy; [|discriminate].
  apply getitem_has_key in Hy as [_ <-]. cbn [res_bind] in Hp.
  by injection Hp as ->.
Qed.

(** One turn of the loop: either a record of the employee and period is
    found and nothing changes, or none is there and one is appended. *)
Lemma generate_one_cases (req : request) (month : value) (year : Z) (user_id : value)
    (l : list value) (employee out : value) (generated : bool) :
  generate_one req month year user_id (VList l) employee = Ok (out, generated) ->
  (generated = false /\ out = VList l
   /\ exists l1 p l2, l = (l1 ++ p :: l2)%list
        /\ Forall (fun r => is_payroll_of employee month year r = Ok false) l1
        /\ is_payroll_of employee month year p = Ok true)
  \/ (generated = true
      /\ Forall (fun r => is_payroll_of employee month year r = Ok false) l
      /\ exists q, out = VList (l ++ [q])
           /\ has_key "employee_id" q = true
           /\ field "employee_id" q = field "employee_id" employee
           /\ field "month" q = month
           /\ field "year" q = VInt year
           /\ field "generated_by" q = user_id
           /\ field "generated_date" q = VStr (today req)).
Proof.
  unfold generate_one. cbn [py_iter res_bind].
  destruct (find_first _ l) as [found|] eqn:Hfind; [|discriminate]. cbn [res_bind].
  apply find_from_sound in Hfind.
  destruct found as [[i p]|]; cbn [present].
  - destruct Hfind as (l1 & l2 & -> & _ & Hl1 & Hp).
    assert (py_truthy p = true) as ->.
    { unfold is_payroll_of in Hp.
      destruct (getitem p "employee_id") as [x|] eqn:Hx; [|discriminate].
      apply getitem_has_key in Hx as [Hk _]. by eapply has_key_truthy. }
    intros [= <- <-]. left. split; [done|]. split; [done|]. by exists l1, p, l2.
  - destruct (py_get employee "salary" (VInt 0)) as [basic|]; [|discriminate].
    cbn [res_bind].
    destruct (form_float req "allowances") as [allowances|]; [|discriminate].
    cbn [res_bind].
    destruct (form_float req "deductions") as [deductions|]; [|discriminate].
    cbn [res_bind].
    destruct (py_add basic _) as [gross|]; [|discriminate]. cbn [res_bind].
    destruct (py_sub gross _) as [net|]; [|discriminate]. cbn [res_bind].
    destruct (next_id_get _ _) as [payroll_id|]; [|discriminate]. cbn [res_bind].
    destruct (getitem employee "employee_id") as [e|] eqn:He; [|discriminate].
    apply getitem_has_key in He as [_ <-]. cbn [res_bind py_append].
    intros [= <- <-]. right. split; [done|]. split; [done|].
    eexists. split; [done|]. by cbn.
Qed.

(** The loop over the employees only appends, and keeps the periods
    distinct. *)
Lemma generate_all_appends (req : request) (month : value) (year : Z) (user_id : value)
    (employees l : list value) (count : nat) (out : value) (n : nat) :
  generate_all req month year user_id (VList l) count employees = Ok (out, n) ->
  exists new, out = VList (l ++ new)
    /\ n = (count + List.length new)%nat
    /\ (unique_per_period l = true -> unique_per_period (l ++ new) = true)
    /\ Forall (fun q => has_key "employee_id" q = true
                        /\ field "month" q = month
                        /\ field "year" q = VInt year
                        /\ field "generated_by" q = user_id
                        /\ field "generated_date" q = VStr (today req)) new.
Proof.
  revert l count.
  induction employees as [|employee rest IH]; intros l count; cbn [generate_all].
  - intros [= <- <-]. exists []. rewrite app_nil_r.
    split; [done|]. split; [cbn; lia|]. split; [done|constructor].
  - destruct (generate_one _ _ _ _ _ employee) as [[step generated]|] eqn:Hone;
      [|discriminate].
    cbn [res_bind fst snd].
    apply generate_one_cases in Hone
      as [(-> & -> & _)|(-> & Hnone & q & -> & Hk & He & Hm & Hy & Hby & Hdate)].
    + apply IH.
    + intros Hall. apply IH in Hall as (new & -> & -> & Hu & Hnew).
      exists (q :: new). rewrite <- app_assoc in *. cbn in *.
      split; [done|]. split; [lia|]. split.
      * intros Hul. apply Hu. apply unique_period_app_one; [done|].
        eapply Forall_impl; [exact Hnone|]. intros p Hp. cbn in Hp.
        by eapply is_payroll_of_false.
      * by constructor.
Qed.

(** X13. Whatever [payroll_generate] does, the payroll records that were
    there are written back untouched and in place, the new ones come after
    them and are of the submitted month and year, generated by the caller
    today; if no two records were of the same employee, month and year
    before, none are afterwards. When the request raises, nothing is
    written. *)
Theorem payroll_generate_keeps_unique (req : request) (st : state) (l : list value) :
  loaded st PAYROLLS_FILE = VList l ->
  files (payroll_generate req st).1 = files st
  \/ exists new,
       files (payroll_generate req st).1
       = <[PAYROLLS_FILE := json_dump (VList (l ++ new))]> (files st)
       /\ Forall (generated_for req st) new
       /\ (unique_per_period l = true -> unique_per_period (l ++ new) = true).
Proof.
  intros Hload.
  destruct (method req) eqn:Hmethod.
  { left. assert (read_only (payroll_generate req)) as Hro; [|apply Hro].
    unfold payroll_generate. read_only_steps. }
  remember (payroll_generate req st) as out eqn:Hout.
  unfold payroll_generate in Hout.
  match type of Hout with
  | context [role_required ?roles ?f ?r ?s] =>
      destruct (role_required_cases roles f r s) as [Heq|Hsame];
      [rewrite Heq in Hout; clear Heq | rewrite Hout; by left]
  end.
  rewrite Hmethod in Hout.
  run_lift_in Hout.
  destruct (form_int req "year") as [year|] eqn:Hyear; [|left; by rewrite Hout].
  run_read_in Hout. run_read_in Hout. rewrite Hload in Hout.
  run_lift_in Hout.
  destruct (py_iter _) as [items|]; [|left; by rewrite Hout].
  run_lift_in Hout.
  match type of Hout with
  | context [if ?b then ?x else ?y] => destruct (if b then x else y) as [todo|]
  end; [|left; by rewrite Hout].
  run_session_in Hout. run_lift_in Hout.
  destruct (generate_all _ _ _ _ _ _ todo) as [[result n]|] eqn:Hall;
    [|left; by rewrite Hout].
  apply generate_all_appends in Hall as (new & -> & _ & Hu & Hnew).
  right. exists new. split; [|split; [|done]].
  - rewrite Hout. unfold bind, write_json_file, flash, redirect, ret. cbn.
    by destruct n.
  - eapply Forall_impl; [exact Hnew|]. intros q (Hk & Hm & Hy & Hby & Hdate).
    unfold generated_for. repeat split; try done. by exists year.
Qed.

(** ** Who sees which records *)

Lemma find_from_find {A} (p : A -> res bool) (f : A -> bool) (l : list A) (i : nat) :
  Forall (fun r => p r = Ok (f r)) l ->
  exists found, find_from p i l = Ok found /\ option_map snd found = List.find f l.
Proof.
  intros Hl. revert i. induction Hl as [|x l Hx _ IH]; intros i; cbn.
  - by exists None.
  - rewrite Hx. cbn. destruct (f x); [by eexists|apply IH].
Qed.





(** X15. [payroll_view] shows a salary slip to an administrator or HR
    user, and to anybody else only when the record carries the
    [employee_id] of their session; another caller is sent to the home page
    with nothing rendered. The slip shows the record as stored and the
    first employee with its [employee_id]. *)
Theorem payroll_view_own (payroll_id : Z) (req : request) (st : state)
    (l1 l2 emps : list value) (payroll : value) :
  logged_in st ->
  loaded st PAYROLLS_FILE = VList (l1 ++ payroll :: l2) ->
  Forall (fun x => id_isnt "payroll_id" payroll_id x = true) l1 ->
  id_is "payroll_id" payroll_id payroll = true ->
  has_key "employee_id" payroll = true ->
  loaded st EMPLOYEES_FILE = VList emps ->
  Forall (fun e => has_key "employee_id" e = true) emps ->
  payroll_view payroll_id req st
  = if may_view st payroll then
      (st, Ok (Render "payroll/slip.html"
                 [("payroll", payroll); ("employee", slip_employee payroll emps)]))
    else
      (flashed st "You can only view your own payroll records." "danger",
       Ok (Redirect "index" [])).
Proof.
  intros Hin Hload Hl1 Hid Howner Hemp Hemps.
  assert (
    (let* employees := read_json_file EMPLOYEES_FILE in
     let* items := lift (py_iter employees) in
     let* employee := lift (find_first
       (fun e =>
          let? x := getitem e "employee_id" in
          let? y := getitem payroll "employee_id" in
          Ok (py_eq x y)) items) in
     render_template "payroll/slip.html"
       [("payroll", payroll);
        ("employee", match employee with Some (_, e) => e | None => VNone end)]) st
    = (st, Ok (Render "payroll/slip.html"
                 [("payroll", payroll); ("employee", slip_employee payroll emps)])))
    as Hslip.
  { run_read. rewrite Hemp. run_lift. cbn [py_iter].
    run_lift. unfold find_first.
    edestruct (find_from_find
      (fun e => let? x := getitem e "employee_id" in
                let? y := getitem payroll "employee_id" in Ok (py_eq x y))
      (fun e => py_eq (field "employee_id" e) (field "employee_id" payroll))
      emps 0%nat) as (found & -> & Hfound).
    { eapply Forall_impl; [exact Hemps|]. intros e He. cbn.
      by rewrite (getitem_field _ _ He), (getitem_field _ _ Howner). }
    unfold slip_employee. rewrite <- Hfound.
    by destruct found as [[i e]|]. }
  unfold payroll_view. rewrite login_required_admits by done.
  run_read. rewrite Hload.
  run_lift. rewrite find_by_id_hit by done.
  cbn [present]. rewrite (id_is_truthy _ _ _ Hid).
  run_session. fold (session_role st). run_session. fold (session_employee st).
  run_lift. rewrite (getitem_field _ _ Howner). cbn [res_bind].
  rewrite (getitem_field _ _ Howner) in Hslip. cbn [res_bind] in Hslip.
  unfold may_view.
  destruct (py_in (session_role st) ["Admin"; "HR Staff"]); cbn [negb orb].
  - apply Hslip.
  - destruct (py_eq (field "employee_id" payroll) (session_employee st)); cbn [negb].
    + apply Hslip.
    + done.
Qed.

(** ** Passwords *)

Lemma change_password_accepted (salt : string) (req : request) (st : state) (i : nat)
    (user : value) (new hashed : string) :
  change_accepts req st i user new ->
  hashpw new salt = Ok hashed ->
  change_password salt req st
  = (flashed (written st USERS_FILE
                (coll_update (loaded st USERS_FILE) i (with_password hashed user)))
       "Password changed successfully!" "success",
     Ok (Redirect "index" [])).
Proof.
  intros (Hin & Hm & Hnew & Hconf & Hlen & items & current & stored
          & Hiter & Hfind & Hcur & Hstored & Hcheck) Hhash.
  unfold change_password. rewrite login_required_admits by done.
  rewrite Hm. cbv zeta. unfold form_get. rewrite Hnew, Hconf, Hcur.
  cbn [py_eq]. rewrite String.eqb_refl. cbn [negb].
  run_lift. cbn [py_len].
  destruct (Z.ltb_spec (str_len new) 6) as [?|_]; [lia|].
  run_read. run_session. run_lift. rewrite Hiter.
  run_lift. rewrite Hfind. cbn [present].
  assert (py_truthy user = true) as ->.
  { apply getitem_has_key in Hstored as [Hk _]. by eapply has_key_truthy. }
  run_lift. cbn [encode res_bind]. rewrite Hstored. cbn [encode res_bind].
  rewrite Hcheck. cbn [res_bind].
  run_lift. cbn [encode]. run_lift. rewrite Hhash.
  destruct user as [| | | | | |d]; try discriminate.
  by run_lift.
Qed.








Lemma with_password_getitem (hashed : string) (user : value) (k : string) :
  k <> "password_hash" ->
  getitem (with_password hashed user) k = getitem user k.
Proof.
  intros Hk. destruct user as [| | | | | |d]; try done. cbn.
  by rewrite dict_get_set_ne.
Qed.

Lemma with_password_hash (hashed : string) (user stored : value) :
  getitem user "password_hash" = Ok stored ->
  getitem (with_password hashed user) "password_hash" = Ok (VStr hashed).
Proof.
  destruct user as [| | | | | |d]; try discriminate. intros _. cbn.
  by rewrite dict_get_set_eq.
Qed.

(** The record found stays the first hit when it is replaced by one that
    passes the test as well. *)
Lemma find_from_replace {A} (p : A -> res bool) (l : list A) (i : nat) (x x' : A) :
  find_from p 0 l = Ok (Some (i, x)) -> p x' = Ok true ->
  find_from p 0 (<[i := x']> l) = Ok (Some (i, x')).
Proof.
  intros Hfind Hx'. apply find_from_sound in Hfind as (l1 & l2 & -> & -> & Hl1 & _).
  cbn. rewrite insert_at_length. by apply (find_from_hit p l1 l2 x' 0%nat).
Qed.

(** X18. After [change_password] has accepted a request, [login] with the
    new password is accepted for that account: the session receives the
    [user_id], [username], [role] and [employee_id] of the record. A login
    with a password that bcrypt does not accept against the new hash (the
    old password, for one) leaves the session as it was. *)
Theorem new_password_logs_in (salt : string) (req req' : request) (st st' : state)
    (i : nat) (user : value) (new hashed : string) (users : list value) :
  change_accepts req st i user new ->
  hashpw new salt = Ok hashed ->
  loaded st USERS_FILE = VList users ->
  json_decode (json_dump (VList (<[i := with_password hashed user]> users)))
  = Some (VList (<[i := with_password hashed user]> users)) ->
  files st' = files (change_password salt req st).1 ->
  method req' = POST ->
  find_first (field_eq "username" (form_get req' "username")) users = Ok (Some (i, user)) ->
  py_truthy (field "active" user) = true ->
  has_key "role" user = true ->
  (forall password,
     form req' !! "password" = Some password ->
     checkpw password hashed = Ok true ->
     login req' st'
     = (flashed {| files := files st';
                   session := session_for (with_password hashed user) (session st');
                   flashes := flashes st' |}
          ("Welcome back, " +:+ py_str (form_get req' "username") +:+ "!") "success",
        Ok (Redirect "index" [])))
  /\ (forall password,
        form req' !! "password" = Some password ->
        checkpw password hashed = Ok false ->
        session (login req' st').1 = session st').
Proof.
  intros Hacc Hhash Husers Hback Hfiles Hpost Hname Hactive Hrole.
  rewrite (change_password_accepted _ _ _ _ _ _ _ Hacc Hhash) in Hfiles.
  cbn in Hfiles. rewrite Husers in Hfiles. cbn [coll_update] in Hfiles.
  assert (loaded st' USERS_FILE = VList (<[i := with_password hashed user]> users))
    as Hload.
  { unfold loaded. by rewrite Hfiles, lookup_insert_eq, Hback. }
  destruct Hacc as (_ & _ & _ & _ & _ & items & current & stored
                    & Hiter & Hid & _ & Hstored & _).
  rewrite Husers in Hiter. injection Hiter as <-.
  assert (has_key "user_id" user = true) as Huid.
  { apply find_from_sound in Hid as (? & ? & _ & _ & _ & Hhit).
    unfold field_eq in Hhit. destruct (getitem user "user_id") eqn:Hg; [|discriminate].
    by apply getitem_has_key in Hg as [? _]. }
  assert (exists d, user = VDict d) as [d ->].
  { destruct user; try discriminate. by eexists. }
  assert (has_key "active" (VDict d) = true) as Hact.
  { cbn in Hactive |- *. by destruct (dict_get "active" d). }
  assert (find_first (field_eq "username" (form_get req' "username"))
            (<[i := with_password hashed (VDict d)]> users)
          = Ok (Some (i, with_password hashed (VDict d)))) as Hfirst.
  { apply find_from_replace with (x := VDict d); [done|].
    apply find_from_sound in Hname as (? & ? & _ & _ & _ & Hhit).
    unfold field_eq in Hhit |- *. by rewrite with_password_getitem. }
  split.
  - intros password Hpw Hcheck. apply login_accepted.
    + split; [done|].
      exists (<[i := with_password hashed (VDict d)]> users), i,
        (field "active" (VDict d)), password, hashed.
      rewrite Hload. repeat split; try done.
      * rewrite with_password_getitem by done. by apply getitem_field.
      * by eapply with_password_hash.
    + unfold with_password. by rewrite has_key_set_ne.
    + unfold with_password. by rewrite has_key_set_ne.
  - intros password Hpw Hcheck.
    destruct (login_sets_session req' st') as [Hsame|[u Hu]]; [done|].
    destruct Hu as (_ & items' & i' & active & password' & stored'
                    & Hiter' & Hfind' & _ & _ & Hpw' & Hstored' & Hcheck').
    rewrite Hload in Hiter'. cbn [py_iter] in Hiter'.
    assert (items' = <[i := with_password hashed (VDict d)]> users) as -> by congruence.
    rewrite Hfirst in Hfind'.
    assert (u = with_password hashed (VDict d)) as -> by congruence.
    rewrite (with_password_hash _ _ _ Hstored) in Hstored'. congruence.
Qed.

(** ** Applicants and jobs *)

Lemma plain_name_join (name : string) :
  plain_name name = true -> os_path_join FILES_DIR name = FILES_DIR +:+ "/" +:+ name.
Proof.
  unfold plain_name, os_path_join. destruct name as [|c r]; [done|]. cbn [has_slash].
  destruct (Ascii.eqb c "/"); [done|]. done.
Qed.

Lemma os_remove_delete (path : string) (st : state) :
  try_except (os_remove path)
    (fun e => match e with FileNotFoundError => Some (ret tt) | _ => None end) st
  = ({| files := delete path (files st); session := session st; flashes := flashes st |},
     Ok tt).
Proof.
  unfold try_except, os_remove. destruct (files st !! path) eqn:Hpath; [done|].
  cbn. rewrite delete_id by done. by destruct st.
Qed.

(** X19. [applicant_delete], for an administrator and an applicant whose
    id occurs once: the resume file the record names is removed from the
    upload directory (a file that is no longer there is no error), the
    applicants file is written back without the record and with the others
    in their order, and no other file changes. *)
Theorem applicant_delete_removes_resume (applicant_id : Z) (req : request) (st : state)
    (l1 l2 : list value) (applicant : value) :
  authorized ["Admin"] st ->
  loaded st APPLICANTS_FILE = VList (l1 ++ applicant :: l2) ->
  Forall (fun x => id_isnt "applicant_id" applicant_id x = true) l1 ->
  id_is "applicant_id" applicant_id applicant = true ->
  Forall (fun x => id_isnt "applicant_id" applicant_id x = true) l2 ->
  resume_named applicant = true ->
  has_key "first_name" applicant = true ->
  has_key "last_name" applicant = true ->
  applicant_delete applicant_id req st
  = (flashed {| files := <[APPLICANTS_FILE := json_dump (VList (l1 ++ l2))]>
                           (without_resume applicant (files st));
                session := session st; flashes := flashes st |}
       ("Applicant "
        +:+ (py_str (field "first_name" applicant) +:+ " "
             +:+ py_str (field "last_name" applicant))
        +:+ " deleted successfully!") "success",
     Ok (Redirect "applicants_list" [])).
Proof.
  intros Hauth Hload Hl1 Hid Hl2 Hresume Hfirst Hlast.
  unfold applicant_delete. rewrite role_required_admits by done.
  unfold bind at 1. run_read. rewrite Hload.
  run_lift. rewrite find_by_id_hit by done.
  cbn [present]. rewrite (id_is_truthy _ _ _ Hid).
  rewrite without_id_once by done.
  unfold full_name. rewrite (getitem_field _ _ Hfirst), (getitem_field _ _ Hlast).
  cbn [res_bind].
  destruct applicant as [| | | | | |d]; try discriminate.
  unfold resume_named, without_resume in *. cbn [field py_get] in *.
  unfold default in *.
  destruct (dict_get "resume_filename" d) as [resume|] eqn:Hget; [|done].
  destruct resume as [| | | |name| |]; try discriminate; [done|].
  unfold bind, lift. cbn [py_truthy].
  cbn -[plain_name String.eqb] in Hresume.
  destruct (String.eqb name "") eqn:Hempty; cbn [negb orb] in *.
  { cbn. by rewrite Hempty. }
  unfold resume_path, try_except, os_remove. rewrite plain_name_join by done.
  destruct (files st !! (FILES_DIR +:+ "/" +:+ name)) eqn:Hpath; cbn; rewrite Hempty;
    [done|].
  by rewrite delete_id.
Qed.

(** X20. [job_view] is open to everybody: it shows the job to any caller,
    and the applications for it only to an administrator or HR user.
    Anybody else, logged in or not, gets an empty list of applicants. *)
Theorem job_view_hides_applicants (job_id : Z) (req : request) (st : state)
    (jobs1 jobs2 apps : list value) (job : value) :
  loaded st JOBS_FILE = VList (jobs1 ++ job :: jobs2) ->
  Forall (fun x => id_isnt "job_id" job_id x = true) jobs1 ->
  id_is "job_id" job_id job = true ->
  loaded st APPLICANTS_FILE = VList apps ->
  Forall (fun a => has_key "job_id" a = true) apps ->
  job_view job_id req st
  = (st, Ok (Render "jobs/view.html"
               [("job", job); ("applicants", VList (shown_applicants st job_id apps))])).
Proof.
  intros Hjobs Hj1 Hjob Happs Hkeys.
  unfold job_view. run_read. rewrite Hjobs.
  run_lift. rewrite find_by_id_hit by done.
  cbn [present]. rewrite (id_is_truthy _ _ _ Hjob).
  run_session. fold (session_role st). unfold shown_applicants.
  destruct (py_in (session_role st) ["Admin"; "HR Staff"]); [|done].
  unfold bind at 1. run_read. rewrite Happs.
  unfold lift, only_with. cbn [py_iter res_bind].
  by rewrite (filter_res_total _ _ _ (field_eq_total _ _ _ Hkeys)).
Qed.

(** X21. [job_apply] records nothing when the uploaded file is of a type
    that is not accepted (the form is shown again, and the file is not
    stored), nor when there is no job with the id asked for. *)
Theorem job_apply_rejections (job_id : Z) (req : request) (st : state)
    (jobs1 jobs2 : list value) (job : value) :
  method req = POST ->
  loaded st JOBS_FILE = VList (jobs1 ++ job :: jobs2) ->
  Forall (fun x => id_isnt "job_id" job_id x = true) jobs1 ->
  id_is "job_id" job_id job = true ->
  (upload_refused req ->
   job_apply job_id req st
   = (flashed st "Invalid file type. Please upload PDF, DOC, or DOCX files only." "danger",
      Ok (Render "jobs/apply.html" [("job", job)])))
  /\ (forall other,
        Forall (fun x => id_isnt "job_id" other x = true) (jobs1 ++ job :: jobs2) ->
        job_apply other req st
        = (flashed st "Job posting not found." "danger", Ok (Redirect "index" []))).
Proof.
  intros Hpost Hjobs Hj1 Hjob. split.
  - intros (name & content & Hup & Hname & Hbad).
    unfold job_apply. run_read. rewrite Hjobs.
    run_lift. rewrite find_by_id_hit by done.
    cbn [present]. rewrite (id_is_truthy _ _ _ Hjob). rewrite Hpost.
    run_read. rewrite Hup. cbn [fst snd].
    apply String.eqb_neq in Hname. rewrite Hname. cbn [negb].
    unfold save_uploaded_file. cbn [fst snd]. rewrite Hname, Hbad. done.
  - intros other Hnone.
    unfold job_apply. run_read. rewrite Hjobs.
    run_lift. by rewrite find_by_id_miss.
Qed.

(** X22. A POST to [employee_edit] for an employee that exists replaces
    the ten fields of the form in that record and writes the others back
    as they were: the record keeps its [employee_id] and its place. When
    the submitted salary is not a number the request raises [ValueError]
    before anything is written. *)
Theorem employee_edit_keeps_identity (employee_id : Z) (req : request) (st : state)
    (l1 l2 : list value) (employee : value) :
  authorized ["Admin"; "HR Staff"] st ->
  method req = POST ->
  loaded st EMPLOYEES_FILE = VList (l1 ++ employee :: l2) ->
  Forall (fun x => id_isnt "employee_id" employee_id x = true) l1 ->
  id_is "employee_id" employee_id employee = true ->
  (forall salary,
     form_float req "salary" = Ok salary ->
     let edited := edited_employee req salary employee in
     employee_edit employee_id req st
     = (flashed (written st EMPLOYEES_FILE (VList (l1 ++ edited :: l2)))
          ("Employee "
           +:+ (py_str (form_get req "first_name") +:+ " "
                +:+ py_str (form_get req "last_name"))
           +:+ " updated successfully!") "success",
        Ok (Redirect "employees_list" []))
     /\ field "employee_id" edited = field "employee_id" employee
     /\ field "salary" edited = VFloat salary)
  /\ (forall e,
        form_float req "salary" = Raise e ->
        employee_edit employee_id req st = (st, Raise e)).
Proof.
  intros Hauth Hpost Hload Hl1 Hid.
  assert (exists d, employee = VDict d) as [d ->].
  { destruct employee; try discriminate. by eexists. }
  split.
  - intros salary Hsalary edited. split; [|split].
    + unfold employee_edit. rewrite role_required_admits by done.
      run_read. rewrite Hload.
      run_lift. rewrite find_by_id_hit by done.
      cbn [present]. rewrite (id_is_truthy _ _ _ Hid). rewrite Hpost.
      run_lift. rewrite setitems_dict.
      run_lift. rewrite Hsalary.
      run_lift. cbn [setitem].
      unfold bind at 1. unfold write_json_file at 1. cbn [coll_update].
      rewrite insert_at_length.
      run_lift. unfold full_name, getitem.
      rewrite dict_get_set_ne by done. cbn [fold_left fst snd].
      rewrite !(dict_get_set_ne _ "first_name") by done. rewrite dict_get_set_eq.
      cbn [res_bind].
      rewrite !(dict_get_set_ne _ "last_name") by done. rewrite dict_get_set_eq.
      done.
    + unfold edited, edited_employee. cbn [fold_left fst snd].
      by rewrite !field_set_ne.
    + unfold edited, edited_employee. cbn [fold_left fst snd field].
      by rewrite dict_get_set_eq.
  - intros e Hsalary.
    unfold employee_edit. rewrite role_required_admits by done.
    run_read. rewrite Hload.
    run_lift. rewrite find_by_id_hit by done.
    cbn [present]. rewrite (id_is_truthy _ _ _ Hid). rewrite Hpost.
    run_lift. rewrite setitems_dict.
    run_lift. by rewrite Hsalary.
Qed.

(** ** Attendance *)

(** X23. Checking in, checking out and deleting a record keep one
    attendance record per employee and day: whatever [attendance_mark]
    or [attendance_delete] writes over a collection in which no two
    records are of the same employee and date has that property too. *)
Theorem attendance_stays_unique (attendance_id : Z) (req : request) (st : state)
    (l : list value) :
  loaded st ATTENDANCE_FILE = VList l ->
  unique_per_day l = true ->
  (files (attendance_mark req st).1 = files st
   \/ exists l', files (attendance_mark req st).1
                 = <[ATTENDANCE_FILE := json_dump (VList l')]> (files st)
                 /\ unique_per_day l' = true)
  /\ (files (attendance_delete attendance_id req st).1 = files st
      \/ exists l', files (attendance_delete attendance_id req st).1
                    = <[ATTENDANCE_FILE := json_dump (VList l')]> (files st)
                    /\ unique_per_day l' = true).
Proof.
  intros Hload Hu. split.
  - by apply (attendance_mark_keeps_unique req st l).
  - by apply (attendance_delete_keeps_unique attendance_id req st l).
Qed.

Lemma check_in_run (req : request) (st : state) (employee_id : Z) (l : list value) :
  logged_in st ->
  method req = POST ->
  form_int req "employee_id" = Ok employee_id ->
  for_another st employee_id = false ->
  form_get req "action" = VStr "check_in" ->
  loaded st ATTENDANCE_FILE = VList l ->
  Forall (fun r => int_id "attendance_id" r = true) l ->
  Forall (fun r => is_today_record employee_id (today req) r = Ok false) l ->
  attendance_mark req st
  = (flashed (written st ATTENDANCE_FILE
                (VList (l ++ [new_attendance req employee_id
                                (next_id "attendance_id" l)])))
       "Check-in recorded successfully!" "success",
     Ok (Redirect "attendance_mark" [])).
Proof.
  intros Hin Hpost Hid Hown Haction Hload Hids Hnone.
  unfold for_another, session_role, session_employee in Hown.
  unfold attendance_mark. rewrite login_required_admits by done.
  run_session. run_session. rewrite Hpost.
  run_lift. rewrite Hid, Hown. cbv zeta.
  run_read. rewrite Hload.
  run_lift. cbn [py_iter].
  run_lift. unfold find_first. rewrite find_from_miss by done.
  rewrite Haction. cbn [py_eq String.eqb Ascii.eqb Bool.eqb present].
  unfold bind at 1. run_lift. rewrite next_id_get_spec by done.
  done.
Qed.

(** X24. A check-in for an employee who has no record of the day appends
    one, with the day, the time, status ["Present"] and a new id; a second
    check-in for that employee on that day, on the files the first one
    left, is refused and writes nothing. *)
Theorem check_in_once (req req' : request) (st st' : state) (employee_id : Z)
    (l : list value) :
  logged_in st ->
  method req = POST ->
  form_int req "employee_id" = Ok employee_id ->
  for_another st employee_id = false ->
  form_get req "action" = VStr "check_in" ->
  loaded st ATTENDANCE_FILE = VList l ->
  Forall (fun r => int_id "attendance_id" r = true) l ->
  Forall (fun r => is_today_record employee_id (today req) r = Ok false) l ->
  let record := new_attendance req employee_id (next_id "attendance_id" l) in
  attendance_mark req st
  = (flashed (written st ATTENDANCE_FILE (VList (l ++ [record])))
       "Check-in recorded successfully!" "success",
     Ok (Redirect "attendance_mark" []))
  /\ (files st' = files (attendance_mark req st).1 ->
      json_decode (json_dump (VList (l ++ [record]))) = Some (VList (l ++ [record])) ->
      logged_in st' ->
      method req' = POST ->
      form_int req' "employee_id" = Ok employee_id ->
      for_another st' employee_id = false ->
      form_get req' "action" = VStr "check_in" ->
      today req' = today req ->
      attendance_mark req' st'
      = (flashed st' "You have already checked in today!" "warning",
         Ok (Redirect "attendance_mark" []))).
Proof.
  intros Hin Hpost Hid Hown Haction Hload Hids Hnone record.
  pose proof (check_in_run req st employee_id l Hin Hpost Hid Hown Haction Hload Hids Hnone)
    as Hrun.
  split; [exact Hrun|].
  intros Hfiles Hback Hin' Hpost' Hid' Hown' Haction' Htoday.
  rewrite Hrun in Hfiles. cbn in Hfiles.
  assert (loaded st' ATTENDANCE_FILE = VList (l ++ [record])) as Hload'.
  { unfold loaded. rewrite Hfiles, lookup_insert_eq.
    fold record. by rewrite Hback. }
  unfold for_another, session_role, session_employee in Hown'.
  unfold attendance_mark. rewrite login_required_admits by done.
  run_session. run_session. rewrite Hpost'.
  run_lift. rewrite Hid', Hown'. cbv zeta.
  run_read. rewrite Hload'.
  run_lift. cbn [py_iter].
  run_lift. unfold find_first. rewrite Htoday.
  rewrite (find_from_hit _ l [] record 0%nat); [|done|].
  2:{ unfold is_today_record, record, new_attendance. cbn.
      unfold num_eqb. cbn. rewrite Z.compare_refl. by rewrite String.eqb_refl. }
  rewrite Haction'. cbn [py_eq String.eqb Ascii.eqb Bool.eqb present].
  done.
Qed.

(** ** The names on the listings *)

Lemma py_eq_int_eq (a b : Z) : py_eq (VInt a) (VInt b) = (a =? b).
Proof.
  cbn. unfold num_eqb. cbn. destruct (Z.compare_spec a b), (Z.eqb_spec a b); try done; lia.
Qed.

Lemma lookup_find_set (x : value) (a b : Z) (m : list (value * value)) :
  Forall (fun kv => int_key "employee_id" kv.2 = true
                    /\ kv.1 = field "employee_id" kv.2) m ->
  lookup_find (VInt b) (lookup_set (VInt a) x m)
  = if a =? b then Some x else lookup_find (VInt b) m.
Proof.
  induction 1 as [|[k' v'] m [Hint Hk] _ IH]; cbn [lookup_find lookup_set].
  - by rewrite py_eq_int_eq.
  - cbn [fst snd] in Hint, Hk. unfold int_key in Hint.
    destruct (field "employee_id" v') as [| |c| | | |] eqn:Hf; try discriminate. subst k'.
    rewrite !py_eq_int_eq.
    destruct (Z.eqb_spec c a) as [->|Hca]; cbn [lookup_find]; rewrite !py_eq_int_eq.
    + by destruct (a =? b).
    + rewrite IH. destruct (Z.eqb_spec c b), (Z.eqb_spec a b); try done. lia.
Qed.

Lemma lookup_set_ints (a : Z) (x : value) (m : list (value * value)) :
  field "employee_id" x = VInt a ->
  Forall (fun kv => int_key "employee_id" kv.2 = true
                    /\ kv.1 = field "employee_id" kv.2) m ->
  Forall (fun kv => int_key "employee_id" kv.2 = true
                    /\ kv.1 = field "employee_id" kv.2) (lookup_set (VInt a) x m).
Proof.
  intros Hx. induction 1 as [|[k' v'] m [Hint Hk] Hm IH]; cbn [lookup_set].
  - constructor; [|constructor]. cbn. unfold int_key. by rewrite Hx.
  - cbn [fst snd] in Hint, Hk. pose proof Hint as Hint'. unfold int_key in Hint'.
    destruct (field "employee_id" v') as [| |c| | | |] eqn:Hf; try discriminate. subst k'.
    rewrite py_eq_int_eq. destruct (Z.eqb_spec c a) as [->|Hca].
    + constructor; [|exact Hm]. cbn. unfold int_key. by rewrite Hx.
    + constructor; [|exact IH]. cbn. by rewrite Hf.
Qed.

(** The lookup table answers with the last employee of the id. *)
Lemma build_lookup_last (emps : list value) (m0 m : list (value * value)) (b : Z) :
  Forall (fun e => has_key "employee_id" e = true /\ int_key "employee_id" e = true) emps ->
  Forall (fun kv => int_key "employee_id" kv.2 = true
                    /\ kv.1 = field "employee_id" kv.2) m0 ->
  build_lookup "employee_id" m0 emps = Ok m ->
  lookup_find (VInt b) m
  = match employee_with (VInt b) emps with
    | Some e => Some e
    | None => lookup_find (VInt b) m0
    end.
Proof.
  intros Hemps. revert m0.
  induction Hemps as [|e emps [Hk Hint] _ IH]; intros m0 Hm0;
    cbn [build_lookup employee_with].
  - by intros [= <-].
  - rewrite (getitem_field _ _ Hk). cbn [res_bind].
    pose proof Hint as Hint'. unfold int_key in Hint'.
    destruct (field "employee_id" e) as [| |a| | | |] eqn:Hf; try discriminate.
    cbn [hashable]. intros Hbuild.
    rewrite (IH _ (lookup_set_ints a e m0 Hf Hm0) Hbuild).
    destruct (employee_with (VInt b) emps); [done|].
    rewrite lookup_find_set by done. rewrite py_eq_int_eq. by destruct (a =? b).
Qed.

Lemma employee_with_wf (emps : list value) (id e : value) :
  Forall (fun x => wf_employee x = true) emps ->
  employee_with id emps = Some e -> wf_employee e = true.
Proof.
  induction 1 as [|x emps Hx _ IH]; cbn; [done|].
  destruct (employee_with id emps); [by intros [= <-]; apply IH|].
  destruct (py_eq _ _); [by intros [= <-]|done].
Qed.

Lemma with_employee_names_named (emps l : list value) :
  Forall (fun e => wf_employee e = true) emps ->
  Forall (fun e => int_key "employee_id" e = true) emps ->
  Forall (fun r => int_key "employee_id" r = true) l ->
  with_employee_names (VList emps) (VList l) = Ok (VList (map (named_after emps) l)).
Proof.
  intros Hwf Hints Hl. unfold with_employee_names. cbn [py_iter res_bind].
  destruct (build_lookup_ok emps [] Hwf) as (m & Hm & _); [constructor|].
  rewrite Hm. cbn [res_bind].
  assert (forall b, lookup_find (VInt b) m = employee_with (VInt b) emps) as Hfind.
  { intros b. rewrite (build_lookup_last emps [] m b); [|..|done|done].
    - by destruct (employee_with (VInt b) emps).
    - clear -Hwf Hints. induction Hwf as [|e emps He _ IH]; [constructor|].
      inversion Hints; subst. constructor; [|by apply IH]. split; [|done].
      unfold wf_employee, has_scalar in He.
      by apply andb_true_iff in He as [[[? _]%andb_true_iff _]%andb_true_iff _]. }
  assert (map_res (add_employee_name m) l = Ok (map (named_after emps) l)) as ->; [|done].
  induction Hl as [|r l Hr _ IH]; cbn [map_res map]; [done|].
  rewrite IH. clear IH.
  assert (add_employee_name m r = Ok (named_after emps r)) as ->; [|done].
  unfold int_key in Hr. unfold add_employee_name, named_after, shown_name, lookup_get.
  destruct r as [| | | | | |d]; try discriminate. cbn [field getitem] in *.
  destruct (dict_get "employee_id" d) as [[| |b| | | |]|] eqn:Hd; try discriminate.
  cbn [default from_option id res_bind hashable]. rewrite Hfind.
  destruct (employee_with (VInt b) emps) as [e|] eqn:He; [|done].
  pose proof (employee_with_wf _ _ _ Hwf He) as Hwfe.
  rewrite (wf_employee_truthy _ Hwfe).
  unfold wf_employee in Hwfe.
  apply andb_true_iff in Hwfe as [[_ Hfirst]%andb_true_iff Hlast].
  unfold full_name. by rewrite (getitem_field _ _ Hfirst), (getitem_field _ _ Hlast).
Qed.

(** X25. The payroll list shows every payroll record, in the order of the
    file, with the name of its employee attached: first and last name of
    the last employee record with the [employee_id] of the row, and
    ["Unknown"] for a row whose employee is no longer in the employees
    file. Nothing else of a row changes. *)
Theorem payroll_list_names (req : request) (st : state) (payrolls emps : list value) :
  authorized ["Admin"; "HR Staff"] st ->
  loaded st PAYROLLS_FILE = VList payrolls ->
  Forall (fun r => int_key "employee_id" r = true) payrolls ->
  loaded st EMPLOYEES_FILE = VList emps ->
  Forall (fun e => wf_employee e = true) emps ->
  Forall (fun e => int_key "employee_id" e = true) emps ->
  payroll_list req st
  = (st, Ok (Render "payroll/list.html"
               [("payrolls", VList (map (named_after emps) payrolls))])).
Proof.
  intros Hauth Hpay Hp Hemp Hwf Hints.
  unfold payroll_list. rewrite role_required_admits by done.
  run_read. rewrite Hpay. run_read. rewrite Hemp.
  run_lift. by rewrite with_employee_names_named.
Qed.

(** A filter that is asked for keeps what passes its test; one that is not
    asked for keeps everything. *)
Lemma filtered_if_total (wanted : bool) (test : value -> res bool) (f : value -> bool)
    (l : list value) :
  (wanted = true -> Forall (fun r => test r = Ok (f r)) l) ->
  (wanted = false -> Forall (fun r => f r = true) l) ->
  filtered_if wanted test (VList l) = Ok (VList (List.filter f l)).
Proof.
  intros Hl Hall. unfold filtered_if. destruct wanted.
  - cbn [py_iter res_bind]. by rewrite (filter_res_total _ f) by auto.
  - by rewrite filter_keeps_all by auto.
Qed.

Lemma Forall_filter_keep {A} (P : A -> Prop) (f : A -> bool) (l : list A) :
  Forall P l -> Forall P (List.filter f l).
Proof.
  induction 1 as [|x l Hx _ IH]; cbn; [constructor|].
  destruct (f x); [by constructor|done].
Qed.

Lemma filter_twice {A} (f g : A -> bool) (l : list A) :
  List.filter g (List.filter f l) = List.filter (fun x => f x && g x) l.
Proof.
  induction l as [|x l IH]; cbn; [done|].
  destruct (f x); cbn; [|done]. destruct (g x); by rewrite IH.
Qed.

Lemma bound_args (req : request) (k : string) :
  match bound req k with
  | Some s => args_get req k = VStr s /\ py_truthy (args_get req k) = true
  | None => py_truthy (args_get req k) = false
  end.
Proof.
  unfold bound, args_get. destruct (args req !! k) as [s|]; [|done]. cbn.
  by destruct (String.eqb s "").
Qed.

(** X26. The attendance report shows the records whose date lies between
    the bounds asked for (both inclusive, compared as strings, which for
    dates written year-month-day is the order of the calendar; an absent
    or empty bound does not restrict) and, when an employee is asked for,
    of that employee only; the records keep the order of the file and get
    the name of their employee. *)
Theorem attendance_report_rows (req : request) (st : state) (l emps : list value)
    (employee : option Z) :
  authorized ["Admin"; "HR Staff"] st ->
  loaded st ATTENDANCE_FILE = VList l ->
  Forall (fun r => has_key "date" r = true /\ int_key "employee_id" r = true) l ->
  (forall r, In r l -> exists d, field "date" r = VStr d) ->
  loaded st EMPLOYEES_FILE = VList emps ->
  Forall (fun e => wf_employee e = true) emps ->
  Forall (fun e => int_key "employee_id" e = true) emps ->
  wanted_employee req = Some employee ->
  attendance_reports req st
  = (st, Ok (Render "attendance/reports.html"
               [("attendance_records",
                 VList (map (named_after emps) (List.filter (in_report req employee) l)));
                ("employees", VList emps);
                ("start_date", args_get req "start_date");
                ("end_date", args_get req "end_date");
                ("employee_id", args_get req "employee_id")])).
Proof.
  intros Hauth Hatt Hl Hdates Hemp Hwf Hints Hwanted.
  set (since := fun r => match bound req "start_date", field "date" r with
                        | Some s, VStr d => String.leb s d
                        | Some _, _ => false
                        | None, _ => true
                        end).
  set (until := fun r => match bound req "end_date", field "date" r with
                      | Some e, VStr d => String.leb d e
                      | Some _, _ => false
                      | None, _ => true
                      end).
  set (whose := fun r => match employee with
                      | Some n => py_eq (field "employee_id" r) (VInt n)
                      | None => true
                      end).
  assert (forall l', Forall (fun r => has_key "date" r = true
                                      /\ int_key "employee_id" r = true) l' ->
                     (forall r, In r l' -> exists d, field "date" r = VStr d) ->
    py_truthy (args_get req "start_date") = true ->
    Forall (fun r => (let? d := getitem r "date" in py_ge d (args_get req "start_date"))
                     = Ok (since r)) l') as Hfrom.
  { intros l' Hl' Hd Htrue. apply List.Forall_forall. intros r Hr.
    pose proof (proj1 (List.Forall_forall _ _) Hl' r Hr) as [Hk _].
    destruct (Hd r Hr) as [d Hdate].
    rewrite (getitem_field _ _ Hk), Hdate. unfold since. rewrite Hdate.
    pose proof (bound_args req "start_date") as Hb.
    destruct (bound req "start_date") as [s|]; [|congruence].
    destruct Hb as [-> _]. done. }
  assert (forall l', Forall (fun r => has_key "date" r = true
                                      /\ int_key "employee_id" r = true) l' ->
                     (forall r, In r l' -> exists d, field "date" r = VStr d) ->
    py_truthy (args_get req "end_date") = true ->
    Forall (fun r => (let? d := getitem r "date" in py_le d (args_get req "end_date"))
                     = Ok (until r)) l') as Hto.
  { intros l' Hl' Hd Htrue. apply List.Forall_forall. intros r Hr.
    pose proof (proj1 (List.Forall_forall _ _) Hl' r Hr) as [Hk _].
    destruct (Hd r Hr) as [d Hdate].
    rewrite (getitem_field _ _ Hk), Hdate. unfold until. rewrite Hdate.
    pose proof (bound_args req "end_date") as Hb.
    destruct (bound req "end_date") as [s|]; [|congruence].
    destruct Hb as [-> _]. done. }
  assert (forall l', Forall (fun r => has_key "date" r = true
                                      /\ int_key "employee_id" r = true) l' ->
    py_truthy (args_get req "employee_id") = true ->
    Forall (fun r => (let? e := getitem r "employee_id" in
                      let? n := int_of_value (args_get req "employee_id") in
                      Ok (py_eq e (VInt n))) = Ok (whose r)) l') as Hof.
  { intros l' Hl' Htrue. eapply Forall_impl; [exact Hl'|]. intros r [_ Hint].
    unfold int_key in Hint.
    assert (has_key "employee_id" r = true) as Hk.
    { destruct r as [| | | | | |d]; try discriminate. cbn in Hint |- *.
      by destruct (dict_get "employee_id" d). }
    rewrite (getitem_field _ _ Hk). cbn [res_bind].
    unfold wanted_employee in Hwanted. unfold args_get in Htrue |- *.
    destruct (args req !! "employee_id") as [s|]; [|done]. cbn in Htrue.
    destruct (String.eqb s ""); [done|]. cbn [int_of_value].
    destruct (int_of_str s) as [n|]; [|done]. injection Hwanted as <-. done. }
  assert (forall l', py_truthy (args_get req "start_date") = false ->
                     Forall (fun r => since r = true) l') as Hfrom'.
  { intros l' Ht. apply List.Forall_forall. intros r _. unfold since.
    pose proof (bound_args req "start_date") as Hb.
    destruct (bound req "start_date"); [|done]. destruct Hb. congruence. }
  assert (forall l', py_truthy (args_get req "end_date") = false ->
                     Forall (fun r => until r = true) l') as Hto'.
  { intros l' Ht. apply List.Forall_forall. intros r _. unfold until.
    pose proof (bound_args req "end_date") as Hb.
    destruct (bound req "end_date"); [|done]. destruct Hb. congruence. }
  assert (forall l', py_truthy (args_get req "employee_id") = false ->
                     Forall (fun r => whose r = true) l') as Hof'.
  { intros l' Ht. apply List.Forall_forall. intros r _. unfold whose.
    unfold wanted_employee in Hwanted. unfold args_get in Ht.
    destruct (args req !! "employee_id") as [s|]; [|by injection Hwanted as <-].
    cbn in Ht. destruct (String.eqb s ""); [by injection Hwanted as <-|done]. }
  assert (forall f l', (forall r, In r l' -> In r l) ->
                       forall r, In r (List.filter f l') -> In r l) as Hsub.
  { intros f l' Hl' r Hr. apply filter_In in Hr as [? _]. auto. }
  unfold attendance_reports. rewrite role_required_admits by done.
  run_read. rewrite Hatt. run_read. rewrite Hemp. cbv zeta.
  run_lift. rewrite (filtered_if_total _ _ since) by auto.
  run_lift. rewrite (filtered_if_total _ _ until).
  2:{ intros Ht. apply Hto; [by apply Forall_filter_keep|eauto|done]. }
  2:{ auto. }
  run_lift. rewrite (filtered_if_total _ _ whose).
  2:{ intros Ht. apply Hof; [|done]. by do 2 apply Forall_filter_keep. }
  2:{ auto. }
  run_lift. rewrite with_employee_names_named; [|done|done|].
  2:{ do 3 apply Forall_filter_keep. eapply Forall_impl; [exact Hl|]. by intros r [_ ?]. }
  assert (List.filter whose (List.filter until (List.filter since l))
          = List.filter (in_report req employee) l) as ->; [|done].
  rewrite !filter_twice. apply filter_ext_in. intros r Hr.
  destruct (Hdates r Hr) as [d Hdate].
  rewrite andb_assoc. unfold since, until, whose, in_report. rewrite Hdate.
  by destruct (bound req "start_date"), (bound req "end_date").
Qed.

(** ** Who may ask for what *)

Lemma role_required_turns_away (roles : list string) (f : handler) (req : request)
    (st : state) :
  logged_in st -> py_in (session_role st) roles = false ->
  role_required roles f req st = to_home st.
Proof.
  intros Hin Hrole. unfold role_required, bind, session_has, session_get.
  rewrite bool_decide_eq_true_2 by done. cbn.
  unfold session_role in Hrole. by rewrite Hrole.
Qed.

(** X27. A logged-in caller who is neither administrator nor HR user is
    sent to the home page by every management route (reports, editing and
    deleting attendance, deciding on leave, employees, payroll, job
    postings, applicants) and the route does nothing else; deleting a
    payroll record or an applicant is closed to HR users as well, only an
    administrator may do it. *)
Theorem management_routes_closed (req : request) (st : state) (id : Z) :
  logged_in st ->
  (py_in (session_role st) ["Admin"; "HR Staff"] = false ->
   Forall (fun h : handler => h req st = to_home st)
     [attendance_reports; attendance_edit id; attendance_delete id;
      leave_approve id; leave_reject id;
      employees_list; employee_add; employee_edit id; employee_delete id;
      payroll_list; payroll_generate; payroll_delete id;
      jobs_list; job_add; job_edit id; job_delete id;
      applicants_list; applicant_view id; applicant_update_status id;
      applicant_onboard id; applicant_delete id])
  /\ (py_in (session_role st) ["Admin"] = false ->
      payroll_delete id req st = to_home st
      /\ applicant_delete id req st = to_home st).
Proof.
  intros Hin. split.
  - intros Hrole.
    assert (py_in (session_role st) ["Admin"] = false) as Hadmin.
    { unfold py_in in Hrole |- *. cbn [existsb] in Hrole |- *.
      apply orb_false_iff in Hrole as [-> _]. done. }
    repeat constructor; by apply role_required_turns_away.
  - intros Hadmin. split; by apply role_required_turns_away.
Qed.

(** ** What leaves the session alone *)

Lemma keeps_session_ret {A} (a : A) : keeps_session (ret a).
Proof. done. Qed.

Lemma keeps_session_lift {A} (r : res A) : keeps_session (lift r).
Proof. done. Qed.

Lemma keeps_session_bind {A B} (m : M A) (k : A -> M B) :
  keeps_session m -> (forall a, keeps_session (k a)) -> keeps_session (bind m k).
Proof.
  intros Hm Hk st. unfold bind. specialize (Hm st).
  destruct (m st) as [st' [a|e]]; cbn in *; [|done].
  by rewrite Hk.
Qed.

Lemma keeps_session_try_except {A} (m : M A) (h : exn -> option (M A)) :
  keeps_session m -> (forall e k, h e = Some k -> keeps_session k) ->
  keeps_session (try_except m h).
Proof.
  intros Hm Hh st. unfold try_except. specialize (Hm st).
  destruct (m st) as [st' [a|e]]; cbn in *; [done|].
  destruct (h e) as [k|] eqn:Hk; [|done]. by rewrite (Hh e k Hk).
Qed.

Lemma keeps_session_flash (message category : string) :
  keeps_session (flash message category).
Proof. done. Qed.

Lemma keeps_session_session_get (k : string) : keeps_session (session_get k).
Proof. done. Qed.

Lemma keeps_session_read_json_file (filepath : string) :
  keeps_session (read_json_file filepath).
Proof. intros st. by rewrite read_json_file_loaded. Qed.

Lemma keeps_session_write_json_file (filepath : string) (data : value) :
  keeps_session (write_json_file filepath data).
Proof. done. Qed.

Lemma keeps_session_os_remove (path : string) : keeps_session (os_remove path).
Proof. intros st. unfold os_remove. by destruct (files st !! path). Qed.

Lemma keeps_session_save_uploaded_file (req : request) (file : string * string) :
  keeps_session (save_uploaded_file req file).
Proof. intros st. unfold save_uploaded_file. by destruct (_ && _). Qed.

Lemma keeps_session_redirect (endpoint : string) : keeps_session (redirect endpoint).
Proof. done. Qed.

Lemma keeps_session_render_template (template : string)
    (context : list (string * value)) :
  keeps_session (render_template template context).
Proof. done. Qed.

Lemma keeps_session_login_required (f : handler) (req : request) :
  keeps_session (f req) -> keeps_session (login_required f req).
Proof.
  intros Hf. unfold login_required.
  apply keeps_session_bind; [done|]. intros logged. by destruct logged.
Qed.

Lemma keeps_session_role_required (roles : list string) (f : handler) (req : request) :
  keeps_session (f req) -> keeps_session (role_required roles f req).
Proof.
  intros Hf. unfold role_required.
  apply keeps_session_bind; [done|]. intros logged. destruct logged; [|done].
  apply keeps_session_bind; [done|]. intros role. by destruct (py_in role roles).
Qed.

Ltac keeps_session_step :=
  first
    [ apply keeps_session_login_required; cbv beta
    | apply keeps_session_role_required; cbv beta
    | apply keeps_session_read_json_file
    | apply keeps_session_bind; [|intros ?]
    | apply keeps_session_try_except; [|intros ? ? ?]
    | apply keeps_session_write_json_file
    | apply keeps_session_os_remove
    | apply keeps_session_save_uploaded_file
    | apply keeps_session_session_get
    | apply keeps_session_flash
    | apply keeps_session_lift
    | apply keeps_session_redirect
    | apply keeps_session_render_template
    | apply keeps_session_ret
    | match goal with
      | Hk : match ?e with _ => _ end = Some _ |- _ => destruct e; simplify_eq
      | |- keeps_session (match ?x with _ => _ end) => destruct x
      end ].

(** X28. Only [login] and [logout] change the session: every other route
    leaves it as it was, for every request and whatever the files hold,
    also when it raises. In particular a password reset logs nobody in
    and a change of password logs nobody out. *)
Theorem only_login_changes_session (req : request) (id : Z)
    (temp_password salt : string) :
  Forall (fun h : handler => keeps_session (h req))
    [index;
     attendance_list; attendance_mark; attendance_reports; attendance_edit id;
     attendance_delete id;
     leaves_list; leave_apply; leave_approve id; leave_reject id; leave_edit id;
     leave_delete id;
     employees_list; employee_add; employee_edit id; employee_delete id;
     employee_view id;
     payroll_list; payroll_generate; payroll_view id; my_payroll; payroll_delete id;
     jobs_list; job_add; job_edit id; job_delete id; job_view id; job_apply id;
     applicants_list; applicant_view id; applicant_update_status id;
     applicant_onboard id; applicant_delete id;
     forgot_password temp_password salt; change_password salt].
Proof.
  repeat apply List.Forall_cons; try apply List.Forall_nil.
  all: unfold index,
     attendance_list, attendance_mark, attendance_reports, attendance_edit,
     attendance_delete,
     leaves_list, leave_apply, leave_approve, leave_reject, leave_decide, leave_edit,
     leave_delete,
     employees_list, employee_add, employee_edit, employee_delete, employee_view,
     payroll_list, payroll_generate, payroll_view, my_payroll, payroll_delete,
     jobs_list, job_add, job_edit, job_delete, job_view, job_apply,
     applicants_list, applicant_view, applicant_update_status,
     applicant_onboard, applicant_delete,
     forgot_password, change_password.
  all: repeat keeps_session_step.
Qed.

(** X29. A job posted through [job_add] gets an id that no posting has,
    is appended to the postings, which are written back unchanged, and can
    then be looked at by any visitor under that id, without its
    applicants. *)
Theorem posted_job_is_public (req req' : request) (st st' : state) (jobs : list value) :
  authorized ["Admin"; "HR Staff"] st ->
  method req = POST ->
  loaded st JOBS_FILE = VList jobs ->
  int_ids "job_id" jobs ->
  let job := new_job req st (next_id "job_id" jobs) in
  job_add req st
  = (flashed (written st JOBS_FILE (VList (jobs ++ [job])))
       ("Job posting " +:+ String (ascii_of_nat 34) EmptyString
        +:+ py_str (form_get req "title") +:+ String (ascii_of_nat 34) EmptyString
        +:+ " added successfully!") "success",
     Ok (Redirect "jobs_list" []))
  /\ (files st' = files (job_add req st).1 ->
      json_decode (json_dump (VList (jobs ++ [job]))) = Some (VList (jobs ++ [job])) ->
      py_in (session_role st') ["Admin"; "HR Staff"] = false ->
      job_view (next_id "job_id" jobs) req' st'
      = (st', Ok (Render "jobs/view.html" [("job", job); ("applicants", VList [])]))).
Proof.
  intros Hauth Hpost Hload Hids job.
  assert (job_add req st
          = (flashed (written st JOBS_FILE (VList (jobs ++ [job])))
               ("Job posting " +:+ String (ascii_of_nat 34) EmptyString
                +:+ py_str (form_get req "title") +:+ String (ascii_of_nat 34) EmptyString
                +:+ " added successfully!") "success",
             Ok (Redirect "jobs_list" []))) as Hrun.
  { unfold job_add. rewrite role_required_admits by done. rewrite Hpost.
    run_read. rewrite Hload.
    run_lift. rewrite next_id_get_spec.
    2:{ eapply Forall_impl; [exact Hids|]. by intros r [? _]. }
    run_session. done. }
  split; [exact Hrun|].
  intros Hfiles Hback Hrole. rewrite Hrun in Hfiles. cbn in Hfiles.
  assert (loaded st' JOBS_FILE = VList (jobs ++ [job])) as Hload'.
  { unfold loaded. rewrite Hfiles, lookup_insert_eq. fold job. by rewrite Hback. }
  unfold job_view. run_read. rewrite Hload'.
  run_lift. rewrite (find_by_id_hit "job_id" _ jobs [] job).
  - cbn [present py_truthy job new_job].
    run_session. fold (session_role st'). by rewrite Hrole.
  - by apply int_ids_fresh.
  - unfold id_is, job, new_job. cbn. unfold num_eqb. cbn. by rewrite Z.compare_refl.
Qed.

End MoreProperties.

(** * The other routes on the example data *)

Section MoreInstances.
Local Existing Instance Sample.externals.
Local Existing Instance SampleMore.arithmetic.
Local Existing Instance SampleMore.hashing.
Local Existing Instance kept_store.

(** Bilal logs in: he passes [login_required], and [role_required] for
    the administrators' routes sends him home. *)
Lemma login_opens_routes_witness :
  let st' := (login Examples.good_login Examples.anonymous).1 in
  login_required employees_list Examples.get_request st'
  = employees_list Examples.get_request st'
  /\ role_required ["Admin"; "HR Staff"] employees_list Examples.get_request st'
     = to_home st'.
Proof.
  apply (login_opens_routes Examples.good_login Examples.get_request Examples.anonymous
           (Examples.user_row 3 "bilal" "Employee" true (VInt 7))
           ["Admin"; "HR Staff"] employees_list).
  - split; [reflexivity|].
    exists Examples.user_rows, 2%nat, (VBool true), "bilal-secret", "bcrypt:bilal-secret".
    repeat split; vm_compute; reflexivity.
  - reflexivity.
  - reflexivity.
Defined.

Lemma write_then_read_witness :
  (write_json_file LEAVES_FILE (VList Examples.leave_rows);; read_json_file LEAVES_FILE)
    Examples.broken_leaves
  = (written Examples.broken_leaves LEAVES_FILE (VList Examples.leave_rows),
     Ok (VList Examples.leave_rows))
  /\ (write_json_file LEAVES_FILE (VList Examples.leave_rows);;
      read_json_file ATTENDANCE_FILE) Examples.broken_leaves
     = (written Examples.broken_leaves LEAVES_FILE (VList Examples.leave_rows),
        Ok (loaded Examples.broken_leaves ATTENDANCE_FILE)).
Proof.
  apply (write_then_read LEAVES_FILE ATTENDANCE_FILE (VList Examples.leave_rows)
           Examples.broken_leaves).
  - vm_compute. reflexivity.
  - discriminate.
Defined.

(** The next attendance id over the three records of the examples is 4. *)
Lemma allocated_id_is_new_witness :
  next_id_get (VList Examples.attendance_rows) "attendance_id" = Ok (VInt 4)
  /\ Forall (fun r => py_eq (field "attendance_id" r) (VInt 4) = false)
       Examples.attendance_rows.
Proof.
  apply (allocated_id_is_new "attendance_id" Examples.attendance_rows).
  repeat constructor.
Defined.


(** Employee 7 tries to mark attendance and to apply for leave as employee 4. *)
Lemma employees_act_for_themselves_witness :
  attendance_mark (Examples.post_request [("employee_id", "4"); ("action", "check_in")])
    Examples.as_employee7
  = (flashed Examples.as_employee7 "You can only mark your own attendance." "danger",
     Ok (Redirect "attendance_mark" []))
  /\ leave_apply (Examples.post_request [("employee_id", "4"); ("action", "check_in")])
       Examples.as_employee7
     = (flashed Examples.as_employee7 "You can only apply for your own leave." "danger",
        Ok (Redirect "leave_apply" [])).
Proof.
  apply (employees_act_for_themselves
           (Examples.post_request [("employee_id", "4"); ("action", "check_in")])
           Examples.as_employee7 4).
  - by eexists.
  - reflexivity.
  - vm_compute. reflexivity.
  - vm_compute. reflexivity.
Defined.

(** Employee 7 applies for leave: the request gets id 4. *)
Lemma leave_apply_pending_witness :
  leave_apply MoreExamples.leave_request Examples.as_employee7
  = (flashed (written Examples.as_employee7 LEAVES_FILE
                (VList (Examples.leave_rows
                        ++ [new_leave MoreExamples.leave_request 7 4])))
       "Leave application submitted successfully!" "success",
     Ok (Redirect "leaves_list" [])).
Proof.
  apply (leave_apply_pending MoreExamples.leave_request Examples.as_employee7 7
           Examples.leave_rows).
  - by eexists.
  - reflexivity.
  - vm_compute. reflexivity.
  - vm_compute. reflexivity.
  - vm_compute. reflexivity.
  - repeat constructor.
Defined.

(** The HR user decides on leave request 1. *)
Lemma leave_decision_recorded_witness :
  let leave := Examples.leave_row 1 4 "Pending" in
  let rest := [Examples.leave_row 2 7 "Approved"; Examples.leave_row 3 7 "Rejected"] in
  leave_approve 1 MoreExamples.decision Examples.as_hr
  = (flashed (written Examples.as_hr LEAVES_FILE
                (VList (decided_leave "Approved" MoreExamples.decision Examples.as_hr leave
                        :: rest)))
       "Leave request approved successfully!" "success",
     Ok (Redirect "leaves_list" []))
  /\ field "approved_by"
       (decided_leave "Approved" MoreExamples.decision Examples.as_hr leave) = VInt 2.
Proof.
  intros leave rest.
  destruct (leave_decision_recorded 1 MoreExamples.decision Examples.as_hr [] rest leave)
    as (Happrove & _ & _ & _ & Hby & _).
  - split; [by eexists | vm_compute; reflexivity].
  - vm_compute. reflexivity.
  - constructor.
  - vm_compute. reflexivity.
  - split; [exact Happrove | exact Hby].
Defined.

(** The HR user deletes leave request 1; employee 7 cannot delete the
    approved request 2, although it is theirs. *)
Lemma leave_delete_own_pending_witness :
  leave_delete 1 (Examples.post_request []) Examples.as_hr
  = (flashed (written Examples.as_hr LEAVES_FILE
                (VList [Examples.leave_row 2 7 "Approved";
                        Examples.leave_row 3 7 "Rejected"]))
       "Leave request deleted successfully!" "success",
     Ok (Redirect "leaves_list" []))
  /\ leave_delete 2 (Examples.post_request []) Examples.as_employee7
     = (flashed Examples.as_employee7
          "You can only delete your own pending leave requests." "danger",
        Ok (Redirect "leaves_list" [])).
Proof.
  split.
  - apply (leave_delete_own_pending 1 (Examples.post_request []) Examples.as_hr []
             [Examples.leave_row 2 7 "Approved"; Examples.leave_row 3 7 "Rejected"]
             (Examples.leave_row 1 4 "Pending")).
    + by eexists.
    + vm_compute. reflexivity.
    + constructor.
    + vm_compute. reflexivity.
    + repeat constructor.
    + reflexivity.
    + reflexivity.
  - apply (leave_delete_own_pending 2 (Examples.post_request []) Examples.as_employee7
             [Examples.leave_row 1 4 "Pending"] [Examples.leave_row 3 7 "Rejected"]
             (Examples.leave_row 2 7 "Approved")).
    + by eexists.
    + vm_compute. reflexivity.
    + repeat constructor.
    + vm_compute. reflexivity.
    + repeat constructor.
    + reflexivity.
    + reflexivity.
Defined.

(** Employee 4 after the approval of their request 1. *)
Lemma decided_leave_is_locked_witness :
  leave_delete 1 (Examples.post_request []) MoreExamples.owner_after_approval
  = (flashed MoreExamples.owner_after_approval
       "You can only delete your own pending leave requests." "danger",
     Ok (Redirect "leaves_list" []))
  /\ leave_edit 1 (Examples.post_request []) MoreExamples.owner_after_approval
     = (flashed MoreExamples.owner_after_approval
          "You can only edit your own pending leave requests." "danger",
        Ok (Redirect "leaves_list" [])).
Proof.
  apply (decided_leave_is_locked 1 "Approved" MoreExamples.decision
           (Examples.post_request []) Examples.as_hr MoreExamples.owner_after_approval
           [] [Examples.leave_row 2 7 "Approved"; Examples.leave_row 3 7 "Rejected"]
           (Examples.leave_row 1 4 "Pending")).
  - split; [by eexists | vm_compute; reflexivity].
  - vm_compute. reflexivity.
  - constructor.
  - vm_compute. reflexivity.
  - reflexivity.
  - left. split; reflexivity.
  - vm_compute. reflexivity.
  - by eexists.
  - vm_compute. reflexivity.
Defined.

(** A GET request for the leave form, by employee 7. *)
Lemma forms_get_never_writes_witness :
  files (leave_apply Examples.get_request Examples.as_employee7).1
  = files Examples.as_employee7
  /\ files (change_password "salt" Examples.get_request Examples.as_employee7).1
     = files Examples.as_employee7.
Proof.
  destruct (forms_get_never_writes Examples.get_request 1 "temporary" "salt" eq_refl)
    as (_ & _ & _ & Hleave & _ & _ & _ & _ & _ & _ & _ & _ & _ & Hchange).
  split; [apply Hleave|apply Hchange].
Defined.

(** The HR user generates the payroll of October 2025, for which
    employee 7 already has a record. *)
Lemma payroll_generate_keeps_unique_witness :
  let st := MoreExamples.with_payrolls Examples.as_hr in
  files (payroll_generate MoreExamples.payroll_run st).1 = files st
  \/ exists new,
       files (payroll_generate MoreExamples.payroll_run st).1
       = <[PAYROLLS_FILE := json_dump (VList (MoreExamples.payroll_rows ++ new))]> (files st)
       /\ Forall (generated_for MoreExamples.payroll_run st) new
       /\ (unique_per_period MoreExamples.payroll_rows = true ->
           unique_per_period (MoreExamples.payroll_rows ++ new) = true).
Proof.
  intros st.
  apply (payroll_generate_keeps_unique MoreExamples.payroll_run st MoreExamples.payroll_rows).
  vm_compute. reflexivity.
Defined.


(** Employee 7 may see the slip of their payroll record 1 and not
    record 2, which is of employee 4. *)
Lemma payroll_view_own_witness :
  let st := MoreExamples.with_payrolls Examples.as_employee7 in
  payroll_view 1 Examples.get_request st
  = (st, Ok (Render "payroll/slip.html"
               [("payroll", MoreExamples.payroll_row 1 7 "October" 2025);
                ("employee", Examples.employee_row 7 "Bilal" "Ahmed")]))
  /\ payroll_view 2 Examples.get_request st
     = (flashed st "You can only view your own payroll records." "danger",
        Ok (Redirect "index" [])).
Proof.
  intros st. split.
  - apply (payroll_view_own 1 Examples.get_request st []
             [MoreExamples.payroll_row 2 4 "September" 2025] Examples.employee_rows
             (MoreExamples.payroll_row 1 7 "October" 2025)).
    + by eexists.
    + vm_compute. reflexivity.
    + constructor.
    + reflexivity.
    + reflexivity.
    + vm_compute. reflexivity.
    + repeat constructor.
  - apply (payroll_view_own 2 Examples.get_request st
             [MoreExamples.payroll_row 1 7 "October" 2025] [] Examples.employee_rows
             (MoreExamples.payroll_row 2 4 "September" 2025)).
    + by eexists.
    + vm_compute. reflexivity.
    + repeat constructor.
    + reflexivity.
    + reflexivity.
    + vm_compute. reflexivity.
    + repeat constructor.
Defined.



(** Employee 7 logs in with the new password; the old one is refused. *)
Lemma new_password_logs_in_witness :
  let st' := MoreExamples.after_password_change in
  let user := Examples.user_row 3 "bilal" "Employee" true (VInt 7) in
  login MoreExamples.new_login st'
  = (flashed {| files := files st';
                session := session_for (with_password "bcrypt:s3cret-new" user) (session st');
                flashes := flashes st' |}
       ("Welcome back, " +:+ py_str (form_get MoreExamples.new_login "username") +:+ "!")
       "success",
     Ok (Redirect "index" []))
  /\ session (login Examples.good_login st').1 = session st'.
Proof.
  intros st' user.
  assert (change_accepts MoreExamples.new_password Examples.as_employee7 2 user
            "s3cret-new") as Hacc.
  { split; [by eexists|]. split; [reflexivity|]. split; [reflexivity|].
    split; [reflexivity|]. split; [by vm_compute|].
    exists Examples.user_rows, "bilal-secret", "bcrypt:bilal-secret".
    repeat split; vm_compute; reflexivity. }
  split.
  - destruct (new_password_logs_in "salt" MoreExamples.new_password
                MoreExamples.new_login Examples.as_employee7 st' 2 user
                "s3cret-new" "bcrypt:s3cret-new" Examples.user_rows Hacc)
      as [Hnew _];
      [reflexivity | vm_compute; reflexivity | vm_compute; reflexivity | reflexivity
      | reflexivity | vm_compute; reflexivity | reflexivity | reflexivity |].
    apply (Hnew "s3cret-new"); reflexivity.
  - destruct (new_password_logs_in "salt" MoreExamples.new_password
                Examples.good_login Examples.as_employee7 st' 2 user
                "s3cret-new" "bcrypt:s3cret-new" Examples.user_rows Hacc)
      as [_ Hold];
      [reflexivity | vm_compute; reflexivity | vm_compute; reflexivity | reflexivity
      | reflexivity | vm_compute; reflexivity | reflexivity | reflexivity |].
    apply (Hold "bilal-secret"); reflexivity.
Defined.

(** The administrator deletes applicant 1, whose resume is on file. *)
Lemma applicant_delete_removes_resume_witness :
  let st := MoreExamples.with_applicants Examples.as_admin in
  let applicant :=
    MoreExamples.applicant_row 1 5 "Ayesha" "Raza" (VStr "20251003_093000_cv.pdf") in
  applicant_delete 1 (Examples.post_request []) st
  = (flashed {| files := <[APPLICANTS_FILE :=
                   json_dump (VList [MoreExamples.applicant_row 2 3 "Omar" "Sheikh" VNone;
                                     MoreExamples.applicant_row 3 5 "Zain" "Ali" VNone])]>
                           (without_resume applicant (files st));
                session := session st; flashes := flashes st |}
       ("Applicant "
        +:+ (py_str (field "first_name" applicant) +:+ " "
             +:+ py_str (field "last_name" applicant))
        +:+ " deleted successfully!") "success",
     Ok (Redirect "applicants_list" [])).
Proof.
  intros st applicant.
  apply (applicant_delete_removes_resume 1 (Examples.post_request []) st []
           [MoreExamples.applicant_row 2 3 "Omar" "Sheikh" VNone;
            MoreExamples.applicant_row 3 5 "Zain" "Ali" VNone] applicant).
  - split; [by eexists|reflexivity].
  - vm_compute. reflexivity.
  - constructor.
  - reflexivity.
  - repeat constructor.
  - reflexivity.
  - reflexivity.
  - reflexivity.
Defined.

(** A visitor looks at job 5, which has two applicants. *)
Lemma job_view_hides_applicants_witness :
  let st := MoreExamples.with_applicants Examples.anonymous in
  job_view 5 Examples.get_request st
  = (st, Ok (Render "jobs/view.html"
               [("job", Examples.job_row 5 "Software Engineer");
                ("applicants", VList (shown_applicants st 5 MoreExamples.applicant_rows))])).
Proof.
  intros st.
  apply (job_view_hides_applicants 5 Examples.get_request st
           [Examples.job_row 3 "Accountant"] [] MoreExamples.applicant_rows
           (Examples.job_row 5 "Software Engineer")).
  - vm_compute. reflexivity.
  - repeat constructor.
  - reflexivity.
  - vm_compute. reflexivity.
  - repeat constructor.
Defined.

(** An application for job 5 with a file named cv.exe. *)
Lemma job_apply_rejections_witness :
  job_apply 5 MoreExamples.bad_application Examples.anonymous
  = (flashed Examples.anonymous
       "Invalid file type. Please upload PDF, DOC, or DOCX files only." "danger",
     Ok (Render "jobs/apply.html" [("job", Examples.job_row 5 "Software Engineer")]))
  /\ job_apply 9 MoreExamples.bad_application Examples.anonymous
     = (flashed Examples.anonymous "Job posting not found." "danger",
        Ok (Redirect "index" [])).
Proof.
  destruct (job_apply_rejections 5 MoreExamples.bad_application Examples.anonymous
              [Examples.job_row 3 "Accountant"] []
              (Examples.job_row 5 "Software Engineer")) as [Hfile Hjob].
  - reflexivity.
  - vm_compute. reflexivity.
  - repeat constructor.
  - reflexivity.
  - split.
    + apply Hfile. exists "cv.exe", "MZ". split; [reflexivity|]. split; [done|].
      vm_compute. reflexivity.
    + apply Hjob. repeat constructor.
Defined.

(** The HR user edits employee 7 (the second record). *)
Lemma employee_edit_keeps_identity_witness :
  let edited :=
    edited_employee MoreExamples.employee_change (Sample.Z_float 95000)
      (Examples.employee_row 7 "Bilal" "Ahmed") in
  files (employee_edit 7 MoreExamples.employee_change Examples.as_hr).1
  = <[EMPLOYEES_FILE := json_dump (VList [Examples.employee_row 4 "Hina" "Khan"; edited])]>
      (files Examples.as_hr)
  /\ field "employee_id" edited = VInt 7.
Proof.
  intros edited.
  destruct (employee_edit_keeps_identity 7 MoreExamples.employee_change Examples.as_hr
              [Examples.employee_row 4 "Hina" "Khan"] []
              (Examples.employee_row 7 "Bilal" "Ahmed")) as [Hok _].
  - split; [by eexists|reflexivity].
  - reflexivity.
  - vm_compute. reflexivity.
  - repeat constructor.
  - reflexivity.
  - destruct (Hok (Sample.Z_float 95000)) as (Hrun & Hid & _).
    + vm_compute. reflexivity.
    + split; [by rewrite Hrun|exact Hid].
Defined.

(** Employee 7 checks in over the example attendance file. *)
Lemma attendance_stays_unique_witness :
  (files (attendance_mark MoreExamples.check_in Examples.as_employee7).1
   = files Examples.as_employee7
   \/ exists l', files (attendance_mark MoreExamples.check_in Examples.as_employee7).1
                 = <[ATTENDANCE_FILE := json_dump (VList l')]> (files Examples.as_employee7)
                 /\ unique_per_day l' = true)
  /\ (files (attendance_delete 2 MoreExamples.check_in Examples.as_employee7).1
      = files Examples.as_employee7
      \/ exists l', files (attendance_delete 2 MoreExamples.check_in Examples.as_employee7).1
                    = <[ATTENDANCE_FILE := json_dump (VList l')]>
                        (files Examples.as_employee7)
                    /\ unique_per_day l' = true).
Proof.
  apply (attendance_stays_unique 2 MoreExamples.check_in Examples.as_employee7
           Examples.attendance_rows).
  - vm_compute. reflexivity.
  - reflexivity.
Defined.

(** Employee 7 checks in twice on 2025-10-03. *)
Lemma check_in_once_witness :
  attendance_mark MoreExamples.check_in Examples.as_employee7
  = (flashed (written Examples.as_employee7 ATTENDANCE_FILE
                (VList (Examples.attendance_rows
                        ++ [new_attendance MoreExamples.check_in 7 4])))
       "Check-in recorded successfully!" "success",
     Ok (Redirect "attendance_mark" []))
  /\ attendance_mark MoreExamples.check_in MoreExamples.after_check_in
     = (flashed MoreExamples.after_check_in "You have already checked in today!" "warning",
        Ok (Redirect "attendance_mark" [])).
Proof.
  destruct (check_in_once MoreExamples.check_in MoreExamples.check_in
              Examples.as_employee7 MoreExamples.after_check_in 7
              Examples.attendance_rows) as [Hfirst Hsecond].
  - by eexists.
  - reflexivity.
  - vm_compute. reflexivity.
  - reflexivity.
  - reflexivity.
  - vm_compute. reflexivity.
  - repeat constructor.
  - repeat constructor.
  - split; [exact Hfirst|].
    apply Hsecond.
    + reflexivity.
    + vm_compute. reflexivity.
    + by eexists.
    + reflexivity.
    + vm_compute. reflexivity.
    + reflexivity.
    + reflexivity.
    + reflexivity.
Defined.

(** The HR user lists the payroll. *)
Lemma payroll_list_names_witness :
  let st := MoreExamples.with_payrolls Examples.as_hr in
  payroll_list Examples.get_request st
  = (st, Ok (Render "payroll/list.html"
               [("payrolls",
                 VList (map (named_after Examples.employee_rows)
                          MoreExamples.payroll_rows))])).
Proof.
  intros st.
  apply (payroll_list_names Examples.get_request st MoreExamples.payroll_rows
           Examples.employee_rows).
  - split; [by eexists|reflexivity].
  - vm_compute. reflexivity.
  - repeat constructor.
  - vm_compute. reflexivity.
  - repeat constructor.
  - repeat constructor.
Defined.

(** The HR user asks for the report on employee 7 for the first of
    October: one record of three. *)
Lemma attendance_report_rows_witness :
  attendance_reports MoreExamples.report_request Examples.as_hr
  = (Examples.as_hr,
     Ok (Render "attendance/reports.html"
           [("attendance_records",
             VList (map (named_after Examples.employee_rows)
                      (List.filter (in_report MoreExamples.report_request (Some 7))
                         Examples.attendance_rows)));
            ("employees", VList Examples.employee_rows);
            ("start_date", args_get MoreExamples.report_request "start_date");
            ("end_date", args_get MoreExamples.report_request "end_date");
            ("employee_id", args_get MoreExamples.report_request "employee_id")]))
  /\ List.filter (in_report MoreExamples.report_request (Some 7)) Examples.attendance_rows
     = [Examples.attendance_row 1 7 "2025-10-01" (VStr "17:00:00")].
Proof.
  split; [|vm_compute; reflexivity].
  apply (attendance_report_rows MoreExamples.report_request Examples.as_hr
           Examples.attendance_rows Examples.employee_rows (Some 7)).
  - split; [by eexists|reflexivity].
  - vm_compute. reflexivity.
  - repeat constructor.
  - intros r [<-|[<-|[<-|[]]]]; by eexists.
  - vm_compute. reflexivity.
  - repeat constructor.
  - repeat constructor.
  - vm_compute. reflexivity.
Defined.

(** Employee 7 asks for the employees list; the HR user tries to delete a
    payroll record. *)
Lemma management_routes_closed_witness :
  employees_list Examples.get_request Examples.as_employee7 = to_home Examples.as_employee7
  /\ payroll_delete 1 (Examples.post_request []) Examples.as_hr = to_home Examples.as_hr.
Proof.
  split.
  - destruct (management_routes_closed Examples.get_request Examples.as_employee7 1)
      as [Hall _]; [by eexists|].
    specialize (Hall eq_refl).
    by do 5 apply Forall_inv_tail in Hall; apply Forall_inv in Hall.
  - destruct (management_routes_closed (Examples.post_request []) Examples.as_hr 1)
      as [_ Hadmin]; [by eexists|].
    by destruct (Hadmin eq_refl) as [Hpay _].
Defined.

(** The HR user posts a job, which gets id 6; a visitor looks at it. *)
Lemma posted_job_is_public_witness :
  let job := new_job MoreExamples.job_posting Examples.as_hr 6 in
  files (job_add MoreExamples.job_posting Examples.as_hr).1
  = <[JOBS_FILE := json_dump (VList (Examples.job_rows ++ [job]))]> (files Examples.as_hr)
  /\ job_view 6 Examples.get_request MoreExamples.visitor_after_posting
     = (MoreExamples.visitor_after_posting,
        Ok (Render "jobs/view.html" [("job", job); ("applicants", VList [])])).
Proof.
  intros job.
  destruct (posted_job_is_public MoreExamples.job_posting Examples.get_request
              Examples.as_hr MoreExamples.visitor_after_posting Examples.job_rows)
    as [Hadd Hview].
  - split; [by eexists|reflexivity].
  - reflexivity.
  - vm_compute. reflexivity.
  - repeat constructor.
  - split; [by rewrite Hadd|].
    apply Hview.
    + reflexivity.
    + vm_compute. reflexivity.
    + reflexivity.
Defined.

End MoreInstances.
